(** * FinancialForecastingDashboard: the three pipeline scripts

    A shallow embedding of [scripts/database_setup.py], [scripts/pipeline.py]
    and [scripts/run_forecasting.py].  The scripts are effectful Python: they
    read the process environment, print, touch the file system, talk to a
    PostgreSQL server through psycopg2, spawn [dbt] and call Prophet.  They are
    modelled as computations in a state-and-exception monad over an explicit
    [world]; every externally visible action is also appended to an event log
    so that ordering properties ("before any I/O", "never invoked") can be
    stated.  Third-party libraries are not part of the repository: what they
    compute is taken from a record of parameters ([libs]) wherever the scripts
    do not depend on it, and written out after the library where they do. *)

From stdpp Require Import base option list strings gmap pretty sorting.
From Stdlib Require Import Ascii ZArith QArith Lia.

Set Warnings "-register-all".

Open Scope string_scope.
Open Scope list_scope.
Open Scope Z_scope.

(** ** Python values and exceptions *)

(** What [json.load] can return.  A dict is kept as an association list in
    which the first binding of a key is the one [dict.get] sees. *)
Inductive pyval : Type :=
  | PNone
  | PBool (b : bool)
  | PInt (z : Z)
  | PFloat (q : Q)
  | PStr (s : string)
  | PList (items : list pyval)
  | PDict (items : list (string * pyval)).

(** The exception classes that can occur, with their place in the class
    hierarchy.  [C_Named] stands for a class that none of the scripts or
    their libraries defines; it is only there so that such a class can be
    named in a statement. *)
Inductive pyclass : Type :=
  | C_BaseException
  | C_SystemExit
  | C_Exception
  | C_OSError
  | C_FileNotFoundError
  | C_FileExistsError
  | C_ValueError
  | C_JSONDecodeError
  | C_TypeError
  | C_AttributeError
  | C_LookupError
  | C_KeyError
  | C_RuntimeError
  | C_CalledProcessError
  | C_psycopg2_Error
  | C_InterfaceError
  | C_DatabaseError
  | C_OperationalError
  | C_IntegrityError
  | C_UniqueViolation
  | C_NotNullViolation
  | C_DataError
  | C_ProgrammingError
  | C_InternalError
  | C_InFailedSqlTransaction
  | C_pandas_DatabaseError
  | C_sqlalchemy_OperationalError
  | C_Named (name : string).

Definition base_class (c : pyclass) : option pyclass :=
  match c with
  | C_BaseException => None
  | C_SystemExit => Some C_BaseException
  | C_Exception => Some C_BaseException
  | C_OSError => Some C_Exception
  | C_FileNotFoundError => Some C_OSError
  | C_FileExistsError => Some C_OSError
  | C_ValueError => Some C_Exception
  | C_JSONDecodeError => Some C_ValueError
  | C_TypeError => Some C_Exception
  | C_AttributeError => Some C_Exception
  | C_LookupError => Some C_Exception
  | C_KeyError => Some C_LookupError
  | C_RuntimeError => Some C_Exception
  | C_CalledProcessError => Some C_Exception
  | C_psycopg2_Error => Some C_Exception
  | C_InterfaceError => Some C_psycopg2_Error
  | C_DatabaseError => Some C_psycopg2_Error
  | C_OperationalError => Some C_DatabaseError
  | C_IntegrityError => Some C_DatabaseError
  | C_UniqueViolation => Some C_IntegrityError
  | C_NotNullViolation => Some C_IntegrityError
  | C_DataError => Some C_DatabaseError
  | C_ProgrammingError => Some C_DatabaseError
  | C_InternalError => Some C_DatabaseError
  | C_InFailedSqlTransaction => Some C_InternalError
  | C_pandas_DatabaseError => Some C_Exception
  | C_sqlalchemy_OperationalError => Some C_Exception
  | C_Named _ => Some C_Exception
  end.

Global Instance pyclass_eq_dec : EqDecision pyclass.
Proof. solve_decision. Defined.

(** [subclass_upto n c d]: [d] is reached from [c] in at most [n] steps up
    the hierarchy.  The hierarchy above is five levels deep. *)
Fixpoint subclass_upto (n : nat) (c d : pyclass) : bool :=
  if decide (c = d) then true
  else match n with
       | O => false
       | S n' => match base_class c with
                 | Some b => subclass_upto n' b d
                 | None => false
                 end
       end.

Definition issubclass (c d : pyclass) : bool := subclass_upto 6 c d.

(** A raised exception.  [SystemExit] carries the exit status, everything
    else its class and [str(e)]. *)
Inductive exn : Type :=
  | SystemExit (code : Z)
  | Error (cls : pyclass) (msg : string).

Definition class_of (e : exn) : pyclass :=
  match e with
  | SystemExit _ => C_SystemExit
  | Error c _ => c
  end.

Definition str_of_exn (e : exn) : string :=
  match e with
  | SystemExit _ => ""
  | Error _ m => m
  end.

Definition isinstance (e : exn) (c : pyclass) : bool := issubclass (class_of e) c.

(** ** Calendar time *)

(** A naive timestamp: whole months counted from January of year 0, days
    after the first of the month, seconds after midnight.  The year is
    [ts_months / 12], the month of the year [ts_months mod 12 + 1]. *)
Record timestamp : Type := Timestamp {
  ts_months : Z;
  ts_day0 : N;
  ts_secs : N
}.

Global Instance timestamp_eq_dec : EqDecision timestamp.
Proof. solve_decision. Defined.

Definition ts_compare (a b : timestamp) : comparison :=
  match ts_months a ?= ts_months b with
  | Eq => match (ts_day0 a ?= ts_day0 b)%N with
          | Eq => (ts_secs a ?= ts_secs b)%N
          | c => c
          end
  | c => c
  end.

Definition ts_ltb (a b : timestamp) : bool :=
  match ts_compare a b with Lt => true | _ => false end.

Definition ts_leb (a b : timestamp) : bool :=
  match ts_compare a b with Gt => false | _ => true end.

(** ** Tables and data frames *)

Inductive cell : Type :=
  | CNull
  | CInt (z : Z)
  | CNum (q : Q)
  | CText (s : string)
  | CTime (t : timestamp) (utc_offset : option Z).

Definition cell_eqb (a b : cell) : bool :=
  match a, b with
  | CNull, CNull => true
  | CInt x, CInt y => bool_decide (x = y)
  | CNum x, CNum y => Qeq_bool x y
  | CText x, CText y => bool_decide (x = y)
  | CTime x ox, CTime y oy => bool_decide (x = y) && bool_decide (ox = oy)
  | _, _ => false
  end.

Definition is_null (c : cell) : bool :=
  match c with CNull => true | _ => false end.

Inductive sqltype : Type :=
  | T_INT
  | T_BIGINT
  | T_DECIMAL
  | T_DOUBLE
  | T_DATE
  | T_TIMESTAMP
  | T_VARCHAR (n : nat)
  | T_TEXT.

Global Instance sqltype_eq_dec : EqDecision sqltype.
Proof. solve_decision. Defined.

Record column : Type := Column {
  col_name : string;
  col_type : sqltype;
  col_primary_key : bool
}.

Global Instance column_eq_dec : EqDecision column.
Proof. solve_decision. Defined.

Record table : Type := Table {
  t_schema : list column;
  t_rows : list (list cell)
}.

(** A pandas DataFrame: column labels and rows of cells. *)
Record DataFrame : Type := Frame {
  df_columns : list string;
  df_rows : list (list cell)
}.

Abbreviation database := (gmap string table).
Abbreviation path := (list string).

(** ** The libraries the scripts call

    None of these is code of the repository.  Each field is what the
    library computes at the place where a script calls it; the scripts'
    control flow never looks inside. *)
Record prophet_config : Type := ProphetConfig {
  yearly_seasonality : bool;
  changepoint_prior_scale : Q
}.

Inductive dbt_outcome : Type :=
  | DbtNotInstalled
  | DbtExit (status : Z) (after : database).

Record libs : Type := Libs {
  (** [json.load]: [None] when the text is not JSON. *)
  json_parse : string -> option pyval;
  (** PostgreSQL's input conversion of a bound parameter to a column type:
      [None] when the server rejects the value. *)
  pg_cast : sqltype -> pyval -> option cell;
  (** [pandas.to_datetime] on one value: [None] when it cannot be read as
      a date. *)
  to_datetime : cell -> option cell;
  (** Prophet's optimiser: the fitted parameters, or [None] when the
      optimisation fails. *)
  prophet_optimize : prophet_config -> list (timestamp * Q) -> option (list Q);
  (** The value Prophet predicts for one output column at one date. *)
  prophet_component : list Q -> timestamp -> string -> Q;
  (** What [dbt run] does with the generated project and the database. *)
  dbt_run : gmap path string -> database -> dbt_outcome
}.

(** ** The world *)

Inductive txn_state : Type :=
  | TxIdle
  | TxOpen (working : database)
  | TxAborted.

(** A psycopg2 connection.  The server is used by one client at a time, so
    an open transaction is a working copy of the database that [commit]
    publishes and [rollback] drops. *)
Record session : Type := Session {
  s_closed : bool;
  s_txn : txn_state
}.

Inductive stream : Type := Stdout | Stderr.

Inductive statement : Type :=
  | CreateTableIfNotExists (name : string) (cols : list column)
  | InsertInto (name : string) (cols : list string) (params : list pyval)
  | SelectOrderBy (cols : list string) (name : string) (order_by : string).

Inductive event : Type :=
  | Print (s : stream) (text : string)
  | Makedirs (p : path)
  | OpenRead (p : path)
  | OpenWrite (p : path)
  | Connect (host port dbname user password : string)
  | Execute (conn : nat) (stmt : statement)
  | Commit (conn : nat)
  | Rollback (conn : nat)
  | Close (conn : nat)
  | ToSql (name : string) (url : string)
  | Fit (observations : nat)
  | Spawn (argv : list string).

(** Printing goes to the terminal; everything else is file or network
    traffic, except [Fit], which is a computation. *)
Definition file_or_network (e : event) : bool :=
  match e with
  | Print _ _ => false
  | Fit _ => false
  | _ => true
  end.

Record world : Type := World {
  environ : gmap string string;
  cwd : path;
  home : path;
  dirs : gset path;
  files : gmap path string;
  (** whether the server accepts a connection with these parameters *)
  server_accepts : string -> string -> string -> string -> string -> bool;
  db : database;
  sessions : list session;
  log : list event
}.

Definition set_log (w : world) (l : list event) : world :=
  World (environ w) (cwd w) (home w) (dirs w) (files w) (server_accepts w)
        (db w) (sessions w) l.

Definition set_dirs (w : world) (d : gset path) : world :=
  World (environ w) (cwd w) (home w) d (files w) (server_accepts w)
        (db w) (sessions w) (log w).

Definition set_files (w : world) (f : gmap path string) : world :=
  World (environ w) (cwd w) (home w) (dirs w) f (server_accepts w)
        (db w) (sessions w) (log w).

Definition set_db (w : world) (d : database) : world :=
  World (environ w) (cwd w) (home w) (dirs w) (files w) (server_accepts w)
        d (sessions w) (log w).

Definition set_sessions (w : world) (s : list session) : world :=
  World (environ w) (cwd w) (home w) (dirs w) (files w) (server_accepts w)
        (db w) s (log w).

(** ** The monad: state and exceptions *)

Inductive result (A : Type) : Type :=
  | Ok (a : A)
  | Raise (e : exn).
Arguments Ok {A} a.
Arguments Raise {A} e.

Definition py (A : Type) : Type := world -> result A * world.

Global Instance py_ret : MRet py := fun A a w => (Ok a, w).

Global Instance py_bind : MBind py := fun A B f m w =>
  match m w with
  | (Ok a, w') => f a w'
  | (Raise e, w') => (Raise e, w')
  end.

Definition raise {A : Type} (e : exn) : py A := fun w => (Raise e, w).

Definition get_world : py world := fun w => (Ok w, w).

Definition modify (f : world -> world) : py unit := fun w => (Ok tt, f w).

(** The world with one more event at the end of its log. *)
Definition logged (e : event) (w : world) : world := set_log w (log w ++ [e]).

Definition emit (e : event) : py unit := modify (logged e).

Definition lift_result {A : Type} (r : result A) : py A := fun w => (r, w).

(** [try: body / except <clauses>]: [handlers e] is the body of the first
    clause that matches [e], if any. *)
Definition try_except {A : Type} (body : py A) (handlers : exn -> option (py A)) : py A :=
  fun w =>
    match body w with
    | (Ok a, w') => (Ok a, w')
    | (Raise e, w') =>
        match handlers e with
        | Some h => h w'
        | None => (Raise e, w')
        end
    end.

(** [try: body / finally: cleanup]: the cleanup always runs; an exception
    from the cleanup replaces the pending outcome. *)
Definition try_finally {A : Type} (body : py A) (cleanup : py unit) : py A :=
  fun w =>
    match body w with
    | (r, w') =>
        match cleanup w' with
        | (Ok _, w'') => (r, w'')
        | (Raise e, w'') => (Raise e, w'')
        end
    end.

Fixpoint for_each {A : Type} (xs : list A) (body : A -> py unit) : py unit :=
  match xs with
  | [] => mret tt
  | x :: rest => body x ;; for_each rest body
  end.

(** The exit status of the interpreter when the script's [main()] ends
    with this outcome. *)
Definition exit_status {A : Type} (r : result A) : Z :=
  match r with
  | Ok _ => 0
  | Raise (SystemExit c) => c
  | Raise (Error _ _) => 1
  end.

Definition run_script {A : Type} (main : py A) (w : world) : Z * world :=
  match main w with
  | (r, w') => (exit_status r, w')
  end.

(** ** Built-ins *)

Definition print (text : string) : py unit := emit (Print Stdout text).
Definition print_stderr (text : string) : py unit := emit (Print Stderr text).

Definition sys_exit {A : Type} (code : Z) : py A := raise (SystemExit code).

(** [os.environ.get(name)] *)
Definition environ_get (name : string) : py (option string) :=
  fun w => (Ok (environ w !! name), w).

(** Truth value of [None] or a [str]. *)
Definition truthy (v : option string) : bool :=
  match v with
  | None => false
  | Some s => negb (bool_decide (s = ""))
  end.

(** The string held by a variable that is known not to be [None]. *)
Definition str_value (v : option string) : string := default "" v.

(** [all([...])] *)
Definition all (vs : list (option string)) : bool := forallb truthy vs.

Definition getcwd : py path := fun w => (Ok (cwd w), w).

(** [os.path.expanduser("~")] *)
Definition expanduser_home : py path := fun w => (Ok (home w), w).

(** [os.path.join] of a directory and relative components. *)
Definition path_join (p : path) (parts : list string) : path := p ++ parts.

(** All non-empty prefixes of a path, shortest first. *)
Fixpoint prefixes (p : path) : list path :=
  match p with
  | [] => []
  | d :: rest => [d] :: map (cons d) (prefixes rest)
  end.

(** [os.makedirs(p, exist_ok=True)].  Name clashes between a file and a
    directory, permissions and device errors are outside the model. *)
Definition makedirs (p : path) : py unit :=
  emit (Makedirs p) ;;
  modify (fun w => set_dirs w (dirs w ∪ list_to_set (prefixes p))).

Definition parent (p : path) : path := take (length p - 1)%nat p.

Definition dir_exists (w : world) (p : path) : bool :=
  bool_decide (p = []) || bool_decide (p ∈ dirs w).

Definition path_str (p : path) : string :=
  foldr (fun d acc => "/" +:+ d +:+ acc) "" p.

Definition no_such_file (p : path) : exn :=
  Error C_FileNotFoundError ("[Errno 2] No such file or directory: '" +:+ path_str p +:+ "'").

(** [with open(p, 'r') as f: f.read()] *)
Definition read_file (p : path) : py string :=
  emit (OpenRead p) ;;
  w ← get_world;
  match files w !! p with
  | Some text => mret text
  | None => raise (no_such_file p)
  end.

(** [with open(p, 'w') as f: f.write(text)] *)
Definition write_file (p : path) (text : string) : py unit :=
  emit (OpenWrite p) ;;
  w ← get_world;
  if dir_exists w (parent p)
  then modify (fun w => set_files w (<[p := text]> (files w)))
  else raise (no_such_file p).

(** ** PostgreSQL: what the server does with a statement *)

Definition position (name : string) (names : list string) : option nat :=
  fst <$> list_find (fun n => n = name) names.

Definition cell_at (row : list cell) (i : nat) : cell := default CNull (row !! i).

(** The primary-key cells of a row. *)
Definition key_of (schema : list column) (row : list cell) : list cell :=
  snd <$> List.filter (fun cr => col_primary_key (fst cr)) (zip schema row).

Fixpoint cells_eqb (a b : list cell) : bool :=
  match a, b with
  | [], [] => true
  | x :: a', y :: b' => cell_eqb x y && cells_eqb a' b'
  | _, _ => false
  end.

(** A parameter bound to [%s]: [None] is sent as [NULL]; anything else
    goes through the server's input conversion. *)
Definition bind_param (L : libs) (ty : sqltype) (v : pyval) : option cell :=
  match v with
  | PNone => Some CNull
  | _ => pg_cast L ty v
  end.

(** The row an [INSERT] builds, in the table's column order: a column
    that the statement does not name gets [NULL]. *)
Fixpoint build_row (L : libs) (schema : list column) (given : list (string * pyval))
  : result (list cell) :=
  match schema with
  | [] => Ok []
  | c :: rest =>
      let v := default PNone (snd <$> List.find (fun kv => bool_decide (fst kv = col_name c)) given) in
      match bind_param L (col_type c) v with
      | None =>
          Raise (Error C_DataError ("invalid input value for column " +:+ col_name c))
      | Some x =>
          match build_row L rest given with
          | Ok row => Ok (x :: row)
          | Raise e => Raise e
          end
      end
  end.

Definition undefined_table (name : string) : exn :=
  Error C_ProgrammingError ("relation " +:+ name +:+ " does not exist").

Definition undefined_column (name : string) : exn :=
  Error C_ProgrammingError ("column " +:+ name +:+ " does not exist").

Definition insert_into (L : libs) (name : string) (cols : list string)
    (params : list pyval) (d : database) : result database :=
  match d !! name with
  | None => Raise (undefined_table name)
  | Some t =>
      match List.find (fun c => negb (bool_decide (c ∈ col_name <$> t_schema t))) cols with
      | Some c => Raise (undefined_column c)
      | None =>
          match build_row L (t_schema t) (zip cols params) with
          | Raise e => Raise e
          | Ok row =>
              let key := key_of (t_schema t) row in
              if existsb is_null key then
                Raise (Error C_NotNullViolation
                         ("null value in a primary key column of " +:+ name))
              else if negb (bool_decide (key = [])) &&
                      existsb (fun r => cells_eqb (key_of (t_schema t) r) key) (t_rows t) then
                Raise (Error C_UniqueViolation
                         ("duplicate key value violates unique constraint " +:+ name +:+ "_pkey"))
              else Ok (<[name := Table (t_schema t) (t_rows t ++ [row])]> d)
          end
      end
  end.

(** Ascending order as [ORDER BY] uses it, [NULL]s last.  A column holds
    values of one kind; values of different kinds are ordered by kind.
    Times are compared by their calendar fields. *)
Definition cell_rank (c : cell) : nat :=
  match c with
  | CInt _ => 0
  | CNum _ => 1
  | CText _ => 2
  | CTime _ _ => 3
  | CNull => 4
  end.

Definition cell_leb (a b : cell) : bool :=
  match a, b with
  | CInt x, CInt y => x <=? y
  | CNum x, CNum y => Qle_bool x y
  | CText x, CText y => String.leb x y
  | CTime x _, CTime y _ => ts_leb x y
  | _, _ => (cell_rank a <=? cell_rank b)%nat
  end.

Fixpoint insert_sorted (i : nat) (r : list cell) (sorted : list (list cell))
  : list (list cell) :=
  match sorted with
  | [] => [r]
  | s :: rest =>
      if cell_leb (cell_at s i) (cell_at r i)
      then s :: insert_sorted i r rest
      else r :: s :: rest
  end.

Definition sort_rows (i : nat) (rows : list (list cell)) : list (list cell) :=
  foldl (fun acc r => insert_sorted i r acc) [] rows.

(** [SELECT cols FROM name ORDER BY order_by] *)
Definition select_order_by (cols : list string) (name order_by : string) (d : database)
  : result DataFrame :=
  match d !! name with
  | None => Raise (undefined_table name)
  | Some t =>
      let names := col_name <$> t_schema t in
      match List.find (fun c => negb (bool_decide (c ∈ names))) (cols ++ [order_by]) with
      | Some c => Raise (undefined_column c)
      | None =>
          let idx := omap (fun c => position c names) cols in
          let sorted := sort_rows (default O (position order_by names)) (t_rows t) in
          Ok (Frame cols ((fun r => cell_at r <$> idx) <$> sorted))
      end
  end.

Definition exec_sql (L : libs) (stmt : statement) (d : database) : result database :=
  match stmt with
  | CreateTableIfNotExists name cols =>
      match d !! name with
      | Some _ => Ok d
      | None => Ok (<[name := Table cols []]> d)
      end
  | InsertInto name cols params => insert_into L name cols params d
  | SelectOrderBy cols name order_by =>
      match select_order_by cols name order_by d with
      | Ok _ => Ok d
      | Raise e => Raise e
      end
  end.

(** ** psycopg2 *)

(** The database as a connection sees it. *)
Definition visible (w : world) (s : session) : database :=
  match s_txn s with
  | TxOpen d => d
  | _ => db w
  end.

Definition set_session (h : nat) (s : session) : py unit :=
  modify (fun w => set_sessions w (<[h := s]> (sessions w))).

Definition connection_closed : exn := Error C_InterfaceError "connection already closed".

(** The state of an open connection; [InterfaceError] when it is closed. *)
Definition open_session (h : nat) : py session :=
  w ← get_world;
  match sessions w !! h with
  | Some s => if s_closed s then raise connection_closed else mret s
  | None => raise connection_closed
  end.

(** [psycopg2.connect(host=, port=, dbname=, user=, password=)] *)
Definition connect (host port dbname user password : string) : py nat :=
  emit (Connect host port dbname user password) ;;
  w ← get_world;
  if server_accepts w host port dbname user password
  then modify (fun w => set_sessions w (sessions w ++ [Session false TxIdle])) ;;
       mret (length (sessions w))
  else raise (Error C_OperationalError
                ("could not connect to server " +:+ host +:+ ":" +:+ port)).

(** [conn.cursor()] *)
Definition cursor (h : nat) : py unit := open_session h ;; mret tt.

(** [cursor.execute(stmt)]: the first statement opens a transaction; a
    failing statement leaves the transaction aborted until it is rolled
    back. *)
Definition execute (L : libs) (h : nat) (stmt : statement) : py unit :=
  emit (Execute h stmt) ;;
  s ← open_session h;
  w ← get_world;
  match s_txn s with
  | TxAborted =>
      raise (Error C_InFailedSqlTransaction
               "current transaction is aborted, commands ignored until end of transaction block")
  | _ =>
      match exec_sql L stmt (visible w s) with
      | Ok d' => set_session h (Session false (TxOpen d'))
      | Raise e => set_session h (Session false TxAborted) ;; raise e
      end
  end.

(** [conn.commit()] *)
Definition commit (h : nat) : py unit :=
  emit (Commit h) ;;
  s ← open_session h;
  match s_txn s with
  | TxOpen d => modify (fun w => set_db w d) ;; set_session h (Session false TxIdle)
  | _ => set_session h (Session false TxIdle)
  end.

(** [conn.rollback()] *)
Definition rollback (h : nat) : py unit :=
  emit (Rollback h) ;;
  open_session h ;;
  set_session h (Session false TxIdle).

(** [conn.close()]: drops an open transaction; closing twice is allowed. *)
Definition close (h : nat) : py unit :=
  emit (Close h) ;;
  set_session h (Session true TxIdle).

(** [conn = None; try: conn = acquire(); body / except ... / finally: cleanup]:
    the shape of both [main] functions that open a connection.  [cleanup]
    sees the value the variable [conn] has when the [finally] block runs:
    [None] if [acquire] raised. *)
Definition try_acquire {A R : Type} (acquire : py R) (body : R -> py A)
    (handlers : exn -> option (py A)) (cleanup : option R -> py unit) : py A :=
  fun w =>
    match acquire w with
    | (Ok r, w1) => try_finally (try_except (body r) handlers) (cleanup (Some r)) w1
    | (Raise e, w1) => try_finally (try_except (raise e) handlers) (cleanup None) w1
    end.

(** ** More of Python: iteration, [len], [dict.get], [json.load] *)

Definition chars (s : string) : list string :=
  (fun c => String c EmptyString) <$> String.list_ascii_of_string s.

Definition dict_keys (items : list (string * pyval)) : list string :=
  remove_dups (fst <$> items).

Definition type_name (v : pyval) : string :=
  match v with
  | PNone => "NoneType"
  | PBool _ => "bool"
  | PInt _ => "int"
  | PFloat _ => "float"
  | PStr _ => "str"
  | PList _ => "list"
  | PDict _ => "dict"
  end.

(** The items a [for] loop over the value visits. *)
Definition py_iter (v : pyval) : result (list pyval) :=
  match v with
  | PList items => Ok items
  | PDict items => Ok (PStr <$> dict_keys items)
  | PStr s => Ok (PStr <$> chars s)
  | _ => Raise (Error C_TypeError ("'" +:+ type_name v +:+ "' object is not iterable"))
  end.

Definition py_len (v : pyval) : result nat :=
  match v with
  | PList items => Ok (length items)
  | PDict items => Ok (length (dict_keys items))
  | PStr s => Ok (String.length s)
  | _ => Raise (Error C_TypeError ("object of type '" +:+ type_name v +:+ "' has no len()"))
  end.

(** [record.get(key)] *)
Definition py_get (record : pyval) (key : string) : result pyval :=
  match record with
  | PDict items =>
      Ok (default PNone (snd <$> List.find (fun kv => bool_decide (fst kv = key)) items))
  | _ => Raise (Error C_AttributeError
                  ("'" +:+ type_name record +:+ "' object has no attribute 'get'"))
  end.

(** [with open(p, 'r') as f: json.load(f)] *)
Definition json_load (L : libs) (p : path) : py pyval :=
  text ← read_file p;
  match json_parse L text with
  | Some v => mret v
  | None => raise (Error C_JSONDecodeError "Expecting value")
  end.

(** * scripts/database_setup.py *)

Module database_setup.

Definition raw_saas_metrics_schema : list column :=
  [ Column "customer_id" T_INT true;
    Column "subscription_start_date" T_DATE false;
    Column "monthly_recurring_revenue" T_DECIMAL false;
    Column "churn_date" T_DATE false;
    Column "plan_type" (T_VARCHAR 50) false ].

Definition create_table_query : statement :=
  CreateTableIfNotExists "raw_saas_metrics" raw_saas_metrics_schema.

Definition create_table (L : libs) (conn : nat) : py unit :=
  cursor conn ;;
  execute L conn create_table_query ;;
  commit conn ;;
  print "Table 'raw_saas_metrics' is ready.".

Definition insert_query (params : list pyval) : statement :=
  InsertInto "raw_saas_metrics"
    [ "customer_id"; "subscription_start_date"; "monthly_recurring_revenue";
      "churn_date"; "plan_type" ]
    params.

(** The body of the [for record in data] loop. *)
Definition insert_record (L : libs) (conn : nat) (record : pyval) : py unit :=
  customer_id ← lift_result (py_get record "customer_id");
  subscription_start_date ← lift_result (py_get record "subscription_start_date");
  monthly_recurring_revenue ← lift_result (py_get record "monthly_recurring_revenue");
  churn_date ← lift_result (py_get record "churn_date");
  plan_type ← lift_result (py_get record "plan_type");
  execute L conn
    (insert_query [ customer_id; subscription_start_date; monthly_recurring_revenue;
                    churn_date; plan_type ]).

Definition success_message (n : nat) : string :=
  "Successfully ingested " +:+ pretty n +:+ " records into raw_saas_metrics.".

Definition ingest_try (L : libs) (conn : nat) (file_path : path) : py unit :=
  data ← json_load L file_path;
  cursor conn ;;
  records ← lift_result (py_iter data);
  for_each records (insert_record L conn) ;;
  commit conn ;;
  n ← lift_result (py_len data);
  print (success_message n).

Definition ingest_except (conn : nat) (e : exn) : option (py unit) :=
  if isinstance e C_psycopg2_Error || isinstance e C_FileNotFoundError
  then Some (print ("Error during data ingestion: " +:+ str_of_exn e) ;;
             rollback conn ;;
             raise e)
  else None.

Definition ingest_data (L : libs) (conn : nat) (file_path : path) : py unit :=
  try_except (ingest_try L conn file_path) (ingest_except conn).

Definition main_except (e : exn) : option (py unit) :=
  if isinstance e C_OperationalError then
    Some (print ("Connection error: " +:+ str_of_exn e) ;;
          print "Please ensure your PostgreSQL database is running and the connection details are correct.")
  else if isinstance e C_FileNotFoundError then
    Some (print ("File not found error: " +:+ str_of_exn e) ;;
          print "Please ensure 'raw_saas_data.json' exists in the correct directory.")
  else if isinstance e C_Exception then
    Some (print ("An unexpected error occurred: " +:+ str_of_exn e))
  else None.

Definition main_finally (conn : option nat) : py unit :=
  match conn with
  | Some c => close c ;; print "Database connection closed."
  | None => mret tt
  end.

Definition main (L : libs) : py unit :=
  DB_HOST ← environ_get "DB_HOST";
  DB_PORT ← environ_get "DB_PORT";
  DB_NAME ← environ_get "DB_NAME";
  DB_USER ← environ_get "DB_USER";
  DB_PASS ← environ_get "DB_PASS";
  if negb (all [DB_HOST; DB_PORT; DB_NAME; DB_USER; DB_PASS]) then
    print "Error: Database environment variables are not set." ;;
    print "Please ensure you have set DB_HOST, DB_PORT, DB_NAME, DB_USER, and DB_PASS."
  else
    try_acquire
      (connect (str_value DB_HOST) (str_value DB_PORT) (str_value DB_NAME)
               (str_value DB_USER) (str_value DB_PASS))
      (fun conn =>
         print "Successfully connected to the database." ;;
         create_table L conn ;;
         here ← getcwd;
         ingest_data L conn (path_join here ["raw_saas_data.json"]))
      main_except
      main_finally.

End database_setup.

(** ** Strings: multi-line literals, [in], [str.replace] *)

Definition nl : string := String "010"%char EmptyString.
Definition dq : string := String "034"%char EmptyString.

(** The text of a triple-quoted literal, from its lines. *)
Fixpoint text_of_lines (ls : list string) : string :=
  match ls with
  | [] => ""
  | [l] => l
  | l :: rest => l +:+ nl +:+ text_of_lines rest
  end.

Definition quoted (s : string) : string := dq +:+ s +:+ dq.

(** [needle in s] *)
Fixpoint str_contains (needle s : string) : bool :=
  String.prefix needle s ||
  match s with
  | EmptyString => false
  | String _ rest => str_contains needle rest
  end.

(** [s.replace(old, new)] for a non-empty [old]: occurrences are replaced
    from left to right and do not overlap.  [skip] counts the characters
    of the occurrence just replaced that are still to be passed over. *)
Fixpoint replace_from (old new : string) (skip : nat) (s : string) : string :=
  match s with
  | EmptyString => EmptyString
  | String c rest =>
      match skip with
      | S k => replace_from old new k rest
      | O =>
          if String.prefix old s
          then new +:+ replace_from old new (String.length old - 1)%nat rest
          else String c (replace_from old new O rest)
      end
  end.

Definition str_replace (old new s : string) : string := replace_from old new O s.

(** [subprocess.run(argv, check=True)] for the [dbt] executable. *)
Definition subprocess_run_dbt (L : libs) (argv : list string) : py unit :=
  emit (Spawn argv) ;;
  w ← get_world;
  match dbt_run L (files w) (db w) with
  | DbtNotInstalled =>
      raise (Error C_FileNotFoundError "[Errno 2] No such file or directory: 'dbt'")
  | DbtExit status after =>
      modify (fun w => set_db w after) ;;
      if bool_decide (status = 0) then mret tt
      else raise (Error C_CalledProcessError
                    ("Command 'dbt' returned non-zero exit status " +:+ pretty status))
  end.

(** [d[key]] on a [dict] of strings. *)
Definition dict_item (d : gmap string string) (key : string) : py string :=
  match d !! key with
  | Some v => mret v
  | None => raise (Error C_KeyError ("'" +:+ key +:+ "'"))
  end.

(** * scripts/pipeline.py *)

Module pipeline.

Definition profiles_content (host port user pass dbname : string) : string :=
  text_of_lines
    [ "";
      "financial_forecasting:";
      "  target: dev";
      "  outputs:";
      "    dev:";
      "      type: postgres";
      "      host: " +:+ host;
      "      port: " +:+ port;
      "      user: " +:+ user;
      "      password: " +:+ pass;
      "      dbname: " +:+ dbname;
      "      schema: public";
      "" ].

Definition create_dbt_profiles (env_vars : gmap string string) : py unit :=
  user_home ← expanduser_home;
  let dbt_dir := path_join user_home [".dbt"] in
  makedirs dbt_dir ;;
  host ← dict_item env_vars "DB_HOST";
  port ← dict_item env_vars "DB_PORT";
  user ← dict_item env_vars "DB_USER";
  pass ← dict_item env_vars "DB_PASS";
  dbname ← dict_item env_vars "DB_NAME";
  write_file (path_join dbt_dir ["profiles.yml"])
             (profiles_content host port user pass dbname) ;;
  print "profiles.yml created successfully.".

Definition sources_content : string :=
  text_of_lines
    [ "";
      "version: 2";
      "sources:";
      "  - name: raw";
      "    description: " +:+ quoted "Raw data ingested from external sources.";
      "    schema: public";
      "    tables:";
      "      - name: raw_saas_metrics";
      "        description: " +:+ quoted "Raw financial metrics data ingested from a JSON file.";
      "" ].

Definition staging_sql_content : string :=
  text_of_lines
    [ "";
      "-- models/staging/stg_raw_saas_metrics_data.sql";
      "WITH source_data AS (";
      "    SELECT";
      "        customer_id,";
      "        subscription_start_date,";
      "        monthly_recurring_revenue,";
      "        churn_date,";
      "        plan_type";
      "    FROM";
      "        {{ source('raw', 'raw_saas_metrics') }}";
      ")";
      "SELECT";
      "    CAST(customer_id AS INTEGER) AS customer_id,";
      "    CAST(subscription_start_date AS DATE) AS subscription_start_date,";
      "    CAST(monthly_recurring_revenue AS NUMERIC) AS monthly_recurring_revenue,";
      "    CAST(churn_date AS DATE) AS churn_date,";
      "    CAST(plan_type AS VARCHAR) AS plan_type";
      "FROM";
      "    source_data";
      "" ].

Definition schema_content : string :=
  text_of_lines
    [ "";
      "version: 2";
      "models:";
      "  - name: stg_raw_saas_metrics_data";
      "    description: " +:+ quoted "Staging model for raw SaaS metrics data.";
      "    columns:";
      "      - name: customer_id";
      "        description: " +:+ quoted "The unique identifier for a customer.";
      "        tests:";
      "          - unique";
      "          - not_null";
      "      - name: subscription_start_date";
      "        description: " +:+ quoted "The date the customer's subscription began.";
      "        tests:";
      "          - not_null";
      "" ].

Definition marts_sql_content : string :=
  text_of_lines
    [ "";
      "-- models/marts/fact_monthly_revenue.sql";
      "SELECT";
      "    DATE_TRUNC('month', subscription_start_date) AS subscription_month,";
      "    SUM(monthly_recurring_revenue) AS monthly_recurring_revenue";
      "FROM";
      "    {{ ref('stg_raw_saas_metrics_data') }}";
      "GROUP BY 1";
      "ORDER BY 1";
      "" ].

Definition model_paths_line : string :=
  "model-paths: [" +:+ quoted "models/staging" +:+ ", " +:+ quoted "models/marts" +:+ "]".

Definition run_dbt_pipeline (L : libs) : py unit :=
  here ← getcwd;
  let project_dir := path_join here ["financial_forecasting"] in
  let staging_dir := path_join project_dir ["models"; "staging"] in
  let marts_dir := path_join project_dir ["models"; "marts"] in
  makedirs staging_dir ;;
  makedirs marts_dir ;;
  print "Creating core dbt project files..." ;;
  write_file (path_join staging_dir ["sources.yml"]) sources_content ;;
  write_file (path_join staging_dir ["stg_raw_saas_metrics_data.sql"]) staging_sql_content ;;
  write_file (path_join staging_dir ["schema.yml"]) schema_content ;;
  write_file (path_join marts_dir ["fact_monthly_revenue.sql"]) marts_sql_content ;;
  let dbt_project_path := path_join project_dir ["dbt_project.yml"] in
  content ← read_file dbt_project_path;
  let content :=
    if negb (str_contains "model-paths:" content)
    then str_replace "config-version: 2"
           ("config-version: 2" +:+ nl +:+ nl +:+ model_paths_line) content
    else content in
  write_file dbt_project_path content ;;
  print "Running the dbt pipeline..." ;;
  user_home ← expanduser_home;
  subprocess_run_dbt L
    [ "dbt"; "run"; "--project-dir"; path_str project_dir;
      "--profiles-dir"; path_str (path_join user_home [".dbt"]) ] ;;
  print "Pipeline execution complete.".

Definition main (L : libs) : py unit :=
  db_host ← environ_get "DB_HOST";
  db_port ← environ_get "DB_PORT";
  db_name ← environ_get "DB_NAME";
  db_user ← environ_get "DB_USER";
  db_pass ← environ_get "DB_PASS";
  (if negb (all [db_host; db_port; db_name; db_user; db_pass]) then
     print_stderr "Error: Database environment variables are not set." ;;
     print_stderr "Please ensure DB_HOST, DB_PORT, DB_NAME, DB_USER, and DB_PASS are set." ;;
     sys_exit 1
   else mret tt) ;;
  let env_vars : gmap string string :=
    <["DB_PASS" := str_value db_pass]>
      (<["DB_USER" := str_value db_user]>
         (<["DB_NAME" := str_value db_name]>
            (<["DB_PORT" := str_value db_port]>
               (<["DB_HOST" := str_value db_host]> ∅)))) in
  create_dbt_profiles env_vars ;;
  run_dbt_pipeline L.

End pipeline.

(** ** pandas *)

(** [df.rename(columns=mapping)]: labels outside the mapping are kept. *)
Definition df_rename (mapping : list (string * string)) (df : DataFrame) : DataFrame :=
  Frame ((fun c => default c (snd <$> List.find (fun kv => bool_decide (fst kv = c)) mapping))
           <$> df_columns df)
        (df_rows df).

(** The positions of the columns that carry a label. *)
Fixpoint positions_from (i : nat) (label : string) (labels : list string) : list nat :=
  match labels with
  | [] => []
  | l :: rest =>
      if bool_decide (l = label)
      then i :: positions_from (S i) label rest
      else positions_from (S i) label rest
  end.

Definition positions (label : string) (labels : list string) : list nat :=
  positions_from O label labels.

Definition not_in_index (label : string) : exn :=
  Error C_KeyError ("['" +:+ label +:+ "'] not in index").

(** [df[[l1, ..., ln]]]: [KeyError] if a label names no column. *)
Definition df_select (labels : list string) (df : DataFrame) : result DataFrame :=
  match List.find (fun l => bool_decide (positions l (df_columns df) = [])) labels with
  | Some l => Raise (not_in_index l)
  | None =>
      let idx := labels ≫= (fun l => positions l (df_columns df)) in
      Ok (Frame ((fun i => default "" (df_columns df !! i)) <$> idx)
                ((fun r => cell_at r <$> idx) <$> df_rows df))
  end.

(** [df[label]] for a label that names one column. *)
Definition df_column (label : string) (df : DataFrame) : result (list cell) :=
  match position label (df_columns df) with
  | Some i => Ok ((fun r => cell_at r i) <$> df_rows df)
  | None => Raise (Error C_KeyError ("'" +:+ label +:+ "'"))
  end.

(** [df[label] = values]: replaces the column, or adds it at the end. *)
Definition df_assign (label : string) (values : list cell) (df : DataFrame) : DataFrame :=
  match position label (df_columns df) with
  | Some i => Frame (df_columns df) (zip_with (fun r v => <[i := v]> r) (df_rows df) values)
  | None => Frame (df_columns df ++ [label]) (zip_with (fun r v => r ++ [v]) (df_rows df) values)
  end.

(** [pd.to_datetime(series)] *)
Fixpoint series_to_datetime (L : libs) (values : list cell) : result (list cell) :=
  match values with
  | [] => Ok []
  | v :: rest =>
      match to_datetime L v with
      | None => Raise (Error C_ValueError "Unknown datetime string format")
      | Some t =>
          match series_to_datetime L rest with
          | Ok ts => Ok (t :: ts)
          | Raise e => Raise e
          end
      end
  end.

(** [series.dt.tz_localize(None)]: drops the offset and keeps the wall
    clock; only a series of times has [.dt]. *)
Fixpoint series_tz_localize_none (values : list cell) : result (list cell) :=
  match values with
  | [] => Ok []
  | v :: rest =>
      match v with
      | CTime _ _ | CNull =>
          match series_tz_localize_none rest with
          | Ok ts => Ok (match v with CTime t _ => CTime t None | _ => v end :: ts)
          | Raise e => Raise e
          end
      | _ => Raise (Error C_AttributeError
                      "Can only use .dt accessor with datetimelike values")
      end
  end.

Definition execution_failed (e : exn) : exn :=
  Error C_pandas_DatabaseError ("Execution failed on sql: " +:+ str_of_exn e).

(** [pd.read_sql(query, conn)] on a psycopg2 connection: pandas opens a
    cursor, executes the query, and on failure rolls the connection back
    and raises its own [DatabaseError]. *)
Definition read_sql (L : libs) (cols : list string) (name order_by : string) (conn : nat)
  : py DataFrame :=
  cursor conn ;;
  try_except
    (execute L conn (SelectOrderBy cols name order_by))
    (fun e =>
       if isinstance e C_Exception
       then Some (try_except (rollback conn)
                    (fun e' => if isinstance e' C_Exception
                               then Some (raise (execution_failed e)) else None) ;;
                  raise (execution_failed e))
       else None) ;;
  s ← open_session conn;
  w ← get_world;
  lift_result (select_order_by cols name order_by (visible w s)).

Inductive if_exists_mode : Type := IfExistsFail | IfExistsReplace | IfExistsAppend.

(** A SQLAlchemy engine: the URL it was created from and the connection
    parameters the URL encodes. *)
Record engine : Type := Engine {
  e_url : string;
  e_host : string;
  e_port : string;
  e_dbname : string;
  e_user : string;
  e_password : string
}.

(** The column type pandas picks for a column from the values in it. *)
Definition infer_sqltype (values : list cell) : sqltype :=
  if forallb (fun c => match c with CTime _ _ | CNull => true | _ => false end) values
  then T_TIMESTAMP
  else if forallb (fun c => match c with CInt _ => true | _ => false end) values
  then T_BIGINT
  else if forallb (fun c => match c with CInt _ | CNum _ | CNull => true | _ => false end) values
  then T_DOUBLE
  else T_TEXT.

Definition table_of_frame (df : DataFrame) : table :=
  Table (imap (fun i label => Column label (infer_sqltype ((fun r => cell_at r i) <$> df_rows df)) false)
              (df_columns df))
        (df_rows df).

(** The rows of a frame laid out for an existing table: a table column
    the frame lacks gets [NULL]. *)
Definition rows_for (schema : list column) (df : DataFrame) : list (list cell) :=
  (fun r => (fun c => match position (col_name c) (df_columns df) with
                      | Some i => cell_at r i
                      | None => CNull
                      end) <$> schema) <$> df_rows df.

(** [df.to_sql(name, engine, if_exists=mode, index=False)]: the engine
    opens its own connection and commits on its own. *)
Definition to_sql (df : DataFrame) (name : string) (e : engine) (mode : if_exists_mode)
  : py unit :=
  emit (ToSql name (e_url e)) ;;
  w ← get_world;
  if negb (server_accepts w (e_host e) (e_port e) (e_dbname e) (e_user e) (e_password e))
  then raise (Error C_sqlalchemy_OperationalError
                ("could not connect to server " +:+ e_host e +:+ ":" +:+ e_port e))
  else
    match db w !! name, mode with
    | Some _, IfExistsFail =>
        raise (Error C_ValueError ("Table '" +:+ name +:+ "' already exists."))
    | Some t, IfExistsAppend =>
        match List.find (fun c => negb (bool_decide (c ∈ col_name <$> t_schema t)))
                        (df_columns df) with
        | Some c => raise (undefined_column c)
        | None =>
            modify (fun w => set_db w
              (<[name := Table (t_schema t) (t_rows t ++ rows_for (t_schema t) df)]> (db w)))
        end
    | _, _ => modify (fun w => set_db w (<[name := table_of_frame df]> (db w)))
    end.

(** ** Prophet

    Prophet is a dependency, not code of the repository.  The fit's
    input checks, the construction of the future frame and the layout of
    the prediction are written after the library ([forecaster.py]); the
    numbers come from [prophet_optimize] and [prophet_component]. *)

Inductive frequency : Type := MS.

(** A fitted model. *)
Record Prophet : Type := Fitted {
  p_config : prophet_config;
  history_dates : list timestamp;
  p_params : list Q
}.

Definition ts_le (a b : timestamp) : Prop := ts_leb a b = true.

Global Instance ts_le_dec : RelDecision ts_le.
Proof. intros a b. unfold ts_le. apply _. Defined.

Definition ts_max (a b : timestamp) : timestamp := if ts_leb a b then b else a.

(** [series.max()] *)
Definition series_max (ts : list timestamp) : option timestamp :=
  match ts with
  | [] => None
  | t :: rest => Some (foldl ts_max t rest)
  end.

(** The observations of a frame with columns [ds] and [y]: [ds] must be
    a naive time (Prophet rejects missing values and time zones), [y] a
    number or missing. *)
Definition observation (ds y : cell) : option (timestamp * option Q) :=
  match ds with
  | CTime t None =>
      match y with
      | CNull => Some (t, None)
      | CInt z => Some (t, Some (inject_Z z))
      | CNum q => Some (t, Some q)
      | _ => None
      end
  | _ => None
  end.

Definition observations (df : DataFrame) : result (list (timestamp * option Q)) :=
  match position "ds" (df_columns df), position "y" (df_columns df) with
  | Some i, Some j =>
      match mapM (fun r => observation (cell_at r i) (cell_at r j)) (df_rows df) with
      | Some obs => Ok obs
      | None => Raise (Error C_ValueError "Found NaN, a time zone or a non-numeric value in the dataframe")
      end
  | _, _ =>
      Raise (Error C_ValueError
               "Dataframe must have columns ds and y with the dates and values respectively.")
  end.

(** The rows whose [y] is not missing. *)
Definition non_missing (obs : list (timestamp * option Q)) : list (timestamp * Q) :=
  omap (fun o => match snd o with Some y => Some (fst o, y) | None => None end) obs.

(** [m.fit(df)] *)
Definition fit (L : libs) (config : prophet_config) (df : DataFrame) : py Prophet :=
  emit (Fit (length (df_rows df))) ;;
  obs ← lift_result (observations df);
  let history := non_missing obs in
  if (length history <? 2)%nat then
    raise (Error C_ValueError "Dataframe has less than 2 non-NaN rows.")
  else
    match prophet_optimize L config history with
    | None => raise (Error C_RuntimeError "Error during optimization")
    | Some params =>
        mret (Fitted config (merge_sort ts_le (remove_dups (fst <$> obs))) params)
    end.

(** First of the month [k] months after the month of [t], at the time of
    day of [t]. *)
Definition month_start (t : timestamp) (k : Z) : timestamp :=
  Timestamp (ts_months t + k) 0 (ts_secs t).

(** [pd.date_range(start=start, periods=periods, freq='MS')]: the first
    date is [start] if it is a first of the month, otherwise the first of
    the next month. *)
Definition date_range (start : timestamp) (periods : nat) (freq : frequency)
  : list timestamp :=
  match freq with
  | MS =>
      let first := if bool_decide (ts_day0 start = 0%N) then 0 else 1 in
      (fun k => month_start start (first + Z.of_nat k)) <$> seq 0 periods
  end.

(** [m.make_future_dataframe(periods=periods, freq=freq)] *)
Definition make_future_dataframe (m : Prophet) (periods : nat) (freq : frequency)
  : result (list timestamp) :=
  match series_max (history_dates m) with
  | None => Raise (Error C_Exception "Model has not been fit.")
  | Some last_date =>
      let dates := date_range last_date (periods + 1) freq in
      let dates := List.filter (ts_ltb last_date) dates in
      let dates := take periods dates in
      Ok (history_dates m ++ dates)
  end.

Definition forecast_columns : list string :=
  [ "ds"; "trend"; "yhat_lower"; "yhat_upper"; "trend_lower"; "trend_upper";
    "additive_terms"; "additive_terms_lower"; "additive_terms_upper";
    "yearly"; "yearly_lower"; "yearly_upper";
    "multiplicative_terms"; "multiplicative_terms_lower"; "multiplicative_terms_upper";
    "yhat" ].

(** [m.predict(future)]: one row for each date of the frame. *)
Definition predict (L : libs) (m : Prophet) (future : list timestamp) : DataFrame :=
  Frame forecast_columns
        ((fun t => CTime t None ::
                   ((fun c => CNum (prophet_component L (p_params m) t c))
                      <$> drop 1 forecast_columns))
           <$> future).

(** * scripts/run_forecasting.py *)

Module run_forecasting.

Definition get_db_credentials : py (string * string * string * string * string) :=
  db_host ← environ_get "DB_HOST";
  db_port ← environ_get "DB_PORT";
  db_name ← environ_get "DB_NAME";
  db_user ← environ_get "DB_USER";
  db_pass ← environ_get "DB_PASS";
  (if negb (all [db_host; db_port; db_name; db_user; db_pass]) then
     print_stderr "Error: DB environment variables are not set." ;;
     sys_exit 1
   else mret tt) ;;
  mret (str_value db_host, str_value db_port, str_value db_name,
        str_value db_user, str_value db_pass).

Definition fetch_and_prepare_data (L : libs) (conn : nat) : py DataFrame :=
  print "Fetching clean data from fact_monthly_revenue..." ;;
  revenue_df ← read_sql L ["subscription_month"; "monthly_recurring_revenue"]
                        "fact_monthly_revenue" "subscription_month" conn;
  let prophet_df :=
    df_rename [("subscription_month", "ds"); ("monthly_recurring_revenue", "y")] revenue_df in
  ds ← lift_result (df_column "ds" prophet_df);
  ds ← lift_result (series_to_datetime L ds);
  ds ← lift_result (series_tz_localize_none ds);
  mret (df_assign "ds" ds prophet_df).

Definition model_config : prophet_config := ProphetConfig true (5 # 100).

Definition run_prophet_forecast (L : libs) (prophet_df : DataFrame) : py DataFrame :=
  print "Training Prophet model and generating 24-month forecast..." ;;
  m ← fit L model_config prophet_df;
  future ← lift_result (make_future_dataframe m 24 MS);
  let forecast := predict L m future in
  mret forecast.

(** [create_engine(f'postgresql+psycopg2://{db_user}:{db_pass}@{db_host}:{db_port}/{db_name}')] *)
Definition create_engine (db_host db_port db_name db_user db_pass : string) : engine :=
  Engine ("postgresql+psycopg2://" +:+ db_user +:+ ":" +:+ db_pass +:+ "@" +:+ db_host
            +:+ ":" +:+ db_port +:+ "/" +:+ db_name)
         db_host db_port db_name db_user db_pass.

(** The first two statements of [ingest_forecast_to_db]: the frame that
    is written. *)
Definition final_forecast_df (forecast : DataFrame) : result DataFrame :=
  match df_select ["ds"; "yhat"; "yhat_lower"; "yhat_upper"] forecast with
  | Ok selected =>
      Ok (df_rename [("yhat", "forecasted_mrr"); ("ds", "subscription_month")] selected)
  | Raise e => Raise e
  end.

Definition ingest_forecast_to_db (forecast : DataFrame)
    (db_host db_port db_name db_user db_pass : string) : py unit :=
  final ← lift_result (final_forecast_df forecast);
  let engine := create_engine db_host db_port db_name db_user db_pass in
  print "Ingesting forecast into fact_monthly_revenue_forecast..." ;;
  to_sql final "fact_monthly_revenue_forecast" engine IfExistsReplace ;;
  print "Forecast data successfully loaded.".

Definition main_except (e : exn) : option (py unit) :=
  if isinstance e C_Exception then
    Some (print_stderr ("An error occurred during forecasting pipeline: " +:+ str_of_exn e) ;;
          sys_exit 1)
  else None.

Definition main_finally (conn : option nat) : py unit :=
  match conn with
  | Some c => close c
  | None => mret tt
  end.

Definition main (L : libs) : py unit :=
  '(db_host, db_port, db_name, db_user, db_pass) ← get_db_credentials;
  try_acquire
    (connect db_host db_port db_name db_user db_pass)
    (fun conn =>
       prophet_df ← fetch_and_prepare_data L conn;
       forecast ← run_prophet_forecast L prophet_df;
       ingest_forecast_to_db forecast db_host db_port db_name db_user db_pass)
    main_except
    main_finally.

End run_forecasting.

(** * A concrete installation

    Small, fully evaluated inputs on which the scripts can be run. *)

Module Sample.

Definition jan_2023 : Z := 2023 * 12.

Definition raw_text : string := "two customers in January 2023".
Definition clash_text : string := "two records with customer_id 1".

Definition customer (id : Z) (start : string) (mrr : Z) (plan : string) : pyval :=
  PDict [ ("customer_id", PInt id);
          ("subscription_start_date", PStr start);
          ("monthly_recurring_revenue", PInt mrr);
          ("plan_type", PStr plan) ].

Definition raw_data : pyval :=
  PList [ customer 1 "2023-01-15" 100 "pro"; customer 2 "2023-01-20" 50 "basic" ].

Definition clash_data : pyval :=
  PList [ customer 1 "2023-01-15" 100 "pro"; customer 1 "2023-01-20" 50 "basic" ].

Definition parse (text : string) : option pyval :=
  if bool_decide (text = raw_text) then Some raw_data
  else if bool_decide (text = clash_text) then Some clash_data
  else None.

Definition cast (ty : sqltype) (v : pyval) : option cell :=
  match ty, v with
  | T_INT, PInt z => Some (CInt z)
  | T_DECIMAL, PInt z => Some (CNum (inject_Z z))
  | T_DECIMAL, PFloat q => Some (CNum q)
  | T_DATE, PStr s =>
      if bool_decide (s = "2023-01-15") then Some (CTime (Timestamp jan_2023 14 0) None)
      else if bool_decide (s = "2023-01-20") then Some (CTime (Timestamp jan_2023 19 0) None)
      else None
  | T_VARCHAR n, PStr s => if (String.length s <=? n)%nat then Some (CText s) else None
  | _, _ => None
  end.

Definition datetime (c : cell) : option cell :=
  match c with
  | CTime _ _ | CNull => Some c
  | _ => None
  end.

Definition library : libs :=
  Libs parse cast datetime
       (fun _ _ => Some [])
       (fun _ _ _ => 0%Q)
       (fun _ d => DbtExit 0 d).

Definition credentials : gmap string string :=
  <["DB_HOST" := "localhost"]>
    (<["DB_PORT" := "5432"]>
       (<["DB_NAME" := "saas"]>
          (<["DB_USER" := "analyst"]>
             (<["DB_PASS" := "secret"]> ∅)))).

Definition workdir : path := ["srv"; "pipeline"].

(** A fresh machine: credentials set, the input file in place, an empty
    database that accepts every connection. *)
Definition fresh : world :=
  World credentials workdir ["home"; "analyst"] ∅
        (<[workdir ++ ["raw_saas_data.json"] := raw_text]> ∅)
        (fun _ _ _ _ _ => true) ∅ [] [].

(** The same machine with [DB_PORT] unset. *)
Definition no_port : world :=
  World (delete "DB_PORT" credentials) workdir ["home"; "analyst"] ∅
        (<[workdir ++ ["raw_saas_data.json"] := raw_text]> ∅)
        (fun _ _ _ _ _ => true) ∅ [] [].

(** A machine whose table already holds customer 1, with one open
    connection. *)
Definition stored_row : list cell :=
  [ CInt 1; CTime (Timestamp jan_2023 14 0) None; CNum (inject_Z 100); CNull; CText "pro" ].

Definition loaded : world :=
  World credentials workdir ["home"; "analyst"] ∅
        (<[workdir ++ ["raw_saas_data.json"] := raw_text]> ∅)
        (fun _ _ _ _ _ => true)
        (<["raw_saas_metrics" := Table database_setup.raw_saas_metrics_schema [stored_row]]> ∅)
        [Session false TxIdle] [].

(** A machine with the table created and empty, one open connection, and
    an input file in which two records share [customer_id] 1. *)
Definition clash : world :=
  World credentials workdir ["home"; "analyst"] ∅
        (<[workdir ++ ["raw_saas_data.json"] := clash_text]> ∅)
        (fun _ _ _ _ _ => true)
        (<["raw_saas_metrics" := Table database_setup.raw_saas_metrics_schema []]> ∅)
        [Session false TxIdle] [].

Definition input_file : path := workdir ++ ["raw_saas_data.json"].

Definition duplicate_key : exn :=
  Error C_UniqueViolation
        "duplicate key value violates unique constraint raw_saas_metrics_pkey".

(** A machine on which the transformation produced a mart table without
    rows. *)
Definition mart_schema : list column :=
  [ Column "subscription_month" T_TIMESTAMP false;
    Column "monthly_recurring_revenue" T_DECIMAL false ].

Definition empty_mart : world :=
  World credentials workdir ["home"; "analyst"] ∅ ∅
        (fun _ _ _ _ _ => true)
        (<["fact_monthly_revenue" := Table mart_schema []]> ∅)
        [] [].

(** The same machine seen from inside [main], after [connect]. *)
Definition empty_mart_connected : world :=
  World credentials workdir ["home"; "analyst"] ∅ ∅
        (fun _ _ _ _ _ => true)
        (<["fact_monthly_revenue" := Table mart_schema []]> ∅)
        [Session false TxIdle] [].

(** A fitted model and its forecast for one date, as the engine lays it
    out. *)
Definition model : Prophet :=
  Fitted run_forecasting.model_config [Timestamp jan_2023 0 0] [].

Definition forecast : DataFrame := predict library model [Timestamp jan_2023 0 0].

(** A later forecast, for two dates. *)
Definition later_forecast : DataFrame :=
  predict library model [Timestamp jan_2023 0 0; Timestamp (jan_2023 + 1) 0 0].

Definition publish (forecast : DataFrame) : py unit :=
  run_forecasting.ingest_forecast_to_db forecast "localhost" "5432" "saas" "analyst" "secret".

(** Three months of history, January to March 2023. *)
Definition short_series : DataFrame :=
  Frame ["ds"; "y"]
        [ [CTime (Timestamp jan_2023 0 0) None; CNum (inject_Z 150)];
          [CTime (Timestamp (jan_2023 + 1) 0 0) None; CNum (inject_Z 175)];
          [CTime (Timestamp (jan_2023 + 2) 0 0) None; CNum (inject_Z 160)] ].

Definition short_observations : list (timestamp * option Q) :=
  [ (Timestamp jan_2023 0 0, Some (inject_Z 150));
    (Timestamp (jan_2023 + 1) 0 0, Some (inject_Z 175));
    (Timestamp (jan_2023 + 2) 0 0, Some (inject_Z 160)) ].

(** A machine with a project file that declares no model paths. *)
Definition project_text : string :=
  text_of_lines [ "name: financial_forecasting"; "config-version: 2"; "" ].

Definition with_project : world :=
  World credentials workdir ["home"; "analyst"] ∅
        (<[workdir ++ ["financial_forecasting"; "dbt_project.yml"] := project_text]> ∅)
        (fun _ _ _ _ _ => true) ∅ [] [].

End Sample.

(** * Vocabulary of the statements *)

(** The five connection settings as the scripts read them. *)
Definition credentials_of (w : world) : list (option string) :=
  [ environ w !! "DB_HOST"; environ w !! "DB_PORT"; environ w !! "DB_NAME";
    environ w !! "DB_USER"; environ w !! "DB_PASS" ].

(** The events a run added to the log. *)
Definition new_events (before after : world) : list event :=
  drop (length (log before)) (log after).


(** [keeps R m]: whatever the outcome, running [m] takes a world to an
    [R]-related one. *)
Definition keeps {A : Type} (R : relation world) (m : py A) : Prop :=
  forall w, R w (snd (m w)).

(** No connection is created or forgotten. *)
Definition same_connections (w w' : world) : Prop :=
  length (sessions w') = length (sessions w).

(** Nothing is committed. *)
Definition same_database (w w' : world) : Prop := db w' = db w.

(** The connections a run opened, in the state the run left them. *)
Definition opened_by_run (before after : world) : list session :=
  drop (length (sessions before)) (sessions after).

Definition released (s : session) : Prop := s_closed s = true.

(** The places of the artifacts that [pipeline.py] writes and reads. *)
Definition project_dir (w : world) : path := cwd w ++ ["financial_forecasting"].
Definition staging_dir (w : world) : path := project_dir w ++ ["models"; "staging"].
Definition marts_dir (w : world) : path := project_dir w ++ ["models"; "marts"].
Definition dbt_project_yml (w : world) : path := project_dir w ++ ["dbt_project.yml"].
Definition profiles_yml (w : world) : path := (home w ++ [".dbt"]) ++ ["profiles.yml"].
Definition sources_yml (w : world) : path := staging_dir w ++ ["sources.yml"].
Definition staging_sql (w : world) : path := staging_dir w ++ ["stg_raw_saas_metrics_data.sql"].
Definition schema_yml (w : world) : path := staging_dir w ++ ["schema.yml"].
Definition marts_sql (w : world) : path := marts_dir w ++ ["fact_monthly_revenue.sql"].

Definition is_spawn (e : event) : bool :=
  match e with Spawn _ => true | _ => false end.

(** The connection profile written for the settings of a world. *)
Definition profile_of (w : world) : string :=
  pipeline.profiles_content
    (str_value (environ w !! "DB_HOST")) (str_value (environ w !! "DB_PORT"))
    (str_value (environ w !! "DB_USER")) (str_value (environ w !! "DB_PASS"))
    (str_value (environ w !! "DB_NAME")).

(** A connection that can run a statement: open and not in an aborted
    transaction. *)
Definition usable (s : session) : Prop := s_closed s = false /\ s_txn s <> TxAborted.

Definition idle : session := Session false TxIdle.

(** The world after a statement succeeded, leaving the working copy [d]. *)
Definition executed (h : nat) (stmt : statement) (d : database) (w : world) : world :=
  set_sessions (logged (Execute h stmt) w) (<[h := Session false (TxOpen d)]> (sessions w)).

(** The world after a statement failed. *)
Definition aborted (h : nat) (stmt : statement) (w : world) : world :=
  set_sessions (logged (Execute h stmt) w) (<[h := Session false TxAborted]> (sessions w)).

(** The world after [commit] on a connection in state [s]. *)
Definition committed (h : nat) (s : session) (w : world) : world :=
  match s_txn s with
  | TxOpen d => set_sessions (set_db (logged (Commit h) w) d) (<[h := idle]> (sessions w))
  | _ => set_sessions (logged (Commit h) w) (<[h := idle]> (sessions w))
  end.

(** The world after [rollback]. *)
Definition rolled_back (h : nat) (w : world) : world :=
  set_sessions (logged (Rollback h) w) (<[h := idle]> (sessions w)).

Definition raw_saas_metrics : table := Table database_setup.raw_saas_metrics_schema [].

(** An event that reports a successful ingestion. *)
Definition reports_success (e : event) : bool :=
  match e with
  | Print _ text => String.prefix "Successfully ingested" text
  | _ => false
  end.

(** Nothing is committed and no success is reported. *)
Definition quiet (w w' : world) : Prop :=
  db w' = db w /\
  exists evs, log w' = log w ++ evs /\ Forall (fun e => reports_success e = false) evs.

Definition is_open (conn : nat) (w : world) : Prop :=
  exists s, sessions w !! conn = Some s /\ s_closed s = false.

(** An open connection is not closed. *)
Definition stays_open (conn : nat) (w w' : world) : Prop :=
  is_open conn w -> is_open conn w'.

(** The batch in file [p] has a record whose [INSERT] is the first to
    fail, with error [e]: the file parses to [data], the connection hands
    out a cursor, the records before it are inserted, and [cursor.execute]
    for this one raises the psycopg2 error [e]. *)
Definition insert_fails (L : libs) (conn : nat) (p : path) (w : world) (e : exn) : Prop :=
  exists text data before record after w1 w2,
    files w !! p = Some text /\
    json_parse L text = Some data /\
    is_open conn w /\
    py_iter data = Ok (before ++ record :: after) /\
    for_each before (database_setup.insert_record L conn) (logged (OpenRead p) w) = (Ok tt, w1) /\
    database_setup.insert_record L conn record w1 = (Raise e, w2) /\
    isinstance e C_psycopg2_Error = true.

(** The outcome is an exception of class [c] (or of a subclass). *)
Definition raises {A : Type} (r : result A) (c : pyclass) : Prop :=
  exists e, r = Raise e /\ isinstance e c = true.

Definition mart_query : statement :=
  SelectOrderBy ["subscription_month"; "monthly_recurring_revenue"]
                "fact_monthly_revenue" "subscription_month".

(** The mart table is there, with the two columns the loader selects. *)
Definition mart_table (d : database) (t : table) : Prop :=
  d !! "fact_monthly_revenue" = Some t /\
  "subscription_month" ∈ col_name <$> t_schema t /\
  "monthly_recurring_revenue" ∈ col_name <$> t_schema t.

Definition empty_series : DataFrame := Frame ["ds"; "y"] [].

(** The settings of a world, as [get_db_credentials] returns them. *)
Definition host_of (w : world) : string := str_value (environ w !! "DB_HOST").
Definition port_of (w : world) : string := str_value (environ w !! "DB_PORT").
Definition name_of (w : world) : string := str_value (environ w !! "DB_NAME").
Definition user_of (w : world) : string := str_value (environ w !! "DB_USER").
Definition pass_of (w : world) : string := str_value (environ w !! "DB_PASS").

Definition can_connect (w : world) : Prop :=
  all (credentials_of w) = true /\
  server_accepts w (host_of w) (port_of w) (name_of w) (user_of w) (pass_of w) = true.

(** The world right after a successful [connect]. *)
Definition connected (w : world) : world :=
  set_sessions
    (logged (Connect (host_of w) (port_of w) (name_of w) (user_of w) (pass_of w)) w)
    (sessions w ++ [idle]).

Definition too_few_rows : exn := Error C_ValueError "Dataframe has less than 2 non-NaN rows.".

Definition forecast_table : string := "fact_monthly_revenue_forecast".

(** The column names the forecast table gets. *)
Definition published_columns : list string :=
  [ "subscription_month"; "forecasted_mrr"; "yhat_lower"; "yhat_upper" ].

(** The column names of the ForecastPoint record of the specification. *)
Definition forecast_point_columns : list string :=
  [ "subscription_month"; "forecasted_mrr"; "forecasted_mrr_lower"; "forecasted_mrr_upper" ].

(** The columns of a table, by name. *)
Definition column_names (t : table) : list string := col_name <$> t_schema t.

(** The 24 first-of-month dates that follow the month of [last], at the
    time of day of [last]. *)
Definition horizon (last : timestamp) : list timestamp :=
  (fun k => month_start last (Z.of_nat k)) <$> seq 1 24.

(** The dates of the observations of a series, in row order. *)
Definition observed_dates (obs : list (timestamp * option Q)) : list timestamp := fst <$> obs.

(** A column of naive times. *)
Definition naive_times (ts : list timestamp) : list cell := (fun t => CTime t None) <$> ts.

Definition settings : list string := ["DB_HOST"; "DB_PORT"; "DB_NAME"; "DB_USER"; "DB_PASS"].

(** One of the five settings is unset or empty. *)
Definition missing_setting (w : world) : Prop :=
  exists name, name ∈ settings /\ (environ w !! name = None \/ environ w !! name = Some "").

(** The two worlds differ at most in their logs. *)
Definition only_logged (w w' : world) : Prop :=
  environ w' = environ w /\ cwd w' = cwd w /\ home w' = home w /\ dirs w' = dirs w /\
  files w' = files w /\ db w' = db w /\ sessions w' = sessions w.

(** [raises_only P m]: every exception that [m] lets out satisfies [P]. *)
Definition raises_only {A : Type} (P : exn -> Prop) (m : py A) : Prop :=
  forall w e w', m w = (Raise e, w') -> P e.

(** An instance of [Exception]: what [except Exception] catches. *)
Definition is_exception (e : exn) : Prop := isinstance e C_Exception = true.

Definition result_raises_only {A : Type} (P : exn -> Prop) (r : result A) : Prop :=
  forall e, r = Raise e -> P e.

(** What [main] of the forecasting script runs once it is connected. *)
Definition forecasting_stages (L : libs) (host port name user pass : string) (conn : nat)
  : py unit :=
  prophet_df ← run_forecasting.fetch_and_prepare_data L conn;
  forecast ← run_forecasting.run_prophet_forecast L prophet_df;
  run_forecasting.ingest_forecast_to_db forecast host port name user pass.

(** The database after the forecast table was replaced by [final]. *)
Definition published (final : DataFrame) (d : database) : database :=
  <[forecast_table := table_of_frame final]> d.

(** The dictionary [main] of [pipeline.py] builds from the five settings. *)
Definition env_vars_of (host port name user pass : string) : gmap string string :=
  <["DB_PASS" := pass]> (<["DB_USER" := user]> (<["DB_NAME" := name]>
    (<["DB_PORT" := port]> (<["DB_HOST" := host]> ∅)))).

(** What [run_dbt_pipeline] writes back to [dbt_project.yml] for the
    content it read. *)
Definition updated_project (content : string) : string :=
  if negb (str_contains "model-paths:" content)
  then str_replace "config-version: 2"
         ("config-version: 2" +:+ nl +:+ nl +:+ pipeline.model_paths_line) content
  else content.

(** The files as [dbt] finds them when [run_dbt_pipeline] starts it in a
    world whose [dbt_project.yml] held [content]. *)
Definition project_files (w : world) (content : string) : gmap path string :=
  <[dbt_project_yml w := updated_project content]>
    (<[marts_sql w := pipeline.marts_sql_content]>
       (<[schema_yml w := pipeline.schema_content]>
          (<[staging_sql w := pipeline.staging_sql_content]>
             (<[sources_yml w := pipeline.sources_content]> (files w))))).

Definition dbt_command (w : world) : list string :=
  [ "dbt"; "run"; "--project-dir"; path_str (project_dir w);
    "--profiles-dir"; path_str (home w ++ [".dbt"]) ].

(** What [run_dbt_pipeline] does before it starts [dbt]. *)
Definition project_events (w : world) : list event :=
  [ Makedirs (staging_dir w); Makedirs (marts_dir w);
    Print Stdout "Creating core dbt project files...";
    OpenWrite (sources_yml w); OpenWrite (staging_sql w);
    OpenWrite (schema_yml w); OpenWrite (marts_sql w);
    OpenRead (dbt_project_yml w); OpenWrite (dbt_project_yml w);
    Print Stdout "Running the dbt pipeline..."; Spawn (dbt_command w) ].

(** The names of the columns of [raw_saas_metrics], in order. *)
Definition raw_columns : list string :=
  [ "customer_id"; "subscription_start_date"; "monthly_recurring_revenue";
    "churn_date"; "plan_type" ].

(** The table with one more row. *)
Definition with_row (rows : list (list cell)) (row : list cell) (d : database) : database :=
  <["raw_saas_metrics" := Table database_setup.raw_saas_metrics_schema (rows ++ [row])]> d.
(** * Properties *)

(** ** Reading the environment *)

Section environment.

Context (L : libs).

Lemma database_setup_missing_env (w : world) :
  all (credentials_of w) = false ->
  database_setup.main L w =
    (Ok tt,
     set_log w (log w ++
       [ Print Stdout "Error: Database environment variables are not set.";
         Print Stdout "Please ensure you have set DB_HOST, DB_PORT, DB_NAME, DB_USER, and DB_PASS." ])).
Proof.
  intros H. unfold database_setup.main, credentials_of in *.
  unfold mbind, py_bind, environ_get. rewrite H. simpl.
  unfold print, emit, modify, logged, set_log. simpl. by rewrite <- app_assoc.
Qed.

Lemma pipeline_missing_env (w : world) :
  all (credentials_of w) = false ->
  pipeline.main L w =
    (Raise (SystemExit 1),
     set_log w (log w ++
       [ Print Stderr "Error: Database environment variables are not set.";
         Print Stderr "Please ensure DB_HOST, DB_PORT, DB_NAME, DB_USER, and DB_PASS are set." ])).
Proof.
  intros H. unfold pipeline.main, credentials_of in *.
  unfold mbind, py_bind, environ_get. rewrite H. simpl.
  unfold print_stderr, emit, modify, logged, set_log. simpl. by rewrite <- app_assoc.
Qed.

Lemma run_forecasting_missing_env (w : world) :
  all (credentials_of w) = false ->
  run_forecasting.main L w =
    (Raise (SystemExit 1),
     set_log w (log w ++ [ Print Stderr "Error: DB environment variables are not set." ])).
Proof.
  intros H. unfold run_forecasting.main, run_forecasting.get_db_credentials, credentials_of in *.
  unfold mbind, py_bind, environ_get. rewrite H. simpl.
  reflexivity.
Qed.

End environment.

(** C1 (fails on the code).  Every entry point is to abort with a non-zero
    exit status, before any file or network I/O, when one of the five
    settings is missing.  With [DB_PORT] unset, [database_setup.main]
    prints two lines and returns: the process ends with status 0.  It does
    no file or network I/O, and the two sibling scripts exit with status 1
    on the same environment. *)
Theorem database_setup_missing_port_exits_zero :
  all (credentials_of Sample.no_port) = false /\
  fst (run_script (database_setup.main Sample.library) Sample.no_port) = 0 /\
  List.filter file_or_network
    (log (snd (run_script (database_setup.main Sample.library) Sample.no_port))) = [] /\
  fst (run_script (pipeline.main Sample.library) Sample.no_port) = 1 /\
  fst (run_script (run_forecasting.main Sample.library) Sample.no_port) = 1.
Proof.
  assert (H : all (credentials_of Sample.no_port) = false) by (vm_compute; reflexivity).
  unfold run_script.
  rewrite (database_setup_missing_env _ _ H), (pipeline_missing_env _ _ H),
          (run_forecasting_missing_env _ _ H).
  repeat split; reflexivity || exact H.
Qed.

(** ** Rules for [keeps] *)

Section keeps_rules.

Context (R : relation world) `{!PreOrder R}.

Lemma keeps_ret {A : Type} (a : A) : keeps R (mret a).
Proof. intros w. simpl. reflexivity. Qed.

Lemma keeps_raise {A : Type} (e : exn) : keeps R (@raise A e).
Proof. intros w. simpl. reflexivity. Qed.

Lemma keeps_lift_result {A : Type} (r : result A) : keeps R (lift_result r).
Proof. intros w. simpl. reflexivity. Qed.

Lemma keeps_get_world : keeps R get_world.
Proof. intros w. simpl. reflexivity. Qed.

Lemma keeps_bind {A B : Type} (m : py A) (f : A -> py B) :
  keeps R m -> (forall a, keeps R (f a)) -> keeps R (m ≫= f).
Proof.
  intros Hm Hf w. unfold mbind, py_bind.
  specialize (Hm w). destruct (m w) as [[a | e] w1]; simpl in *.
  - etrans; [exact Hm | apply Hf].
  - exact Hm.
Qed.

Lemma keeps_try_except {A : Type} (body : py A) (handlers : exn -> option (py A)) :
  keeps R body ->
  (forall e h, handlers e = Some h -> keeps R h) ->
  keeps R (try_except body handlers).
Proof.
  intros Hb Hh w. unfold try_except.
  specialize (Hb w). destruct (body w) as [[a | e] w1]; simpl in *; [exact Hb |].
  destruct (handlers e) as [h |] eqn:E; simpl; [| exact Hb].
  etrans; [exact Hb | exact (Hh e h E w1)].
Qed.

Lemma keeps_try_finally {A : Type} (body : py A) (cleanup : py unit) :
  keeps R body -> keeps R cleanup -> keeps R (try_finally body cleanup).
Proof.
  intros Hb Hc w. unfold try_finally.
  specialize (Hb w). destruct (body w) as [r w1]; simpl in *.
  specialize (Hc w1). destruct (cleanup w1) as [[[] | e] w2]; simpl in *;
    (etrans; [exact Hb | exact Hc]).
Qed.

Lemma keeps_for_each {A : Type} (xs : list A) (body : A -> py unit) :
  (forall x, keeps R (body x)) -> keeps R (for_each xs body).
Proof.
  intros Hb. induction xs as [| x xs IH]; simpl.
  - apply keeps_ret.
  - apply keeps_bind; [apply Hb | intros _; exact IH].
Qed.

Lemma keeps_modify (f : world -> world) :
  (forall w, R w (f w)) -> keeps R (modify f).
Proof. intros H w. exact (H w). Qed.

End keeps_rules.

(** Applies the rules as far as the shape of the program allows. *)
Ltac keeps_step :=
  lazymatch goal with
  | |- keeps _ (mbind _ _) => apply keeps_bind; [apply _ | | intros ?]
  | |- keeps _ (mret _) => apply keeps_ret; apply _
  | |- keeps _ (raise _) => apply keeps_raise; apply _
  | |- keeps _ (sys_exit _) => apply keeps_raise; apply _
  | |- keeps _ (lift_result _) => apply keeps_lift_result; apply _
  | |- keeps _ get_world => apply keeps_get_world; apply _
  | |- keeps _ (try_finally _ _) => apply keeps_try_finally; [apply _ | |]
  | |- keeps _ (for_each _ _) => apply keeps_for_each; [apply _ | intros ?]
  | |- keeps _ (if ?x then _ else _) => destruct x
  | |- keeps _ (match ?x with _ => _ end) => destruct x
  end.

(** ** Connections are neither created nor forgotten after [connect] *)

Global Instance same_connections_preorder : PreOrder same_connections.
Proof.
  split.
  - intros w. reflexivity.
  - intros a b c Hab Hbc. unfold same_connections in *. congruence.
Qed.

Create HintDb keeps discriminated.

Ltac keeps_auto := repeat first [ solve [auto 1 with keeps nocore] | keeps_step ].

Lemma conn_emit (e : event) : keeps same_connections (emit e).
Proof. intros w. reflexivity. Qed.

Lemma conn_set_session (h : nat) (s : session) : keeps same_connections (set_session h s).
Proof. intros w. unfold same_connections. simpl. apply length_insert. Qed.

Lemma conn_set_db (f : world -> database) :
  keeps same_connections (modify (fun w => set_db w (f w))).
Proof. intros w. reflexivity. Qed.

Lemma conn_set_files (f : world -> gmap path string) :
  keeps same_connections (modify (fun w => set_files w (f w))).
Proof. intros w. reflexivity. Qed.

Lemma conn_set_dirs (f : world -> gset path) :
  keeps same_connections (modify (fun w => set_dirs w (f w))).
Proof. intros w. reflexivity. Qed.

#[global] Hint Resolve conn_emit conn_set_session conn_set_db conn_set_files conn_set_dirs : keeps.

Lemma conn_getcwd : keeps same_connections getcwd.
Proof. intros w. reflexivity. Qed.

Lemma conn_expanduser_home : keeps same_connections expanduser_home.
Proof. intros w. reflexivity. Qed.

#[global] Hint Resolve conn_getcwd conn_expanduser_home : keeps.

Lemma conn_print (s : string) : keeps same_connections (print s).
Proof. apply conn_emit. Qed.

Lemma conn_print_stderr (s : string) : keeps same_connections (print_stderr s).
Proof. apply conn_emit. Qed.

Lemma conn_open_session (h : nat) : keeps same_connections (open_session h).
Proof. unfold open_session. keeps_auto. Qed.

#[global] Hint Resolve conn_print conn_print_stderr conn_open_session : keeps.

Lemma conn_cursor (h : nat) : keeps same_connections (cursor h).
Proof. unfold cursor. keeps_auto. Qed.

Lemma conn_execute (L : libs) (h : nat) (stmt : statement) :
  keeps same_connections (execute L h stmt).
Proof. unfold execute. keeps_auto. Qed.

Lemma conn_commit (h : nat) : keeps same_connections (commit h).
Proof. unfold commit. keeps_auto. Qed.

Lemma conn_rollback (h : nat) : keeps same_connections (rollback h).
Proof. unfold rollback. keeps_auto. Qed.

Lemma conn_close (h : nat) : keeps same_connections (close h).
Proof. unfold close. keeps_auto. Qed.

Lemma conn_read_file (p : path) : keeps same_connections (read_file p).
Proof. unfold read_file. keeps_auto. Qed.

#[global] Hint Resolve conn_cursor conn_execute conn_commit conn_rollback conn_close
  conn_read_file : keeps.

Lemma conn_json_load (L : libs) (p : path) : keeps same_connections (json_load L p).
Proof. unfold json_load. keeps_auto. Qed.

#[global] Hint Resolve conn_json_load : keeps.

Lemma try_finally_world {A : Type} (body : py A) (cleanup : py unit) (w : world) :
  snd (try_finally body cleanup w) = snd (cleanup (snd (body w))).
Proof.
  unfold try_finally. destruct (body w) as [r w1]. simpl.
  by destruct (cleanup w1) as [[[] | e] w2].
Qed.

Lemma drop_insert_last {A : Type} (l : list A) (n : nat) (x : A) :
  length l = S n -> drop n (<[n := x]> l) = [x].
Proof.
  intros Hlen.
  rewrite insert_take_drop by lia.
  rewrite drop_app_length' by (rewrite length_take; lia).
  f_equal. apply drop_ge. lia.
Qed.

(** The shape shared by the two [main] functions that connect: the
    connection that [connect] hands out is the only one the run opens, and
    the [finally] block closes it whatever the body and the handlers did. *)
Lemma acquire_release {A : Type} (host port name user pass : string)
    (body : nat -> py A) (handlers : exn -> option (py A))
    (cleanup : option nat -> py unit) (w : world) :
  (forall c, keeps same_connections (body c)) ->
  (forall e h, handlers e = Some h -> keeps same_connections h) ->
  (forall c w', sessions (snd (cleanup (Some c) w')) = <[c := Session true TxIdle]> (sessions w')) ->
  (forall w', sessions (snd (cleanup None w')) = sessions w') ->
  Forall released
    (opened_by_run w
       (snd (try_acquire (connect host port name user pass) body handlers cleanup w))).
Proof.
  intros Hbody Hhandlers Hsome Hnone.
  unfold try_acquire, connect, opened_by_run.
  unfold mbind at 1, py_bind at 1. simpl.
  unfold mbind at 1, py_bind at 1. simpl.
  destruct (server_accepts w host port name user pass); simpl.
  - rewrite try_finally_world, Hsome.
    match goal with |- context [try_except ?b ?h ?w1] =>
      pose proof (keeps_try_except same_connections b h (Hbody _) Hhandlers w1) as Hlen
    end.
    unfold same_connections in Hlen. simpl in Hlen. rewrite length_app in Hlen. simpl in Hlen.
    rewrite drop_insert_last by lia.
    constructor; [reflexivity | constructor].
  - rewrite try_finally_world, Hnone.
    match goal with |- context [try_except ?b ?h ?w1] =>
      pose proof (keeps_try_except same_connections b h (keeps_raise _ _) Hhandlers w1) as Hlen
    end.
    unfold same_connections in Hlen. simpl in Hlen.
    rewrite drop_ge by lia. constructor.
Qed.

Lemma conn_create_table (L : libs) (c : nat) :
  keeps same_connections (database_setup.create_table L c).
Proof. unfold database_setup.create_table. keeps_auto. Qed.

Lemma conn_insert_record (L : libs) (c : nat) (record : pyval) :
  keeps same_connections (database_setup.insert_record L c record).
Proof. unfold database_setup.insert_record. keeps_auto. Qed.

#[global] Hint Resolve conn_create_table conn_insert_record : keeps.

Lemma conn_ingest_data (L : libs) (c : nat) (p : path) :
  keeps same_connections (database_setup.ingest_data L c p).
Proof.
  unfold database_setup.ingest_data. apply keeps_try_except; [apply _ | |].
  - unfold database_setup.ingest_try. keeps_auto.
  - intros e h. unfold database_setup.ingest_except.
    destruct (_ || _); intros [= <-]. keeps_auto.
Qed.

#[global] Hint Resolve conn_ingest_data : keeps.

Lemma conn_database_setup_except (e : exn) (h : py unit) :
  database_setup.main_except e = Some h -> keeps same_connections h.
Proof.
  unfold database_setup.main_except.
  repeat (destruct (isinstance e _)); intros [= <-]; keeps_auto.
Qed.

Lemma conn_read_sql (L : libs) (cols : list string) (name order_by : string) (c : nat) :
  keeps same_connections (read_sql L cols name order_by c).
Proof.
  unfold read_sql. keeps_auto.
  apply keeps_try_except; [apply _ | keeps_auto |].
  intros e h. destruct (isinstance e _); intros [= <-].
  keeps_auto. apply keeps_try_except; [apply _ | keeps_auto |].
  intros e' h'. destruct (isinstance e' _); intros [= <-]. keeps_auto.
Qed.

#[global] Hint Resolve conn_read_sql : keeps.

Lemma conn_fetch_and_prepare_data (L : libs) (c : nat) :
  keeps same_connections (run_forecasting.fetch_and_prepare_data L c).
Proof. unfold run_forecasting.fetch_and_prepare_data. keeps_auto. Qed.

Lemma conn_fit (L : libs) (config : prophet_config) (df : DataFrame) :
  keeps same_connections (fit L config df).
Proof. unfold fit. keeps_auto. Qed.

#[global] Hint Resolve conn_fetch_and_prepare_data conn_fit : keeps.

Lemma conn_run_prophet_forecast (L : libs) (df : DataFrame) :
  keeps same_connections (run_forecasting.run_prophet_forecast L df).
Proof. unfold run_forecasting.run_prophet_forecast. keeps_auto. Qed.

Lemma conn_to_sql (df : DataFrame) (name : string) (e : engine) (mode : if_exists_mode) :
  keeps same_connections (to_sql df name e mode).
Proof. unfold to_sql. keeps_auto. Qed.

#[global] Hint Resolve conn_run_prophet_forecast conn_to_sql : keeps.

Lemma conn_ingest_forecast_to_db (forecast : DataFrame) (host port name user pass : string) :
  keeps same_connections
    (run_forecasting.ingest_forecast_to_db forecast host port name user pass).
Proof. unfold run_forecasting.ingest_forecast_to_db. keeps_auto. Qed.

#[global] Hint Resolve conn_ingest_forecast_to_db : keeps.

Lemma conn_run_forecasting_except (e : exn) (h : py unit) :
  run_forecasting.main_except e = Some h -> keeps same_connections h.
Proof.
  unfold run_forecasting.main_except.
  destruct (isinstance e _); intros [= <-]; keeps_auto.
Qed.

Lemma get_db_credentials_world (w w1 : world)
    (r : result (string * string * string * string * string)) :
  run_forecasting.get_db_credentials w = (r, w1) ->
  sessions w1 = sessions w /\ (forall creds, r = Ok creds -> w1 = w).
Proof.
  unfold run_forecasting.get_db_credentials, environ_get.
  unfold mbind, py_bind. destruct (negb (all _)); simpl; intros [= <- <-].
  - split; [reflexivity | intros ? [=]].
  - split; [reflexivity | intros ? _; reflexivity].
Qed.

(** C9.  Whatever happens after [psycopg2.connect] returned, the
    connection is closed when [main] ends: every connection that a run of
    the database set-up script or of the forecasting script opened is
    closed in the world the run leaves behind. *)
Theorem connection_released_on_every_path (L : libs) (w : world) :
  Forall released (opened_by_run w (snd (database_setup.main L w))) /\
  Forall released (opened_by_run w (snd (run_forecasting.main L w))).
Proof.
  split.
  - unfold database_setup.main, environ_get.
    unfold mbind at 1 2 3 4 5, py_bind at 1 2 3 4 5.
    destruct (negb (all _)).
    + unfold opened_by_run. simpl. rewrite drop_all. constructor.
    + apply acquire_release.
      * intros c. keeps_auto.
      * apply conn_database_setup_except.
      * intros c w'. reflexivity.
      * intros w'. reflexivity.
  - unfold run_forecasting.main.
    unfold mbind at 1, py_bind at 1.
    destruct (run_forecasting.get_db_credentials w) as [[creds | e] w1] eqn:E;
      destruct (get_db_credentials_world _ _ _ E) as [Hs Hw].
    + destruct creds as [[[[host port] name] user] pass].
      rewrite (Hw _ eq_refl).
      apply acquire_release.
      * intros c. keeps_auto.
      * apply conn_run_forecasting_except.
      * intros c w'. reflexivity.
      * intros w'. reflexivity.
    + unfold opened_by_run. simpl. rewrite Hs, drop_all. constructor.
Qed.

(** ** Running a program step by step *)

Lemma bind_ok {A B : Type} (m : py A) (f : A -> py B) (w w1 : world) (a : A)
    (res : result B * world) :
  m w = (Ok a, w1) -> f a w1 = res -> (m ≫= f) w = res.
Proof. intros Hm Hf. unfold mbind, py_bind. by rewrite Hm. Qed.

Lemma bind_raise {A B : Type} (m : py A) (f : A -> py B) (w w1 : world) (e : exn) :
  m w = (Raise e, w1) -> (m ≫= f) w = (Raise e, w1).
Proof. intros Hm. unfold mbind, py_bind. by rewrite Hm. Qed.

(** ** The file system *)

Lemma parent_snoc (p : path) (x : string) : parent (p ++ [x]) = p.
Proof.
  unfold parent. rewrite length_app. simpl.
  replace (length p + 1 - 1)%nat with (length p) by lia.
  by rewrite take_app_length.
Qed.

Lemma prefixes_self (p : path) : p <> [] -> p ∈ prefixes p.
Proof.
  induction p as [| d p IH]; [done |]. intros _. simpl.
  destruct p as [| d' p'].
  - left.
  - right. apply list_elem_of_fmap. exists (d' :: p'). split; [done |]. by apply IH.
Qed.

Lemma makedirs_eq (p : path) (w : world) :
  makedirs p w =
    (Ok tt, set_dirs (logged (Makedirs p) w) (dirs w ∪ list_to_set (prefixes p))).
Proof. reflexivity. Qed.

Lemma write_file_eq (p : path) (text : string) (w : world) :
  dir_exists w (parent p) = true ->
  write_file p text w =
    (Ok tt, set_files (logged (OpenWrite p) w) (<[p := text]> (files w))).
Proof.
  intros H. unfold write_file, mbind, py_bind. simpl.
  unfold dir_exists in *. simpl. by rewrite H.
Qed.

Lemma read_file_missing (p : path) (w : world) :
  files w !! p = None ->
  read_file p w = (Raise (no_such_file p), logged (OpenRead p) w).
Proof. intros H. unfold read_file, mbind, py_bind. simpl. by rewrite H. Qed.

Lemma read_file_found (p : path) (text : string) (w : world) :
  files w !! p = Some text ->
  read_file p w = (Ok text, logged (OpenRead p) w).
Proof. intros H. unfold read_file, mbind, py_bind. simpl. by rewrite H. Qed.

Lemma print_eq (s : string) (w : world) :
  print s w = (Ok tt, logged (Print Stdout s) w).
Proof. reflexivity. Qed.

(** A directory exists once [makedirs] made it, and stays. *)
Lemma dir_exists_intro (w : world) (p : path) :
  p ∈ dirs w -> dir_exists w p = true.
Proof.
  intros H. unfold dir_exists. apply orb_true_iff. right. by apply bool_decide_eq_true.
Qed.

Lemma made_in_dirs (p : path) (d : gset path) :
  p <> [] -> p ∈ d ∪ list_to_set (prefixes p).
Proof. intros H. apply elem_of_union_r, elem_of_list_to_set, prefixes_self, H. Qed.

(** Two paths with different last components differ. *)
Lemma path_neq_last (p q : path) (x y : string) : x <> y -> p ++ [x] <> q ++ [y].
Proof. intros Hxy Heq. apply app_inj_tail in Heq as [_ ?]. done. Qed.

(** ** [pipeline.py] without a [dbt_project.yml] *)

Lemma run_dbt_pipeline_without_project (L : libs) (w : world) :
  files w !! dbt_project_yml w = None ->
  exists w',
    pipeline.run_dbt_pipeline L w = (Raise (no_such_file (dbt_project_yml w)), w') /\
    files w' =
      <[marts_sql w := pipeline.marts_sql_content]>
        (<[schema_yml w := pipeline.schema_content]>
           (<[staging_sql w := pipeline.staging_sql_content]>
              (<[sources_yml w := pipeline.sources_content]> (files w)))) /\
    log w' = log w ++
      [ Makedirs (staging_dir w); Makedirs (marts_dir w);
        Print Stdout "Creating core dbt project files...";
        OpenWrite (sources_yml w); OpenWrite (staging_sql w);
        OpenWrite (schema_yml w); OpenWrite (marts_sql w);
        OpenRead (dbt_project_yml w) ].
Proof.
  intros Hnone. eexists. split.
  - unfold pipeline.run_dbt_pipeline.
    eapply bind_ok; [reflexivity |]. cbv zeta.
    eapply bind_ok; [apply makedirs_eq |].
    eapply bind_ok; [apply makedirs_eq |].
    eapply bind_ok; [apply print_eq |].
    assert (Hs : forall d d' : gset path, staging_dir w ∈ d ∪ list_to_set (prefixes (staging_dir w)) ∪ d').
    { intros d d'. apply elem_of_union_l, made_in_dirs.
      unfold staging_dir. by destruct (project_dir w). }
    assert (Hm : forall d : gset path, marts_dir w ∈ d ∪ list_to_set (prefixes (marts_dir w))).
    { intros d. apply made_in_dirs. unfold marts_dir. by destruct (project_dir w). }
    eapply bind_ok.
    { apply write_file_eq. unfold path_join. rewrite parent_snoc.
      apply dir_exists_intro. simpl. apply Hs. }
    eapply bind_ok.
    { apply write_file_eq. unfold path_join. rewrite parent_snoc.
      apply dir_exists_intro. simpl. apply Hs. }
    eapply bind_ok.
    { apply write_file_eq. unfold path_join. rewrite parent_snoc.
      apply dir_exists_intro. simpl. apply Hs. }
    eapply bind_ok.
    { apply write_file_eq. unfold path_join. rewrite parent_snoc.
      apply dir_exists_intro. simpl. apply Hm. }
    eapply bind_raise. apply read_file_missing. simpl.
    unfold path_join.
    rewrite !lookup_insert_ne; [exact Hnone | ..];
      unfold dbt_project_yml, staging_dir, marts_dir, project_dir;
      apply path_neq_last; done.
  - simpl. split; [reflexivity |]. by rewrite <- !app_assoc.
Qed.

Lemma dict_item_found (d : gmap string string) (key v : string) (w : world) :
  d !! key = Some v -> dict_item d key w = (Ok v, w).
Proof. intros H. unfold dict_item. by rewrite H. Qed.

Lemma create_dbt_profiles_eq (host port name user pass : string) (w : world) :
  exists w',
    pipeline.create_dbt_profiles
      (<["DB_PASS" := pass]> (<["DB_USER" := user]> (<["DB_NAME" := name]>
         (<["DB_PORT" := port]> (<["DB_HOST" := host]> ∅))))) w = (Ok tt, w') /\
    environ w' = environ w /\ cwd w' = cwd w /\ home w' = home w /\
    files w' = <[profiles_yml w := pipeline.profiles_content host port user pass name]> (files w) /\
    log w' = log w ++
      [ Makedirs (home w ++ [".dbt"]); OpenWrite (profiles_yml w);
        Print Stdout "profiles.yml created successfully." ].
Proof.
  eexists. split.
  - unfold pipeline.create_dbt_profiles.
    eapply bind_ok; [reflexivity |]. cbv zeta.
    eapply bind_ok; [apply makedirs_eq |].
    eapply bind_ok; [apply dict_item_found; by simplify_map_eq |].
    eapply bind_ok; [apply dict_item_found; by simplify_map_eq |].
    eapply bind_ok; [apply dict_item_found; by simplify_map_eq |].
    eapply bind_ok; [apply dict_item_found; by simplify_map_eq |].
    eapply bind_ok; [apply dict_item_found; by simplify_map_eq |].
    eapply bind_ok.
    { apply write_file_eq. unfold path_join. rewrite parent_snoc.
      apply dir_exists_intro. simpl. apply made_in_dirs. by destruct (home w). }
    apply print_eq.
  - simpl. repeat split. by rewrite <- !app_assoc.
Qed.

(** C10.  [pipeline.py] needs [financial_forecasting/dbt_project.yml] to
    be there beforehand.  When the five settings are present and that file
    is not, [main] ends with an uncaught [FileNotFoundError] for it (exit
    status 1); by then the profile, the source declaration, the staging
    model, the schema declaration and the mart model have been written, in
    this order, and [dbt] has not been started. *)
Theorem dbt_project_yml_required (L : libs) (w : world) :
  all (credentials_of w) = true ->
  files w !! dbt_project_yml w = None ->
  exists w',
    pipeline.main L w = (Raise (no_such_file (dbt_project_yml w)), w') /\
    class_of (no_such_file (dbt_project_yml w)) = C_FileNotFoundError /\
    fst (run_script (pipeline.main L) w) = 1 /\
    files w' !! profiles_yml w = Some (profile_of w) /\
    files w' !! sources_yml w = Some pipeline.sources_content /\
    files w' !! staging_sql w = Some pipeline.staging_sql_content /\
    files w' !! schema_yml w = Some pipeline.schema_content /\
    files w' !! marts_sql w = Some pipeline.marts_sql_content /\
    files w' !! dbt_project_yml w = None /\
    new_events w w' =
      [ Makedirs (home w ++ [".dbt"]); OpenWrite (profiles_yml w);
        Print Stdout "profiles.yml created successfully.";
        Makedirs (staging_dir w); Makedirs (marts_dir w);
        Print Stdout "Creating core dbt project files...";
        OpenWrite (sources_yml w); OpenWrite (staging_sql w);
        OpenWrite (schema_yml w); OpenWrite (marts_sql w);
        OpenRead (dbt_project_yml w) ] /\
    List.filter is_spawn (new_events w w') = [].
Proof.
  intros Hall Hnone.
  destruct (create_dbt_profiles_eq
              (str_value (environ w !! "DB_HOST")) (str_value (environ w !! "DB_PORT"))
              (str_value (environ w !! "DB_NAME")) (str_value (environ w !! "DB_USER"))
              (str_value (environ w !! "DB_PASS")) w)
    as (w1 & Hrun1 & Henv1 & Hcwd1 & Hhome1 & Hfiles1 & Hlog1).
  assert (Hpaths : dbt_project_yml w1 = dbt_project_yml w /\ staging_dir w1 = staging_dir w /\
                   marts_dir w1 = marts_dir w).
  { unfold dbt_project_yml, staging_dir, marts_dir, project_dir. by rewrite Hcwd1. }
  destruct Hpaths as (Hp & Hsd & Hmd).
  assert (Hnone1 : files w1 !! dbt_project_yml w1 = None).
  { rewrite Hp, Hfiles1, lookup_insert_ne; [exact Hnone |].
    unfold profiles_yml, dbt_project_yml. apply path_neq_last. done. }
  destruct (run_dbt_pipeline_without_project L w1 Hnone1) as (w2 & Hrun2 & Hfiles2 & Hlog2).
  assert (Hmain : pipeline.main L w = (Raise (no_such_file (dbt_project_yml w)), w2)).
  { unfold pipeline.main.
    do 5 (eapply bind_ok; [reflexivity |]).
    unfold credentials_of in Hall. rewrite Hall. simpl negb. cbv iota.
    eapply bind_ok; [reflexivity |]. cbv zeta.
    eapply bind_ok; [exact Hrun1 |].
    rewrite Hrun2, Hp. reflexivity. }
  assert (Hnew : log w2 = log w ++
      [ Makedirs (home w ++ [".dbt"]); OpenWrite (profiles_yml w);
        Print Stdout "profiles.yml created successfully.";
        Makedirs (staging_dir w); Makedirs (marts_dir w);
        Print Stdout "Creating core dbt project files...";
        OpenWrite (sources_yml w); OpenWrite (staging_sql w);
        OpenWrite (schema_yml w); OpenWrite (marts_sql w);
        OpenRead (dbt_project_yml w) ]).
  { rewrite Hlog2, Hlog1, Hp, Hsd, Hmd.
    unfold sources_yml, staging_sql, schema_yml, marts_sql. rewrite Hsd, Hmd.
    by rewrite <- !app_assoc. }
  assert (Hevents : new_events w w2 = drop (length (log w)) (log w2)) by reflexivity.
  rewrite Hnew, drop_app_length in Hevents.
  exists w2. rewrite Hevents.
  unfold run_script. rewrite Hmain.
  rewrite Hfiles2, Hfiles1.
  unfold sources_yml, staging_sql, schema_yml, marts_sql. rewrite Hsd, Hmd.
  assert (Hneq : forall (p q : path) (x y : string), x <> y -> p ++ [x] <> q ++ [y])
    by exact path_neq_last.
  unfold profiles_yml, dbt_project_yml.
  repeat split.
  - do 4 (rewrite lookup_insert_ne by (apply Hneq; done)). by rewrite lookup_insert_eq.
  - do 3 (rewrite lookup_insert_ne by (apply Hneq; done)). by rewrite lookup_insert_eq.
  - do 2 (rewrite lookup_insert_ne by (apply Hneq; done)). by rewrite lookup_insert_eq.
  - do 1 (rewrite lookup_insert_ne by (apply Hneq; done)). by rewrite lookup_insert_eq.
  - by rewrite lookup_insert_eq.
  - do 5 (rewrite lookup_insert_ne by (apply Hneq; done)). exact Hnone.
Qed.

Lemma dbt_project_yml_required_witness :
  all (credentials_of Sample.fresh) = true /\
  files Sample.fresh !! dbt_project_yml Sample.fresh = None /\
  exists w',
    pipeline.main Sample.library Sample.fresh =
      (Raise (no_such_file (dbt_project_yml Sample.fresh)), w') /\
    files w' !! marts_sql Sample.fresh = Some pipeline.marts_sql_content /\
    List.filter is_spawn (new_events Sample.fresh w') = [].
Proof.
  assert (H1 : all (credentials_of Sample.fresh) = true) by (vm_compute; reflexivity).
  assert (H2 : files Sample.fresh !! dbt_project_yml Sample.fresh = None)
    by (vm_compute; reflexivity).
  split; [exact H1 |]. split; [exact H2 |].
  destruct (dbt_project_yml_required Sample.library Sample.fresh H1 H2)
    as (w' & Hrun & _ & _ & _ & _ & _ & _ & Hmart & _ & _ & Hspawn).
  exists w'. auto.
Defined.

(** ** psycopg2, step by step *)

Lemma open_session_ok (h : nat) (s : session) (w : world) :
  sessions w !! h = Some s -> s_closed s = false -> open_session h w = (Ok s, w).
Proof. intros Hs Hc. unfold open_session, mbind, py_bind. simpl. by rewrite Hs, Hc. Qed.

Lemma open_session_closed (h : nat) (w : world) :
  (forall s, sessions w !! h = Some s -> s_closed s = true) ->
  open_session h w = (Raise connection_closed, w).
Proof.
  intros H. unfold open_session, mbind, py_bind. simpl.
  destruct (sessions w !! h) as [s |] eqn:E; [| done]. by rewrite (H s eq_refl).
Qed.

Lemma cursor_ok (h : nat) (s : session) (w : world) :
  sessions w !! h = Some s -> s_closed s = false -> cursor h w = (Ok tt, w).
Proof.
  intros Hs Hc. unfold cursor. eapply bind_ok; [by apply open_session_ok | done].
Qed.

Lemma execute_ok (L : libs) (h : nat) (stmt : statement) (s : session) (d : database)
    (w : world) :
  sessions w !! h = Some s -> usable s ->
  exec_sql L stmt (visible w s) = Ok d ->
  execute L h stmt w = (Ok tt, executed h stmt d w).
Proof.
  intros Hs [Hc Ha] He. unfold execute.
  eapply bind_ok; [reflexivity |].
  eapply bind_ok; [by apply open_session_ok |].
  eapply bind_ok; [reflexivity |].
  change (visible (logged (Execute h stmt) w) s) with (visible w s). rewrite He.
  by destruct (s_txn s).
Qed.

Lemma execute_fail (L : libs) (h : nat) (stmt : statement) (s : session) (e : exn)
    (w : world) :
  sessions w !! h = Some s -> usable s ->
  exec_sql L stmt (visible w s) = Raise e ->
  execute L h stmt w = (Raise e, aborted h stmt w).
Proof.
  intros Hs [Hc Ha] He. unfold execute.
  eapply bind_ok; [reflexivity |].
  eapply bind_ok; [by apply open_session_ok |].
  eapply bind_ok; [reflexivity |].
  change (visible (logged (Execute h stmt) w) s) with (visible w s). rewrite He.
  by destruct (s_txn s).
Qed.

Lemma commit_ok (h : nat) (s : session) (w : world) :
  sessions w !! h = Some s -> s_closed s = false ->
  commit h w = (Ok tt, committed h s w).
Proof.
  intros Hs Hc. unfold commit, committed.
  eapply bind_ok; [reflexivity |].
  eapply bind_ok; [by apply open_session_ok |].
  by destruct (s_txn s).
Qed.

Lemma rollback_ok (h : nat) (s : session) (w : world) :
  sessions w !! h = Some s -> s_closed s = false ->
  rollback h w = (Ok tt, rolled_back h w).
Proof.
  intros Hs Hc. unfold rollback.
  eapply bind_ok; [reflexivity |].
  eapply bind_ok; [by apply open_session_ok |].
  reflexivity.
Qed.

Lemma lookup_session_insert (h : nat) (s s' : session) (l : list session) :
  l !! h = Some s -> <[h := s']> l !! h = Some s'.
Proof. intros H. apply list_lookup_insert_eq. by eapply lookup_lt_Some. Qed.

(** ** Creating the table *)

Lemma create_table_eq (L : libs) (conn : nat) (s : session) (w : world) :
  sessions w !! conn = Some s -> usable s ->
  exists w',
    database_setup.create_table L conn w = (Ok tt, w') /\
    sessions w' !! conn = Some idle /\
    db w' = match visible w s !! "raw_saas_metrics" with
            | Some _ => visible w s
            | None => <["raw_saas_metrics" := raw_saas_metrics]> (visible w s)
            end /\
    log w' = log w ++
      [ Execute conn database_setup.create_table_query; Commit conn;
        Print Stdout "Table 'raw_saas_metrics' is ready." ].
Proof.
  intros Hs Hu. pose proof Hu as [Hc _].
  set (d := match visible w s !! "raw_saas_metrics" with
            | Some _ => visible w s
            | None => <["raw_saas_metrics" := raw_saas_metrics]> (visible w s)
            end).
  assert (He : exec_sql L database_setup.create_table_query (visible w s) = Ok d).
  { unfold d. simpl. by destruct (visible w s !! "raw_saas_metrics"). }
  eexists. split.
  - unfold database_setup.create_table.
    eapply bind_ok; [by eapply cursor_ok |].
    eapply bind_ok; [by eapply execute_ok |].
    eapply bind_ok.
    { eapply (commit_ok conn (Session false (TxOpen d))); [| done].
      simpl. by eapply lookup_session_insert. }
    apply print_eq.
  - simpl. repeat split.
    + rewrite list_insert_insert_eq. by eapply lookup_session_insert.
    + by rewrite <- !app_assoc.
Qed.

(** C3.  Creating the table is idempotent.  On a connection that can run
    a statement, [create_table] never raises.  If the table is already
    there it is left as it is, schema and rows, and so is the rest of the
    database: what is committed afterwards is exactly what the connection
    saw before (and, with no transaction pending, exactly what was
    committed before).  A second call right after the first changes
    nothing. *)
Theorem create_table_idempotent (L : libs) (conn : nat) (s : session) (w : world) :
  sessions w !! conn = Some s -> usable s ->
  exists w1 w2,
    database_setup.create_table L conn w = (Ok tt, w1) /\
    database_setup.create_table L conn w1 = (Ok tt, w2) /\
    (forall t, visible w s !! "raw_saas_metrics" = Some t ->
               db w1 = visible w s /\ db w1 !! "raw_saas_metrics" = Some t) /\
    (forall t, s_txn s = TxIdle -> db w !! "raw_saas_metrics" = Some t -> db w1 = db w) /\
    (visible w s !! "raw_saas_metrics" = None ->
       db w1 !! "raw_saas_metrics" = Some raw_saas_metrics) /\
    db w2 = db w1.
Proof.
  intros Hs Hu.
  destruct (create_table_eq L conn s w Hs Hu) as (w1 & Hrun1 & Hs1 & Hdb1 & _).
  assert (Hu1 : usable idle) by (split; [reflexivity | discriminate]).
  destruct (create_table_eq L conn idle w1 Hs1 Hu1) as (w2 & Hrun2 & _ & Hdb2 & _).
  exists w1, w2. repeat split; try assumption.
  - rewrite Hdb1. by rewrite H.
  - rewrite Hdb1. by rewrite H.
  - intros t Hidle Ht. rewrite Hdb1.
    unfold visible in *. rewrite Hidle. by rewrite Ht.
  - intros Hnone. rewrite Hdb1, Hnone. apply lookup_insert_eq.
  - rewrite Hdb2. change (visible w1 idle) with (db w1).
    rewrite Hdb1. destruct (visible w s !! "raw_saas_metrics") as [t |] eqn:E.
    + by rewrite E.
    + by rewrite lookup_insert_eq.
Qed.

Lemma create_table_idempotent_witness :
  sessions Sample.loaded !! 0%nat = Some idle /\ usable idle /\
  exists w1 w2,
    database_setup.create_table Sample.library 0 Sample.loaded = (Ok tt, w1) /\
    database_setup.create_table Sample.library 0 w1 = (Ok tt, w2) /\
    db w1 = db Sample.loaded /\ db w2 = db w1.
Proof.
  assert (H1 : sessions Sample.loaded !! 0%nat = Some idle) by reflexivity.
  assert (H2 : usable idle) by (split; [reflexivity | discriminate]).
  split; [exact H1 |]. split; [exact H2 |].
  destruct (create_table_idempotent Sample.library 0 idle Sample.loaded H1 H2)
    as (w1 & w2 & Hrun1 & Hrun2 & _ & Hsame & _ & Htwice).
  exists w1, w2. repeat split; try assumption.
  apply (Hsame (Table database_setup.raw_saas_metrics_schema [Sample.stored_row]));
    reflexivity.
Defined.

(** ** Ingestion: nothing is committed, nothing is reported, before [commit] *)

Global Instance quiet_preorder : PreOrder quiet.
Proof.
  split.
  - intros w. split; [reflexivity |]. exists []. by rewrite app_nil_r.
  - intros a b c [Hdb1 (e1 & Hl1 & Hf1)] [Hdb2 (e2 & Hl2 & Hf2)]. split; [congruence |].
    exists (e1 ++ e2). rewrite Hl2, Hl1, app_assoc. split; [done |].
    by apply Forall_app.
Qed.

Lemma quiet_emit (e : event) : reports_success e = false -> keeps quiet (emit e).
Proof.
  intros H w. split; [reflexivity |]. exists [e]. split; [reflexivity |].
  by constructor.
Qed.

Lemma quiet_set_session (h : nat) (s : session) : keeps quiet (set_session h s).
Proof. intros w. split; [reflexivity |]. exists []. by rewrite app_nil_r. Qed.

#[global] Hint Extern 1 (reports_success _ = false) => reflexivity : keeps.
#[global] Hint Resolve quiet_emit quiet_set_session : keeps.

Ltac keeps_auto ::= repeat first [ solve [auto 2 with keeps nocore] | keeps_step ].

Lemma quiet_open_session (h : nat) : keeps quiet (open_session h).
Proof. unfold open_session. keeps_auto. Qed.

#[global] Hint Resolve quiet_open_session : keeps.

Lemma quiet_cursor (h : nat) : keeps quiet (cursor h).
Proof. unfold cursor. keeps_auto. Qed.

Lemma quiet_execute (L : libs) (h : nat) (stmt : statement) : keeps quiet (execute L h stmt).
Proof. unfold execute. keeps_auto. Qed.

Lemma quiet_rollback (h : nat) : keeps quiet (rollback h).
Proof. unfold rollback. keeps_auto. Qed.

Lemma quiet_read_file (p : path) : keeps quiet (read_file p).
Proof. unfold read_file. keeps_auto. Qed.

#[global] Hint Resolve quiet_cursor quiet_execute quiet_rollback quiet_read_file : keeps.

Lemma quiet_json_load (L : libs) (p : path) : keeps quiet (json_load L p).
Proof. unfold json_load. keeps_auto. Qed.

Lemma quiet_insert_record (L : libs) (c : nat) (record : pyval) :
  keeps quiet (database_setup.insert_record L c record).
Proof. unfold database_setup.insert_record. keeps_auto. Qed.

#[global] Hint Resolve quiet_json_load quiet_insert_record : keeps.

Lemma quiet_ingest_except (conn : nat) (e : exn) (h : py unit) :
  database_setup.ingest_except conn e = Some h -> keeps quiet h.
Proof.
  unfold database_setup.ingest_except.
  destruct (_ || _); intros [= <-]. keeps_auto.
  apply quiet_emit. reflexivity.
Qed.

(** ** An open connection stays open until [close] *)

Global Instance stays_open_preorder (conn : nat) : PreOrder (stays_open conn).
Proof.
  split.
  - intros w H. exact H.
  - intros a b c Hab Hbc H. apply Hbc, Hab, H.
Qed.

Lemma open_emit (conn : nat) (e : event) : keeps (stays_open conn) (emit e).
Proof. intros w H. exact H. Qed.

Lemma open_set_session (conn h : nat) (txn : txn_state) :
  keeps (stays_open conn) (set_session h (Session false txn)).
Proof.
  intros w (s & Hs & Hc). unfold is_open. simpl.
  destruct (decide (h = conn)) as [-> |].
  - exists (Session false txn). split; [| done]. by eapply lookup_session_insert.
  - exists s. by rewrite list_lookup_insert_ne.
Qed.

#[global] Hint Resolve open_emit open_set_session : keeps.

Lemma open_open_session (conn h : nat) : keeps (stays_open conn) (open_session h).
Proof. unfold open_session. keeps_auto. Qed.

#[global] Hint Resolve open_open_session : keeps.

Lemma open_execute (L : libs) (conn h : nat) (stmt : statement) :
  keeps (stays_open conn) (execute L h stmt).
Proof. unfold execute. keeps_auto. Qed.

#[global] Hint Resolve open_execute : keeps.

Lemma open_insert_record (L : libs) (conn c : nat) (record : pyval) :
  keeps (stays_open conn) (database_setup.insert_record L c record).
Proof. unfold database_setup.insert_record. keeps_auto. Qed.

Lemma bind_inv {A B : Type} (m : py A) (f : A -> py B) (w w' : world) (r : result B) :
  (m ≫= f) w = (r, w') ->
  (exists a w1, m w = (Ok a, w1) /\ f a w1 = (r, w')) \/
  (exists e, m w = (Raise e, w') /\ r = Raise e).
Proof.
  unfold mbind, py_bind. destruct (m w) as [[a | e] w1]; intros H.
  - left. by exists a, w1.
  - right. exists e. by inversion H.
Qed.

Lemma keeps_run {A : Type} (R : relation world) (m : py A) (w w' : world) (r : result A) :
  keeps R m -> m w = (r, w') -> R w w'.
Proof. intros Hk Hm. specialize (Hk w). by rewrite Hm in Hk. Qed.

Lemma for_each_first_failure {A : Type} (before after : list A) (x : A)
    (body : A -> py unit) (w w1 w2 : world) (e : exn) :
  for_each before body w = (Ok tt, w1) ->
  body x w1 = (Raise e, w2) ->
  for_each (before ++ x :: after) body w = (Raise e, w2).
Proof.
  revert w. induction before as [| y before IH]; simpl; intros w Hb Hx.
  - inversion Hb; subst. by eapply bind_raise.
  - apply bind_inv in Hb as [(a & w' & Hy & Hrest) | (e' & _ & [=])].
    eapply bind_ok; [exact Hy |]. by apply IH.
Qed.

Lemma execute_log (L : libs) (h : nat) (stmt : statement) (w w' : world) (r : result unit) :
  execute L h stmt w = (r, w') -> log w' = log w ++ [Execute h stmt].
Proof.
  unfold execute, open_session, set_session, raise, mbind, py_bind, mret, py_ret. simpl.
  destruct (sessions w !! h) as [s |]; [| by intros [= <- <-]].
  destruct (s_closed s); [by intros [= <- <-] |].
  destruct (s_txn s); try destruct (exec_sql _ _ _); by intros [= <- <-].
Qed.

Lemma insert_record_ok_log (L : libs) (conn : nat) (record : pyval) (w w' : world) :
  database_setup.insert_record L conn record w = (Ok tt, w') ->
  exists stmt, log w' = log w ++ [Execute conn stmt].
Proof.
  unfold database_setup.insert_record, lift_result, mbind, py_bind. intros H.
  repeat match type of H with
         | context [py_get ?r ?k] => destruct (py_get r k); [| discriminate H]
         end.
  eexists. by eapply execute_log.
Qed.

Lemma for_each_insert_log (L : libs) (conn : nat) (records : list pyval) (w w' : world) :
  for_each records (database_setup.insert_record L conn) w = (Ok tt, w') ->
  exists stmts, length stmts = length records /\ log w' = log w ++ (Execute conn <$> stmts).
Proof.
  revert w. induction records as [| r records IH]; simpl; intros w H.
  - inversion H; subst. exists []. by rewrite app_nil_r.
  - apply bind_inv in H as [([] & w1 & Hr & Hrest) | (e & _ & [=])].
    apply insert_record_ok_log in Hr as (stmt & Hlog1).
    apply IH in Hrest as (stmts & Hlen & Hlog).
    exists (stmt :: stmts). simpl. split; [by rewrite Hlen |].
    by rewrite Hlog, Hlog1, <- app_assoc.
Qed.

Lemma length_chars (s : string) : length (chars s) = String.length s.
Proof.
  unfold chars. rewrite length_fmap. induction s as [| c s IH]; simpl; [done | by rewrite IH].
Qed.

(** A value a [for] loop can run over has a length: the number of items. *)
Lemma py_len_of_iter (data : pyval) (records : list pyval) :
  py_iter data = Ok records -> py_len data = Ok (length records).
Proof.
  destruct data; simpl; intros [= <-]; by rewrite ?length_fmap, ?length_chars.
Qed.

Lemma commit_outcome (h : nat) (w w' : world) (r : result unit) :
  commit h w = (r, w') ->
  log w' = log w ++ [Commit h] /\ (forall e, r = Raise e -> quiet w w').
Proof.
  unfold commit, open_session, set_session, raise, mbind, py_bind, mret, py_ret. simpl.
  destruct (sessions w !! h) as [s |]; [| intros [= <- <-]]; cycle 1.
  { split; [done |]. intros _ _. by apply (quiet_emit (Commit h)). }
  destruct (s_closed s); [intros [= <- <-] |].
  { split; [done |]. intros _ _. by apply (quiet_emit (Commit h)). }
  destruct (s_txn s); intros [= <- <-]; (split; [done | intros ? [=]]).
Qed.

Lemma json_load_ok_log (L : libs) (p : path) (data : pyval) (w w' : world) :
  json_load L p w = (Ok data, w') -> log w' = log w ++ [OpenRead p].
Proof.
  unfold json_load. intros H.
  apply bind_inv in H as [(text & w0 & Hread & Hparse) | (e & _ & [=])].
  unfold read_file, mbind, py_bind in Hread. simpl in Hread.
  destruct (files w !! p); inversion Hread; subst.
  destruct (json_parse L text); inversion Hparse; subst. reflexivity.
Qed.

Lemma cursor_ok_world (h : nat) (w w' : world) :
  cursor h w = (Ok tt, w') -> w' = w.
Proof.
  unfold cursor, open_session, raise, mbind, py_bind, mret, py_ret. simpl.
  destruct (sessions w !! h) as [s |]; [| intros [=]].
  destruct (s_closed s); by intros [=].
Qed.

(** The [try] block of [ingest_data]: either it raises with nothing
    committed and nothing reported, or it ends normally, having executed
    one [INSERT] for each record, committed, and then printed their
    number. *)
Lemma ingest_try_outcome (L : libs) (conn : nat) (p : path) (w w' : world) (r : result unit) :
  database_setup.ingest_try L conn p w = (r, w') ->
  (exists e, r = Raise e /\ quiet w w') \/
  (r = Ok tt /\ exists stmts,
     log w' = log w ++ OpenRead p :: (Execute conn <$> stmts) ++
                [Commit conn; Print Stdout (database_setup.success_message (length stmts))]).
Proof.
  unfold database_setup.ingest_try. intros H.
  apply bind_inv in H as [(data & w1 & Hload & H) | (e & Hload & ->)].
  2: { left. exists e. split; [done |]. eapply keeps_run; [apply quiet_json_load | exact Hload]. }
  assert (Hq1 : quiet w w1) by (eapply keeps_run; [apply quiet_json_load | exact Hload]).
  apply json_load_ok_log in Hload as Hlog1.
  apply bind_inv in H as [([] & w2 & Hcur & H) | (e & Hcur & ->)].
  2: { left. exists e. split; [done |]. etrans; [exact Hq1 |].
       eapply keeps_run; [apply quiet_cursor | exact Hcur]. }
  apply cursor_ok_world in Hcur as ->.
  apply bind_inv in H as [(records & w3 & Hiter & H) | (e & Hiter & ->)].
  2: { left. exists e. split; [done |]. unfold lift_result in Hiter. by inversion Hiter; subst. }
  unfold lift_result in Hiter. inversion Hiter as [[Hrecords Hw3]]. subst w3. clear Hiter.
  apply bind_inv in H as [([] & w4 & Hloop & H) | (e & Hloop & ->)].
  2: { left. exists e. split; [done |]. etrans; [exact Hq1 |].
       eapply keeps_run; [| exact Hloop]. keeps_auto. }
  assert (Hq4 : quiet w1 w4) by (eapply keeps_run; [| exact Hloop]; keeps_auto).
  apply for_each_insert_log in Hloop as (stmts & Hlen & Hlog4).
  apply bind_inv in H as [([] & w5 & Hcommit & H) | (e & Hcommit & ->)].
  2: { left. exists e. split; [done |].
       apply commit_outcome in Hcommit as [_ Hq5].
       etrans; [exact Hq1 |]. etrans; [exact Hq4 |]. by apply (Hq5 e). }
  apply commit_outcome in Hcommit as [Hlog5 _].
  rewrite (py_len_of_iter _ _ Hrecords) in H.
  apply bind_inv in H as [(n & w6 & Hn & H) | (e & Hn & _)]; [| by inversion Hn].
  unfold lift_result in Hn. inversion Hn; subst n w6. clear Hn.
  rewrite print_eq in H. inversion H; subst r w'. clear H.
  right. split; [done |]. exists stmts. simpl.
  rewrite Hlog5, Hlog4, Hlog1, Hlen. by rewrite <- !app_assoc.
Qed.

Lemma new_events_app (w w' : world) (evs : list event) :
  log w' = log w ++ evs -> new_events w w' = evs.
Proof. intros H. unfold new_events. by rewrite H, drop_app_length. Qed.

Lemma quiet_new_events (w w' : world) :
  quiet w w' -> db w' = db w /\ Forall (fun ev => reports_success ev = false) (new_events w w').
Proof. intros [Hdb (evs & Hlog & Hevs)]. split; [done |]. by rewrite (new_events_app _ _ _ Hlog). Qed.

Lemma json_load_found (L : libs) (p : path) (text : string) (data : pyval) (w : world) :
  files w !! p = Some text -> json_parse L text = Some data ->
  json_load L p w = (Ok data, logged (OpenRead p) w).
Proof.
  intros Hf Hp. unfold json_load.
  eapply bind_ok; [by apply read_file_found |]. by rewrite Hp.
Qed.



(** ** The forecast loader on a mart table without rows *)

Lemma try_except_ok {A : Type} (body : py A) (handlers : exn -> option (py A))
    (w w1 : world) (a : A) :
  body w = (Ok a, w1) -> try_except body handlers w = (Ok a, w1).
Proof. intros H. unfold try_except. by rewrite H. Qed.

Lemma select_empty (d : database) (t : table) :
  mart_table d t -> t_rows t = [] ->
  select_order_by ["subscription_month"; "monthly_recurring_revenue"]
                  "fact_monthly_revenue" "subscription_month" d =
    Ok (Frame ["subscription_month"; "monthly_recurring_revenue"] []).
Proof.
  intros (Ht & Hm & Hr) Hrows. unfold select_order_by. rewrite Ht, Hrows. simpl.
  rewrite !bool_decide_eq_true_2 by assumption. reflexivity.
Qed.

Lemma exec_select (L : libs) (cols : list string) (name order_by : string)
    (d : database) (df : DataFrame) :
  select_order_by cols name order_by d = Ok df ->
  exec_sql L (SelectOrderBy cols name order_by) d = Ok d.
Proof. intros H. unfold exec_sql. by rewrite H. Qed.

Lemma fetch_empty (L : libs) (conn : nat) (s : session) (t : table) (w : world) :
  sessions w !! conn = Some s -> usable s ->
  mart_table (visible w s) t -> t_rows t = [] ->
  run_forecasting.fetch_and_prepare_data L conn w =
    (Ok empty_series,
     executed conn mart_query (visible w s)
       (logged (Print Stdout "Fetching clean data from fact_monthly_revenue...") w)).
Proof.
  intros Hs Hu Ht Hrows. pose proof Hu as [Hc _].
  pose proof (select_empty _ _ Ht Hrows) as Hsel.
  unfold run_forecasting.fetch_and_prepare_data.
  eapply bind_ok; [apply print_eq |].
  eapply bind_ok.
  { unfold read_sql.
    eapply bind_ok; [by eapply (cursor_ok conn s) |].
    eapply bind_ok.
    { apply try_except_ok. eapply (execute_ok L conn _ s (visible w s)); [done | done |].
      change (visible (logged _ w) s) with (visible w s).
      by apply (exec_select L _ _ _ _ _ Hsel). }
    eapply bind_ok.
    { eapply (open_session_ok conn (Session false (TxOpen (visible w s)))); [| done].
      simpl. by eapply lookup_session_insert. }
    eapply bind_ok; [reflexivity |].
    unfold lift_result.
    change (visible _ (Session false (TxOpen (visible w s)))) with (visible w s).
    rewrite Hsel. reflexivity. }
  reflexivity.
Qed.

Lemma get_db_credentials_ok (w : world) :
  all (credentials_of w) = true ->
  run_forecasting.get_db_credentials w =
    (Ok (host_of w, port_of w, name_of w, user_of w, pass_of w), w).
Proof.
  intros H. unfold run_forecasting.get_db_credentials.
  do 5 (eapply bind_ok; [reflexivity |]).
  unfold credentials_of in H. rewrite H. reflexivity.
Qed.

Lemma connect_ok (w : world) :
  can_connect w ->
  connect (host_of w) (port_of w) (name_of w) (user_of w) (pass_of w) w =
    (Ok (length (sessions w)), connected w).
Proof.
  intros [_ H]. unfold connect.
  eapply bind_ok; [reflexivity |].
  eapply bind_ok; [reflexivity |].
  simpl. rewrite H. reflexivity.
Qed.

Lemma connected_session (w : world) :
  sessions (connected w) !! length (sessions w) = Some idle.
Proof. simpl. by rewrite lookup_app_r, Nat.sub_diag by lia. Qed.

Lemma fit_too_few_rows (L : libs) (config : prophet_config) (w : world) :
  fit L config empty_series w = (Raise too_few_rows, logged (Fit 0) w).
Proof. reflexivity. Qed.

(** C4 (as the code has it).  The loader has no guard for an empty mart
    table.  On a table without rows it raises nothing and returns the empty
    series; [main] hands that to [run_prophet_forecast], whose call of the
    fit is what rejects it.  The run then reports the fit's error, closes
    the connection and exits with status 1; nothing is published. *)
Theorem empty_mart_reaches_fit (L : libs) (w : world) (t : table) :
  t_rows t = [] ->
  (forall conn s,
     sessions w !! conn = Some s -> usable s -> mart_table (visible w s) t ->
     exists w', run_forecasting.fetch_and_prepare_data L conn w = (Ok empty_series, w')) /\
  (can_connect w -> mart_table (db w) t ->
   exists w',
     run_forecasting.main L w = (Raise (SystemExit 1), w') /\
     new_events w w' =
       [ Connect (host_of w) (port_of w) (name_of w) (user_of w) (pass_of w);
         Print Stdout "Fetching clean data from fact_monthly_revenue...";
         Execute (length (sessions w)) mart_query;
         Print Stdout "Training Prophet model and generating 24-month forecast...";
         Fit 0;
         Print Stderr ("An error occurred during forecasting pipeline: "
                         +:+ str_of_exn too_few_rows);
         Close (length (sessions w)) ]).
Proof.
  intros Hrows. split.
  - intros conn s Hs Hu Ht. eexists. by eapply fetch_empty.
  - intros Hcan Ht. pose proof Hcan as [Hall _].
    assert (Hu : usable idle) by (split; [reflexivity | discriminate]).
    assert (Hbody :
      (prophet_df ← run_forecasting.fetch_and_prepare_data L (length (sessions w));
       forecast ← run_forecasting.run_prophet_forecast L prophet_df;
       run_forecasting.ingest_forecast_to_db forecast
         (host_of w) (port_of w) (name_of w) (user_of w) (pass_of w)) (connected w) =
      (Raise too_few_rows,
       logged (Fit 0)
         (logged (Print Stdout "Training Prophet model and generating 24-month forecast...")
            (executed (length (sessions w)) mart_query (db w)
               (logged (Print Stdout "Fetching clean data from fact_monthly_revenue...")
                  (connected w)))))).
    { eapply bind_ok.
      { eapply (fetch_empty L _ idle t); [apply connected_session | done | exact Ht | done]. }
      eapply bind_raise. unfold run_forecasting.run_prophet_forecast.
      eapply bind_ok; [apply print_eq |].
      eapply bind_raise. apply fit_too_few_rows. }
    eexists. split.
    + unfold run_forecasting.main.
      eapply bind_ok; [by apply get_db_credentials_ok |]. cbv beta iota.
      unfold try_acquire. rewrite (connect_ok w Hcan).
      unfold try_finally, try_except. rewrite Hbody.
      reflexivity.
    + apply new_events_app. simpl. by rewrite <- !app_assoc.
Qed.

Lemma empty_mart_reaches_fit_witness :
  t_rows (Table Sample.mart_schema []) = [] /\
  can_connect Sample.empty_mart /\
  mart_table (db Sample.empty_mart) (Table Sample.mart_schema []) /\
  exists w',
    run_forecasting.main Sample.library Sample.empty_mart = (Raise (SystemExit 1), w') /\
    In (Fit 0) (new_events Sample.empty_mart w').
Proof.
  assert (H1 : t_rows (Table Sample.mart_schema []) = []) by reflexivity.
  assert (H2 : can_connect Sample.empty_mart) by (split; vm_compute; reflexivity).
  assert (H3 : mart_table (db Sample.empty_mart) (Table Sample.mart_schema [])).
  { split; [reflexivity |]. split; simpl; [left | right; left]. }
  split; [exact H1 |]. split; [exact H2 |]. split; [exact H3 |].
  destruct (empty_mart_reaches_fit Sample.library Sample.empty_mart _ H1) as [_ Hmain].
  destruct (Hmain H2 H3) as (w' & Hrun & Hevents).
  exists w'. split; [exact Hrun |]. rewrite Hevents. simpl. tauto.
Defined.

(** C4 as stated does not hold: on a mart table without rows the loader
    returns normally, so it raises no [DataLoadError], and the run goes on
    to call the fit. *)
Lemma empty_mart_is_not_rejected_by_loader :
  db Sample.empty_mart_connected !! "fact_monthly_revenue" = Some (Table Sample.mart_schema []) /\
  fst (run_forecasting.fetch_and_prepare_data Sample.library 0 Sample.empty_mart_connected)
    = Ok empty_series /\
  ~ raises (fst (run_forecasting.fetch_and_prepare_data Sample.library 0
                   Sample.empty_mart_connected))
           (C_Named "DataLoadError") /\
  In (Fit 0) (log (snd (run_forecasting.main Sample.library Sample.empty_mart))).
Proof.
  assert (H : fst (run_forecasting.fetch_and_prepare_data Sample.library 0
                     Sample.empty_mart_connected) = Ok empty_series)
    by (vm_compute; reflexivity).
  split; [reflexivity |]. split; [exact H |]. split.
  - intros (e & He & _). rewrite H in He. discriminate He.
  - vm_compute. tauto.
Qed.

(** ** The publisher *)

Lemma positions_from_lookup (label : string) (cols : list string) (base m : nat) :
  m ∈ positions_from base label cols ->
  (base <= m)%nat /\ cols !! (m - base)%nat = Some label.
Proof.
  revert base. induction cols as [| c cols IH]; simpl; intros base Hm.
  - by apply elem_of_nil in Hm.
  - assert (Hrest : m ∈ positions_from (S base) label cols ->
                    (base <= m)%nat /\ (c :: cols) !! (m - base)%nat = Some label).
    { intros H. destruct (IH _ H) as [Hle Hlook]. split; [lia |].
      replace (m - base)%nat with (S (m - S base)) by lia. exact Hlook. }
    case_bool_decide as Hc; [| by apply Hrest].
    apply elem_of_cons in Hm as [-> | Hm]; [| by apply Hrest].
    split; [lia |]. rewrite Nat.sub_diag. simpl. by rewrite Hc.
Qed.

Lemma positions_lookup (label : string) (cols : list string) (n : nat) :
  positions label cols = [n] -> cols !! n = Some label.
Proof.
  intros H. destruct (positions_from_lookup label cols 0 n) as [_ Hlook].
  - unfold positions in H. rewrite H. left.
  - by rewrite Nat.sub_0_r in Hlook.
Qed.

Lemma final_forecast_df_eq (forecast : DataFrame) (i j k l : nat) :
  positions "ds" (df_columns forecast) = [i] ->
  positions "yhat" (df_columns forecast) = [j] ->
  positions "yhat_lower" (df_columns forecast) = [k] ->
  positions "yhat_upper" (df_columns forecast) = [l] ->
  run_forecasting.final_forecast_df forecast =
    Ok (Frame published_columns
              ((fun r => [cell_at r i; cell_at r j; cell_at r k; cell_at r l])
                 <$> df_rows forecast)).
Proof.
  intros Hi Hj Hk Hl.
  unfold run_forecasting.final_forecast_df, df_select. simpl.
  rewrite Hi, Hj, Hk, Hl. simpl.
  rewrite (positions_lookup _ _ _ Hi), (positions_lookup _ _ _ Hj),
          (positions_lookup _ _ _ Hk), (positions_lookup _ _ _ Hl).
  reflexivity.
Qed.

Lemma predict_columns (L : libs) (m : Prophet) (future : list timestamp) :
  positions "ds" (df_columns (predict L m future)) = [0%nat] /\
  positions "yhat" (df_columns (predict L m future)) = [15%nat] /\
  positions "yhat_lower" (df_columns (predict L m future)) = [2%nat] /\
  positions "yhat_upper" (df_columns (predict L m future)) = [3%nat].
Proof. repeat split. Qed.

(** C7 (as the code has it).  The publisher keeps four columns of the
    engine's table, in the order time, estimate, lower bound, upper bound,
    and renames the first two to [subscription_month] and
    [forecasted_mrr]; the bounds keep the engine's names [yhat_lower] and
    [yhat_upper].  The rows are the rows of the engine's table cut down to
    these columns.  This holds for every table in which each of the four
    labels names one column, and so for every table [predict] returns. *)
Theorem published_columns_of_forecast :
  (forall (forecast : DataFrame) (i j k l : nat),
     positions "ds" (df_columns forecast) = [i] ->
     positions "yhat" (df_columns forecast) = [j] ->
     positions "yhat_lower" (df_columns forecast) = [k] ->
     positions "yhat_upper" (df_columns forecast) = [l] ->
     run_forecasting.final_forecast_df forecast =
       Ok (Frame published_columns
                 ((fun r => [cell_at r i; cell_at r j; cell_at r k; cell_at r l])
                    <$> df_rows forecast))) /\
  (forall (L : libs) (m : Prophet) (future : list timestamp),
     exists final,
       run_forecasting.final_forecast_df (predict L m future) = Ok final /\
       df_columns final = published_columns /\
       column_names (table_of_frame final) = published_columns).
Proof.
  split; [exact final_forecast_df_eq |].
  intros L m future.
  destruct (predict_columns L m future) as (Hi & Hj & Hk & Hl).
  eexists. split.
  - apply (final_forecast_df_eq _ _ _ _ _ Hi Hj Hk Hl).
  - split; [reflexivity |].
    unfold column_names, table_of_frame.
    cbn [t_schema df_columns published_columns imap fmap list_fmap col_name].
    reflexivity.
Qed.

Lemma published_columns_of_forecast_witness :
  positions "ds" (df_columns Sample.forecast) = [0%nat] /\
  positions "yhat" (df_columns Sample.forecast) = [15%nat] /\
  positions "yhat_lower" (df_columns Sample.forecast) = [2%nat] /\
  positions "yhat_upper" (df_columns Sample.forecast) = [3%nat] /\
  run_forecasting.final_forecast_df Sample.forecast =
    Ok (Frame published_columns
              ((fun r => [cell_at r 0; cell_at r 15; cell_at r 2; cell_at r 3])
                 <$> df_rows Sample.forecast)).
Proof.
  split; [reflexivity |]. split; [reflexivity |].
  split; [reflexivity |]. split; [reflexivity |].
  apply (proj1 published_columns_of_forecast Sample.forecast 0%nat 15%nat 2%nat 3%nat);
    reflexivity.
Defined.

(** C7 as stated does not hold: the table written for the engine's
    forecast has the columns [yhat_lower] and [yhat_upper], not
    [forecasted_mrr_lower] and [forecasted_mrr_upper]. *)
Lemma bounds_keep_engine_names :
  exists final,
    run_forecasting.final_forecast_df Sample.forecast = Ok final /\
    df_columns final = published_columns /\
    df_columns final <> forecast_point_columns /\
    (column_names <$>
       db (snd (run_forecasting.ingest_forecast_to_db Sample.forecast
                  "localhost" "5432" "saas" "analyst" "secret" Sample.fresh))
         !! forecast_table) = Some published_columns.
Proof.
  eexists. split; [reflexivity |]. split; [reflexivity |]. split; [discriminate |].
  vm_compute. reflexivity.
Qed.

Lemma final_forecast_df_rows (forecast final : DataFrame) :
  run_forecasting.final_forecast_df forecast = Ok final ->
  length (df_rows final) = length (df_rows forecast).
Proof.
  unfold run_forecasting.final_forecast_df, df_select.
  destruct (List.find _ _); [intros [=] |].
  intros [= <-]. simpl. by rewrite length_fmap.
Qed.

Lemma to_sql_replace_ok (df : DataFrame) (name : string) (e : engine) (w w' : world) :
  to_sql df name e IfExistsReplace w = (Ok tt, w') ->
  db w' = <[name := table_of_frame df]> (db w).
Proof.
  unfold to_sql, emit, modify, get_world, raise, mbind, py_bind. simpl.
  destruct (negb _); [intros [=] |].
  destruct (db w !! name); by intros [= <-].
Qed.

(** What a successful publication leaves in the database. *)
Lemma publish_ok (forecast : DataFrame) (host port name user pass : string) (w w' : world) :
  run_forecasting.ingest_forecast_to_db forecast host port name user pass w = (Ok tt, w') ->
  exists final,
    run_forecasting.final_forecast_df forecast = Ok final /\
    db w' = <[forecast_table := table_of_frame final]> (db w).
Proof.
  unfold run_forecasting.ingest_forecast_to_db. intros H.
  apply bind_inv in H as [(final & w1 & Hfinal & H) | (e & _ & [=])].
  unfold lift_result in Hfinal. inversion Hfinal as [[Hf Hw]]. subst w1.
  apply bind_inv in H as [([] & w2 & Hprint & H) | (e & _ & [=])].
  rewrite print_eq in Hprint. inversion Hprint; subst w2. clear Hprint.
  apply bind_inv in H as [([] & w3 & Hsql & H) | (e & _ & [=])].
  rewrite print_eq in H. inversion H; subst w'. clear H.
  apply to_sql_replace_ok in Hsql.
  exists final. split; [done |]. exact Hsql.
Qed.

(** C6.  Publishing replaces.  After two publications in a row, the
    second of which succeeded, the forecast table is the table of the
    second forecast alone: its rows are the second forecast's rows cut
    down to the four published columns, as many as the second forecast
    has, whatever the first publication wrote. *)
Theorem second_publish_replaces_first (first second : DataFrame)
    (host port name user pass : string) (w w1 w2 : world) (r1 : result unit) :
  run_forecasting.ingest_forecast_to_db first host port name user pass w = (r1, w1) ->
  run_forecasting.ingest_forecast_to_db second host port name user pass w1 = (Ok tt, w2) ->
  exists final,
    run_forecasting.final_forecast_df second = Ok final /\
    db w2 !! forecast_table = Some (table_of_frame final) /\
    t_rows (table_of_frame final) = df_rows final /\
    length (df_rows final) = length (df_rows second).
Proof.
  intros _ Hsecond.
  apply publish_ok in Hsecond as (final & Hfinal & Hdb).
  exists final. split; [exact Hfinal |]. split; [| split].
  - rewrite Hdb. apply lookup_insert_eq.
  - reflexivity.
  - by apply final_forecast_df_rows.
Qed.

Lemma second_publish_replaces_first_witness :
  let w1 := snd (Sample.publish Sample.forecast Sample.fresh) in
  let w2 := snd (Sample.publish Sample.later_forecast w1) in
  Sample.publish Sample.forecast Sample.fresh = (Ok tt, w1) /\
  Sample.publish Sample.later_forecast w1 = (Ok tt, w2) /\
  exists final,
    run_forecasting.final_forecast_df Sample.later_forecast = Ok final /\
    db w2 !! forecast_table = Some (table_of_frame final) /\
    length (df_rows final) = 2%nat.
Proof.
  intros w1 w2.
  assert (H1 : Sample.publish Sample.forecast Sample.fresh = (Ok tt, w1)).
  { unfold w1. rewrite (surjective_pairing (Sample.publish _ _)) at 1.
    f_equal; vm_compute; reflexivity. }
  assert (H2 : Sample.publish Sample.later_forecast w1 = (Ok tt, w2)).
  { unfold w2. rewrite (surjective_pairing (Sample.publish _ _)) at 1.
    f_equal; vm_compute; reflexivity. }
  split; [exact H1 |]. split; [exact H2 |].
  destruct (second_publish_replaces_first _ _ _ _ _ _ _ _ _ _ _ H1 H2)
    as (final & Hfinal & Htable & _ & Hlen).
  exists final. split; [exact Hfinal |]. split; [exact Htable |].
  rewrite Hlen. reflexivity.
Defined.

(** ** The forecast engine: history and horizon *)

Lemma ts_compare_refl (a : timestamp) : ts_compare a a = Eq.
Proof. unfold ts_compare. by rewrite Z.compare_refl, !N.compare_refl. Qed.

Lemma ts_leb_refl (a : timestamp) : ts_leb a a = true.
Proof. unfold ts_leb. by rewrite ts_compare_refl. Qed.

Lemma ts_leb_total (a b : timestamp) : ts_leb a b = true \/ ts_leb b a = true.
Proof.
  unfold ts_leb, ts_compare.
  destruct (Z.compare_spec (ts_months a) (ts_months b)),
           (Z.compare_spec (ts_months b) (ts_months a));
    destruct (N.compare_spec (ts_day0 a) (ts_day0 b)),
             (N.compare_spec (ts_day0 b) (ts_day0 a));
    destruct (N.compare_spec (ts_secs a) (ts_secs b)),
             (N.compare_spec (ts_secs b) (ts_secs a)); auto; lia.
Qed.

Lemma ts_leb_trans (a b c : timestamp) :
  ts_leb a b = true -> ts_leb b c = true -> ts_leb a c = true.
Proof.
  unfold ts_leb, ts_compare.
  destruct (Z.compare_spec (ts_months a) (ts_months b)),
           (Z.compare_spec (ts_months b) (ts_months c)),
           (Z.compare_spec (ts_months a) (ts_months c));
    destruct (N.compare_spec (ts_day0 a) (ts_day0 b)),
             (N.compare_spec (ts_day0 b) (ts_day0 c)),
             (N.compare_spec (ts_day0 a) (ts_day0 c));
    destruct (N.compare_spec (ts_secs a) (ts_secs b)),
             (N.compare_spec (ts_secs b) (ts_secs c)),
             (N.compare_spec (ts_secs a) (ts_secs c)); auto; lia.
Qed.

Lemma ts_ltb_month_start (last : timestamp) (k : Z) :
  0 < k -> ts_ltb last (month_start last k) = true.
Proof.
  intros Hk. unfold ts_ltb, ts_compare, month_start. simpl.
  destruct (Z.compare_spec (ts_months last) (ts_months last + k)); auto; lia.
Qed.

Lemma ts_ltb_month_start_0 (last : timestamp) :
  ts_day0 last = 0%N -> ts_ltb last (month_start last 0) = false.
Proof.
  intros Hd. unfold ts_ltb, ts_compare, month_start. simpl.
  rewrite Z.add_0_r, Z.compare_refl, Hd. simpl. by rewrite N.compare_refl.
Qed.

Lemma filter_all_true {A : Type} (f : A -> bool) (l : list A) :
  Forall (fun x => f x = true) l -> List.filter f l = l.
Proof.
  induction 1 as [| x l Hx _ IH]; simpl; [done |]. by rewrite Hx, IH.
Qed.

Lemma filter_head_false {A : Type} (f : A -> bool) (x : A) (l : list A) :
  f x = false -> List.filter f (x :: l) = List.filter f l.
Proof. intros H. simpl. by rewrite H. Qed.

Lemma horizon_after (last : timestamp) :
  Forall (fun t => ts_ltb last t = true) (horizon last).
Proof.
  unfold horizon. apply Forall_fmap, Forall_seq. intros j Hj. simpl.
  apply ts_ltb_month_start. lia.
Qed.

Lemma horizon_lookup (last : timestamp) (k : nat) :
  (k < 24)%nat ->
  horizon last !! k = Some (Timestamp (ts_months last + Z.of_nat (S k)) 0 (ts_secs last)).
Proof.
  intros Hk. unfold horizon. rewrite list_lookup_fmap, lookup_seq_lt by done. reflexivity.
Qed.

(** The dates [make_future_dataframe] appends: whether or not the last
    date is a first of the month, they are the 24 month starts after it. *)
Lemma future_dates (last : timestamp) :
  take 24 (List.filter (ts_ltb last) (date_range last (24 + 1) MS)) = horizon last.
Proof.
  unfold date_range. case_bool_decide as Hday.
  - change ((fun k => month_start last (0 + Z.of_nat k)) <$> seq 0 (24 + 1))
      with (month_start last 0 :: horizon last).
    rewrite (filter_head_false _ _ _ (ts_ltb_month_start_0 last Hday)).
    rewrite (filter_all_true _ _ (horizon_after last)).
    apply take_ge. reflexivity.
  - rewrite filter_all_true.
    + reflexivity.
    + apply Forall_fmap, Forall_seq. intros j Hj. simpl.
      apply ts_ltb_month_start. lia.
Qed.

Lemma foldl_ts_max (t : timestamp) (rest : list timestamp) :
  foldl ts_max t rest ∈ t :: rest /\
  (forall x, x ∈ t :: rest -> ts_leb x (foldl ts_max t rest) = true).
Proof.
  revert t. induction rest as [| y rest IH]; intros t; simpl.
  - split; [left |]. intros x Hx. apply list_elem_of_singleton in Hx as ->. apply ts_leb_refl.
  - destruct (IH (ts_max t y)) as [Hin Hmax]. split.
    + apply elem_of_cons in Hin as [Heq | Hin].
      * rewrite Heq. unfold ts_max. destruct (ts_leb t y); [right; left | left].
      * right. by right.
    + intros x Hx.
      assert (Hty : ts_leb t (ts_max t y) = true /\ ts_leb y (ts_max t y) = true).
      { unfold ts_max. destruct (ts_leb t y) eqn:E.
        - split; [exact E | apply ts_leb_refl].
        - split; [apply ts_leb_refl |]. by destruct (ts_leb_total t y) as [H | H]; [congruence |]. }
      destruct Hty as [Ht Hy].
      assert (Hm : ts_leb (ts_max t y) (foldl ts_max (ts_max t y) rest) = true)
        by (apply Hmax; left).
      apply elem_of_cons in Hx as [-> | Hx]; [by eapply ts_leb_trans |].
      apply elem_of_cons in Hx as [-> | Hx]; [by eapply ts_leb_trans |].
      apply Hmax. by right.
Qed.

Lemma series_max_spec (ts : list timestamp) :
  ts <> [] ->
  exists last, series_max ts = Some last /\ last ∈ ts /\
               (forall x, x ∈ ts -> ts_leb x last = true).
Proof.
  destruct ts as [| t rest]; [done |]. intros _.
  exists (foldl ts_max t rest). split; [reflexivity |]. apply foldl_ts_max.
Qed.

Lemma fit_ok (L : libs) (config : prophet_config) (df : DataFrame)
    (obs : list (timestamp * option Q)) (params : list Q) (w : world) :
  observations df = Ok obs ->
  (2 <= length (non_missing obs))%nat ->
  prophet_optimize L config (non_missing obs) = Some params ->
  fit L config df w =
    (Ok (Fitted config (merge_sort ts_le (remove_dups (observed_dates obs))) params),
     logged (Fit (length (df_rows df))) w).
Proof.
  intros Hobs Hlen Hopt. unfold fit.
  eapply bind_ok; [reflexivity |].
  eapply bind_ok; [unfold lift_result; by rewrite Hobs |].
  cbv zeta. destruct (Nat.ltb_spec (length (non_missing obs)) 2) as [Hlt | _]; [lia |].
  by rewrite Hopt.
Qed.

Lemma predict_ds (L : libs) (m : Prophet) (future : list timestamp) :
  df_column "ds" (predict L m future) = Ok (naive_times future) /\
  length (df_rows (predict L m future)) = length future.
Proof.
  unfold df_column, predict, naive_times. simpl. split.
  - f_equal. rewrite <- list_fmap_compose. reflexivity.
  - by rewrite length_fmap.
Qed.

Lemma non_missing_dates (obs : list (timestamp * option Q)) (t : timestamp) (y : Q) :
  (t, y) ∈ non_missing obs -> t ∈ observed_dates obs.
Proof.
  unfold non_missing, observed_dates. intros H.
  apply list_elem_of_omap in H as ([t' [y' |]] & Hin & Heq); simpl in Heq; [| done].
  inversion Heq; subst. apply list_elem_of_fmap. by exists (t, Some y).
Qed.

Global Instance ts_le_total : Total ts_le.
Proof. intros a b. apply ts_leb_total. Qed.

(** The forecast engine on a series it can fit.  For every series with
    well-formed dates and values, at least two of them not missing, on
    which the optimiser succeeds, [run_prophet_forecast] returns a table
    whose dates are the distinct dates of the series in ascending order
    followed by the 24 month starts after the last observed date: one row
    per date, the last one 24 months after the month of the last
    observation.  No other condition on the length of the history is
    checked. *)
Theorem forecast_covers_history_and_horizon (L : libs) (df : DataFrame)
    (obs : list (timestamp * option Q)) (params : list Q) (w : world) :
  observations df = Ok obs ->
  (2 <= length (non_missing obs))%nat ->
  prophet_optimize L run_forecasting.model_config (non_missing obs) = Some params ->
  exists history last forecast w',
    run_forecasting.run_prophet_forecast L df w = (Ok forecast, w') /\
    new_events w w' =
      [ Print Stdout "Training Prophet model and generating 24-month forecast...";
        Fit (length (df_rows df)) ] /\
    (forall t, t ∈ history <-> t ∈ observed_dates obs) /\
    NoDup history /\ Sorted ts_le history /\
    last ∈ observed_dates obs /\
    (forall t, t ∈ observed_dates obs -> ts_leb t last = true) /\
    df_column "ds" forecast = Ok (naive_times (history ++ horizon last)) /\
    length (df_rows forecast) = (length history + 24)%nat /\
    Forall (fun t => ts_ltb last t = true) (horizon last) /\
    (forall k, (k < 24)%nat ->
       horizon last !! k =
         Some (Timestamp (ts_months last + Z.of_nat (S k)) 0 (ts_secs last))).
Proof.
  intros Hobs Hlen Hopt.
  set (history := merge_sort ts_le (remove_dups (observed_dates obs))).
  assert (Hperm : history ≡ₚ remove_dups (observed_dates obs))
    by apply merge_sort_Permutation.
  assert (Hmem : forall t, t ∈ history <-> t ∈ observed_dates obs).
  { intros t. rewrite Hperm. apply elem_of_remove_dups. }
  assert (Hne : history <> []).
  { destruct (non_missing obs) as [| [t y] rest] eqn:E; [simpl in Hlen; lia |].
    assert (Ht : t ∈ history).
    { apply Hmem, (non_missing_dates obs t y). rewrite E. left. }
    intros Hnil. rewrite Hnil in Ht. by apply elem_of_nil in Ht. }
  destruct (series_max_spec history Hne) as (last & Hmax & Hlast & Hle).
  exists history, last,
    (predict L (Fitted run_forecasting.model_config history params) (history ++ horizon last)).
  eexists. split; [| split].
  - unfold run_forecasting.run_prophet_forecast.
    eapply bind_ok; [apply print_eq |].
    eapply bind_ok; [by apply (fit_ok L _ df obs params) |].
    eapply bind_ok.
    { unfold lift_result, make_future_dataframe. cbn [history_dates].
      fold history. rewrite Hmax. rewrite future_dates. reflexivity. }
    reflexivity.
  - apply new_events_app. simpl. by rewrite <- app_assoc.
  - split; [exact Hmem |].
    split; [rewrite Hperm; apply NoDup_remove_dups |].
    split; [apply Sorted_merge_sort, _ |].
    split; [by apply Hmem |].
    split; [intros t Ht; by apply Hle, Hmem |].
    destruct (predict_ds L (Fitted run_forecasting.model_config history params)
                (history ++ horizon last)) as [Hds Hrows].
    split; [exact Hds |].
    split; [rewrite Hrows, length_app; reflexivity |].
    split; [apply horizon_after | apply horizon_lookup].
Qed.

Lemma forecast_covers_history_and_horizon_witness :
  observations Sample.short_series = Ok Sample.short_observations /\
  (2 <= length (non_missing Sample.short_observations))%nat /\
  prophet_optimize Sample.library run_forecasting.model_config
    (non_missing Sample.short_observations) = Some [] /\
  exists history last forecast w',
    run_forecasting.run_prophet_forecast Sample.library Sample.short_series Sample.fresh
      = (Ok forecast, w') /\
    last ∈ observed_dates Sample.short_observations /\
    df_column "ds" forecast = Ok (naive_times (history ++ horizon last)) /\
    length (df_rows forecast) = (length history + 24)%nat.
Proof.
  assert (H1 : observations Sample.short_series = Ok Sample.short_observations)
    by reflexivity.
  assert (H2 : (2 <= length (non_missing Sample.short_observations))%nat)
    by (simpl; lia).
  assert (H3 : prophet_optimize Sample.library run_forecasting.model_config
                 (non_missing Sample.short_observations) = Some []) by reflexivity.
  split; [exact H1 |]. split; [exact H2 |]. split; [exact H3 |].
  destruct (forecast_covers_history_and_horizon Sample.library Sample.short_series
              Sample.short_observations [] Sample.fresh H1 H2 H3)
    as (history & last & forecast & w' & Hrun & _ & _ & _ & _ & Hlast & _ & Hds & Hrows & _).
  exists history, last, forecast, w'. auto.
Defined.

(** ** A missing setting *)

Lemma missing_setting_all (w : world) :
  missing_setting w <-> all (credentials_of w) = false.
Proof.
  unfold missing_setting, all, credentials_of, settings. split.
  - intros (name & Hin & Hval).
    assert (Hfalsy : truthy (environ w !! name) = false)
      by (destruct Hval as [-> | ->]; reflexivity).
    repeat (apply elem_of_cons in Hin as [-> | Hin];
            [simpl; rewrite Hfalsy; by rewrite ?andb_false_r |]).
    by apply elem_of_nil in Hin.
  - intros H. simpl in H.
    repeat (apply andb_false_iff in H as [H | H]);
      try discriminate H;
      match type of H with
      | truthy (environ w !! ?name) = false =>
          exists name; split; [set_solver |];
          destruct (environ w !! name) as [s |]; [right | by left];
          simpl in H; apply negb_false_iff, bool_decide_eq_true in H; by rewrite H
      end.
Qed.

(** With a setting unset or empty, none of the three scripts touches a
    file, the network or the database: each only prints.  [pipeline.py]
    and [run_forecasting.py] then exit with status 1; [database_setup.py]
    returns from [main] and so ends with status 0. *)
Theorem missing_setting_stops_before_io (L : libs) (w : world) :
  missing_setting w ->
  (exists w', run_script (database_setup.main L) w = (0, w') /\ only_logged w w' /\
     new_events w w' =
       [ Print Stdout "Error: Database environment variables are not set.";
         Print Stdout
           "Please ensure you have set DB_HOST, DB_PORT, DB_NAME, DB_USER, and DB_PASS." ]) /\
  (exists w', run_script (pipeline.main L) w = (1, w') /\ only_logged w w' /\
     new_events w w' =
       [ Print Stderr "Error: Database environment variables are not set.";
         Print Stderr
           "Please ensure DB_HOST, DB_PORT, DB_NAME, DB_USER, and DB_PASS are set." ]) /\
  (exists w', run_script (run_forecasting.main L) w = (1, w') /\ only_logged w w' /\
     new_events w w' = [ Print Stderr "Error: DB environment variables are not set." ]).
Proof.
  intros H. apply missing_setting_all in H. unfold run_script.
  rewrite (database_setup_missing_env L w H), (pipeline_missing_env L w H),
          (run_forecasting_missing_env L w H).
  repeat split; eexists; (split; [reflexivity |]); (split; [by repeat split |]);
    by apply new_events_app.
Qed.

Lemma missing_setting_stops_before_io_witness :
  missing_setting Sample.no_port /\
  exists w', run_script (run_forecasting.main Sample.library) Sample.no_port = (1, w') /\
             only_logged Sample.no_port w'.
Proof.
  assert (H : missing_setting Sample.no_port).
  { exists "DB_PORT". split; [unfold settings; set_solver | left; reflexivity]. }
  split; [exact H |].
  destruct (missing_setting_stops_before_io Sample.library Sample.no_port H)
    as (_ & _ & w' & Hrun & Hsame & _).
  exists w'. auto.
Defined.

(** ** Which exceptions a program lets out *)

Section raises_rules.

Context (P : exn -> Prop).

Lemma raises_ret {A : Type} (a : A) : raises_only P (mret a).
Proof. intros w e w' [=]. Qed.

Lemma raises_raise {A : Type} (e : exn) : P e -> raises_only P (@raise A e).
Proof. intros H w e' w' [= <- _]. exact H. Qed.

Lemma raises_lift_result {A : Type} (r : result A) :
  result_raises_only P r -> raises_only P (lift_result r).
Proof. intros H w e w' [= -> _]. by apply H. Qed.

Lemma raises_modify (f : world -> world) : raises_only P (modify f).
Proof. intros w e w' [=]. Qed.

Lemma raises_get_world : raises_only P get_world.
Proof. intros w e w' [=]. Qed.

Lemma raises_bind {A B : Type} (m : py A) (f : A -> py B) :
  raises_only P m -> (forall a, raises_only P (f a)) -> raises_only P (m ≫= f).
Proof.
  intros Hm Hf w e w' H.
  apply bind_inv in H as [(a & w1 & _ & H) | (e' & H & [= ->])].
  - by eapply Hf.
  - by eapply Hm.
Qed.

Lemma raises_try_except {A : Type} (Q : exn -> Prop) (body : py A)
    (handlers : exn -> option (py A)) :
  raises_only Q body ->
  (forall e h, Q e -> handlers e = Some h -> raises_only P h) ->
  (forall e, Q e -> handlers e = None -> P e) ->
  raises_only P (try_except body handlers).
Proof.
  intros Hb Hh Hn w e w'. unfold try_except.
  destruct (body w) as [[a | e0] w1] eqn:E; [intros [=] |].
  pose proof (Hb _ _ _ E) as HQ.
  destruct (handlers e0) as [h |] eqn:Eh.
  - intros H. by eapply (Hh e0 h).
  - intros [= <- _]. by apply Hn.
Qed.

Lemma raises_try_finally {A : Type} (body : py A) (cleanup : py unit) :
  raises_only P body -> raises_only P cleanup -> raises_only P (try_finally body cleanup).
Proof.
  intros Hb Hc w e w'. unfold try_finally.
  destruct (body w) as [r w1] eqn:E.
  destruct (cleanup w1) as [[[] | e1] w2] eqn:Ec.
  - intros [= -> _]. by eapply Hb.
  - intros [= <- _]. by eapply Hc.
Qed.

Lemma raises_for_each {A : Type} (xs : list A) (body : A -> py unit) :
  (forall x, raises_only P (body x)) -> raises_only P (for_each xs body).
Proof.
  intros Hb. induction xs as [| x xs IH]; simpl.
  - apply raises_ret.
  - apply raises_bind; [apply Hb | intros _; exact IH].
Qed.

End raises_rules.

Ltac raises_step :=
  lazymatch goal with
  | |- raises_only _ (mbind _ _) => apply raises_bind; [| intros ?]
  | |- raises_only _ (mret _) => apply raises_ret
  | |- raises_only _ (raise _) => apply raises_raise
  | |- raises_only _ (sys_exit _) => apply raises_raise
  | |- raises_only _ (modify _) => apply raises_modify
  | |- raises_only _ (emit _) => apply raises_modify
  | |- raises_only _ (print _) => apply raises_modify
  | |- raises_only _ (print_stderr _) => apply raises_modify
  | |- raises_only _ (set_session _ _) => apply raises_modify
  | |- raises_only _ get_world => apply raises_get_world
  | |- raises_only _ getcwd => intros ? ? ? [=]
  | |- raises_only _ expanduser_home => intros ? ? ? [=]
  | |- raises_only _ (try_finally _ _) => apply raises_try_finally
  | |- raises_only _ (for_each _ _) => apply raises_for_each; intros ?
  | |- raises_only _ (if ?x then _ else _) => destruct x
  | |- raises_only _ (match ?x with _ => _ end) => destruct x eqn:?
  end.

Create HintDb raises discriminated.

#[global] Hint Extern 1 (is_exception _) => reflexivity : raises.

Ltac raises_auto := repeat first [ solve [auto 2 with raises nocore] | raises_step ].

Lemma exc_open_session (h : nat) : raises_only is_exception (open_session h).
Proof. unfold open_session. raises_auto. Qed.

#[global] Hint Resolve exc_open_session : raises.

Lemma exc_cursor (h : nat) : raises_only is_exception (cursor h).
Proof. unfold cursor. raises_auto. Qed.

Lemma exc_commit (h : nat) : raises_only is_exception (commit h).
Proof. unfold commit. raises_auto. Qed.

Lemma exc_rollback (h : nat) : raises_only is_exception (rollback h).
Proof. unfold rollback. raises_auto. Qed.

Lemma exc_close (h : nat) : raises_only (fun _ => False) (close h).
Proof. unfold close. repeat raises_step. Qed.

Lemma exc_build_row (L : libs) (schema : list column) (given : list (string * pyval)) :
  result_raises_only is_exception (build_row L schema given).
Proof.
  induction schema as [| c schema IH]; simpl; [intros e [=] |].
  destruct (bind_param _ _ _); [| by intros e [= <-]].
  destruct (build_row L schema given) as [row | e0]; [intros e [=] |].
  intros e [= <-]. by apply (IH e0).
Qed.

Lemma exc_exec_sql (L : libs) (stmt : statement) (d : database) :
  result_raises_only is_exception (exec_sql L stmt d).
Proof.
  destruct stmt as [name cols | name cols params | cols name order_by]; simpl.
  - destruct (d !! name); intros e [=].
  - unfold insert_into. destruct (d !! name); [| by intros e [= <-]].
    destruct (List.find _ _); [by intros e [= <-] |].
    pose proof (exc_build_row L (t_schema t) (zip cols params)) as Hrow.
    destruct (build_row _ _ _) as [row | e0]; [| intros e [= <-]; by apply (Hrow e0)].
    destruct (existsb _ _); [by intros e [= <-] |].
    destruct (_ && _); [by intros e [= <-] | intros e [=]].
  - unfold select_order_by. destruct (d !! name); [| by intros e [= <-]].
    destruct (List.find _ _); [by intros e [= <-] | intros e [=]].
Qed.

Lemma exc_execute (L : libs) (h : nat) (stmt : statement) :
  raises_only is_exception (execute L h stmt).
Proof.
  unfold execute. raises_auto; eapply exc_exec_sql; eassumption.
Qed.

#[global] Hint Resolve exc_cursor exc_commit exc_rollback exc_execute : raises.

Lemma exc_read_file (p : path) : raises_only is_exception (read_file p).
Proof. unfold read_file. raises_auto. Qed.

#[global] Hint Resolve exc_read_file : raises.

Lemma exc_json_load (L : libs) (p : path) : raises_only is_exception (json_load L p).
Proof. unfold json_load. raises_auto. Qed.

Lemma exc_py_get (record : pyval) (key : string) :
  result_raises_only is_exception (py_get record key).
Proof. destruct record; simpl; intros e [=]; by subst. Qed.

Lemma exc_py_iter (v : pyval) : result_raises_only is_exception (py_iter v).
Proof. destruct v; simpl; intros e [=]; by subst. Qed.

Lemma exc_py_len (v : pyval) : result_raises_only is_exception (py_len v).
Proof. destruct v; simpl; intros e [=]; by subst. Qed.

#[global] Hint Resolve exc_json_load : raises.
#[global] Hint Extern 1 (raises_only _ (lift_result (py_get _ _))) =>
  apply raises_lift_result, exc_py_get : raises.
#[global] Hint Extern 1 (raises_only _ (lift_result (py_iter _))) =>
  apply raises_lift_result, exc_py_iter : raises.
#[global] Hint Extern 1 (raises_only _ (lift_result (py_len _))) =>
  apply raises_lift_result, exc_py_len : raises.

Lemma exc_insert_record (L : libs) (conn : nat) (record : pyval) :
  raises_only is_exception (database_setup.insert_record L conn record).
Proof. unfold database_setup.insert_record. raises_auto. Qed.

#[global] Hint Resolve exc_insert_record : raises.

Lemma exc_ingest_data (L : libs) (conn : nat) (p : path) :
  raises_only is_exception (database_setup.ingest_data L conn p).
Proof.
  unfold database_setup.ingest_data.
  apply (raises_try_except is_exception is_exception).
  - unfold database_setup.ingest_try. raises_auto.
  - intros e h He. unfold database_setup.ingest_except.
    destruct (_ || _); intros [= <-]. raises_auto.
  - intros e He _. exact He.
Qed.

Lemma exc_create_table (L : libs) (conn : nat) :
  raises_only is_exception (database_setup.create_table L conn).
Proof. unfold database_setup.create_table. raises_auto. Qed.

#[global] Hint Resolve exc_ingest_data exc_create_table : raises.

Lemma exc_connect (host port name user pass : string) :
  raises_only is_exception (connect host port name user pass).
Proof. unfold connect. raises_auto. Qed.

Lemma raises_try_acquire {A R : Type} (P Q : exn -> Prop) (acquire : py R)
    (body : R -> py A) (handlers : exn -> option (py A)) (cleanup : option R -> py unit) :
  raises_only Q acquire -> (forall r, raises_only Q (body r)) ->
  (forall e h, Q e -> handlers e = Some h -> raises_only P h) ->
  (forall e, Q e -> handlers e = None -> P e) ->
  (forall c, raises_only P (cleanup c)) ->
  raises_only P (try_acquire acquire body handlers cleanup).
Proof.
  intros Ha Hb Hh Hn Hc w e w'. unfold try_acquire.
  destruct (acquire w) as [[r | e0] w1] eqn:E.
  - apply raises_try_finally; [| apply Hc].
    by apply (raises_try_except P Q).
  - apply raises_try_finally; [| apply Hc].
    apply (raises_try_except P Q); [| done | done].
    apply raises_raise. by eapply Ha.
Qed.

(** [database_setup.py] never fails.  Whatever the environment, the file
    system and the database do, [main] returns normally: every error of
    the connection, of the table creation and of the ingestion is caught
    and printed, so the process always ends with exit status 0. *)
Theorem database_setup_always_exits_zero (L : libs) (w : world) :
  fst (database_setup.main L w) = Ok tt /\
  fst (run_script (database_setup.main L) w) = 0.
Proof.
  assert (Hnever : raises_only (fun _ => False) (database_setup.main L)).
  { unfold database_setup.main.
    do 5 (apply raises_bind; [intros ? ? ? [=] | intros ?]).
    destruct (negb _); [repeat raises_step |].
    apply (raises_try_acquire _ is_exception).
    - apply exc_connect.
    - intros conn. raises_auto.
    - intros e h _. unfold database_setup.main_except.
      repeat (destruct (isinstance e _)); intros [= <-]; repeat raises_step.
    - intros e He. unfold database_setup.main_except.
      unfold is_exception in He. rewrite He.
      repeat (destruct (isinstance e _)); intros [=].
    - intros [c |]; simpl; [| apply raises_ret].
      apply raises_bind; [apply exc_close | intros _; repeat raises_step]. }
  unfold run_script.
  destruct (database_setup.main L w) as [[[] | e] w'] eqn:E; [done |].
  destruct (Hnever _ _ _ E).
Qed.

(** ** The forecasting script: what it lets out and what it commits *)

Lemma exc_select_order_by (cols : list string) (name order_by : string) (d : database) :
  result_raises_only is_exception (select_order_by cols name order_by d).
Proof.
  unfold select_order_by. destruct (d !! name); [| by intros e [= <-]].
  destruct (List.find _ _); [by intros e [= <-] | intros e [=]].
Qed.

Lemma exc_read_sql (L : libs) (cols : list string) (name order_by : string) (conn : nat) :
  raises_only is_exception (read_sql L cols name order_by conn).
Proof.
  unfold read_sql. raises_auto.
  - apply (raises_try_except is_exception is_exception).
    + raises_auto.
    + intros e h _. destruct (isinstance e _); intros [= <-].
      raises_auto.
      apply (raises_try_except is_exception is_exception).
      * raises_auto.
      * intros e' h' _. destruct (isinstance e' _); intros [= <-]. raises_auto.
      * intros e' He' _. exact He'.
    + intros e He _. exact He.
  - apply raises_lift_result, exc_select_order_by.
Qed.

Lemma exc_df_column (label : string) (df : DataFrame) :
  result_raises_only is_exception (df_column label df).
Proof. unfold df_column. destruct (position _ _); intros e [=]; by subst. Qed.

Lemma exc_series_to_datetime (L : libs) (values : list cell) :
  result_raises_only is_exception (series_to_datetime L values).
Proof.
  induction values as [| v values IH]; simpl; [intros e [=] |].
  destruct (to_datetime L v); [| by intros e [= <-]].
  destruct (series_to_datetime L values) as [ts | e0]; [intros e [=] |].
  intros e [= <-]. by apply (IH e0).
Qed.

Lemma exc_series_tz_localize_none (values : list cell) :
  result_raises_only is_exception (series_tz_localize_none values).
Proof.
  induction values as [| v values IH]; simpl; [intros e [=] |].
  destruct v; try (by intros e [= <-]);
    (destruct (series_tz_localize_none values) as [ts | e0]; [intros e [=] |];
     intros e [= <-]; by apply (IH e0)).
Qed.

#[global] Hint Resolve exc_read_sql : raises.
#[global] Hint Extern 1 (raises_only _ (lift_result (df_column _ _))) =>
  apply raises_lift_result, exc_df_column : raises.
#[global] Hint Extern 1 (raises_only _ (lift_result (series_to_datetime _ _))) =>
  apply raises_lift_result, exc_series_to_datetime : raises.
#[global] Hint Extern 1 (raises_only _ (lift_result (series_tz_localize_none _))) =>
  apply raises_lift_result, exc_series_tz_localize_none : raises.

Lemma exc_fetch_and_prepare_data (L : libs) (conn : nat) :
  raises_only is_exception (run_forecasting.fetch_and_prepare_data L conn).
Proof. unfold run_forecasting.fetch_and_prepare_data. raises_auto. Qed.

Lemma exc_observations (df : DataFrame) :
  result_raises_only is_exception (observations df).
Proof.
  unfold observations.
  destruct (position "ds" (df_columns df)), (position "y" (df_columns df));
    try (by intros e [= <-]).
  destruct (mapM _ _); intros e [=]; by subst.
Qed.

Lemma exc_fit (L : libs) (config : prophet_config) (df : DataFrame) :
  raises_only is_exception (fit L config df).
Proof.
  unfold fit. raises_auto. apply raises_lift_result, exc_observations.
Qed.

Lemma exc_make_future_dataframe (m : Prophet) (periods : nat) (freq : frequency) :
  result_raises_only is_exception (make_future_dataframe m periods freq).
Proof. unfold make_future_dataframe. destruct (series_max _); intros e [=]; by subst. Qed.

#[global] Hint Resolve exc_fetch_and_prepare_data exc_fit : raises.

Lemma exc_run_prophet_forecast (L : libs) (df : DataFrame) :
  raises_only is_exception (run_forecasting.run_prophet_forecast L df).
Proof.
  unfold run_forecasting.run_prophet_forecast. raises_auto.
  apply raises_lift_result, exc_make_future_dataframe.
Qed.

Lemma exc_final_forecast_df (forecast : DataFrame) :
  result_raises_only is_exception (run_forecasting.final_forecast_df forecast).
Proof.
  unfold run_forecasting.final_forecast_df, df_select.
  destruct (List.find _ _); intros e [=]; by subst.
Qed.

Lemma exc_to_sql (df : DataFrame) (name : string) (e : engine) (mode : if_exists_mode) :
  raises_only is_exception (to_sql df name e mode).
Proof. unfold to_sql. raises_auto. Qed.

#[global] Hint Resolve exc_run_prophet_forecast exc_to_sql : raises.

Lemma exc_ingest_forecast_to_db (forecast : DataFrame) (host port name user pass : string) :
  raises_only is_exception
    (run_forecasting.ingest_forecast_to_db forecast host port name user pass).
Proof.
  unfold run_forecasting.ingest_forecast_to_db. raises_auto.
  apply raises_lift_result, exc_final_forecast_df.
Qed.

Global Instance same_database_preorder : PreOrder same_database.
Proof.
  split.
  - intros w. reflexivity.
  - intros a b c Hab Hbc. unfold same_database in *. congruence.
Qed.

Lemma db_emit (e : event) : keeps same_database (emit e).
Proof. intros w. reflexivity. Qed.

Lemma db_set_session (h : nat) (s : session) : keeps same_database (set_session h s).
Proof. intros w. reflexivity. Qed.

Lemma db_set_sessions (f : world -> list session) :
  keeps same_database (modify (fun w => set_sessions w (f w))).
Proof. intros w. reflexivity. Qed.

Lemma db_print (s : string) : keeps same_database (print s).
Proof. intros w. reflexivity. Qed.

Lemma db_print_stderr (s : string) : keeps same_database (print_stderr s).
Proof. intros w. reflexivity. Qed.

#[global] Hint Resolve db_emit db_set_session db_set_sessions db_print db_print_stderr : keeps.

Lemma db_open_session (h : nat) : keeps same_database (open_session h).
Proof. unfold open_session. keeps_auto. Qed.

#[global] Hint Resolve db_open_session : keeps.

Lemma db_cursor (h : nat) : keeps same_database (cursor h).
Proof. unfold cursor. keeps_auto. Qed.

Lemma db_execute (L : libs) (h : nat) (stmt : statement) :
  keeps same_database (execute L h stmt).
Proof. unfold execute. keeps_auto. Qed.

Lemma db_rollback (h : nat) : keeps same_database (rollback h).
Proof. unfold rollback. keeps_auto. Qed.

Lemma db_close (h : nat) : keeps same_database (close h).
Proof. unfold close. keeps_auto. Qed.

Lemma db_connect (host port name user pass : string) :
  keeps same_database (connect host port name user pass).
Proof. unfold connect. keeps_auto. Qed.

#[global] Hint Resolve db_cursor db_execute db_rollback db_close db_connect : keeps.

Lemma db_read_sql (L : libs) (cols : list string) (name order_by : string) (c : nat) :
  keeps same_database (read_sql L cols name order_by c).
Proof.
  unfold read_sql. keeps_auto.
  apply keeps_try_except; [apply _ | keeps_auto |].
  intros e h. destruct (isinstance e _); intros [= <-].
  keeps_auto. apply keeps_try_except; [apply _ | keeps_auto |].
  intros e' h'. destruct (isinstance e' _); intros [= <-]. keeps_auto.
Qed.

#[global] Hint Resolve db_read_sql : keeps.

Lemma db_fetch_and_prepare_data (L : libs) (c : nat) :
  keeps same_database (run_forecasting.fetch_and_prepare_data L c).
Proof. unfold run_forecasting.fetch_and_prepare_data. keeps_auto. Qed.

Lemma db_fit (L : libs) (config : prophet_config) (df : DataFrame) :
  keeps same_database (fit L config df).
Proof. unfold fit. keeps_auto. Qed.

#[global] Hint Resolve db_fetch_and_prepare_data db_fit : keeps.

Lemma db_run_prophet_forecast (L : libs) (df : DataFrame) :
  keeps same_database (run_forecasting.run_prophet_forecast L df).
Proof. unfold run_forecasting.run_prophet_forecast. keeps_auto. Qed.

(** A publication that fails commits nothing. *)
Lemma publish_raise (forecast : DataFrame) (host port name user pass : string)
    (w w' : world) (e : exn) :
  run_forecasting.ingest_forecast_to_db forecast host port name user pass w = (Raise e, w') ->
  db w' = db w.
Proof.
  unfold run_forecasting.ingest_forecast_to_db. intros H.
  apply bind_inv in H as [(final & w1 & Hfinal & H) | (e' & Hfinal & _)].
  2: { unfold lift_result in Hfinal. by inversion Hfinal. }
  unfold lift_result in Hfinal. inversion Hfinal; subst w1. clear Hfinal.
  apply bind_inv in H as [([] & w2 & Hprint & H) | (e' & Hprint & _)];
    [| by inversion Hprint].
  rewrite print_eq in Hprint. inversion Hprint; subst w2. clear Hprint.
  apply bind_inv in H as [([] & w3 & _ & H) | (e' & Hsql & _)]; [by inversion H |].
  revert Hsql. unfold to_sql, emit, modify, get_world, raise, mbind, py_bind. simpl.
  destruct (negb _); [by intros [= _ <-] |].
  destruct (db w !! _) as [t |]; by intros [=].
Qed.

Lemma forecasting_stages_outcome (L : libs) (host port name user pass : string)
    (conn : nat) (w w' : world) (r : result unit) :
  forecasting_stages L host port name user pass conn w = (r, w') ->
  (r = Ok tt /\
   exists series forecast final w1 w2,
     run_forecasting.fetch_and_prepare_data L conn w = (Ok series, w1) /\
     run_forecasting.run_prophet_forecast L series w1 = (Ok forecast, w2) /\
     run_forecasting.final_forecast_df forecast = Ok final /\
     db w' = published final (db w)) \/
  (exists e, r = Raise e /\ is_exception e /\ db w' = db w).
Proof.
  unfold forecasting_stages. intros H.
  apply bind_inv in H as [(series & w1 & Hfetch & H) | (e & Hfetch & ->)].
  2: { right. exists e. split; [done |]. split.
       - by eapply exc_fetch_and_prepare_data.
       - eapply (keeps_run same_database); [apply db_fetch_and_prepare_data | exact Hfetch]. }
  assert (Hdb1 : db w1 = db w)
    by (eapply (keeps_run same_database); [apply db_fetch_and_prepare_data | exact Hfetch]).
  apply bind_inv in H as [(forecast & w2 & Hrun & H) | (e & Hrun & ->)].
  2: { right. exists e. split; [done |]. split.
       - by eapply exc_run_prophet_forecast.
       - rewrite <- Hdb1.
         eapply (keeps_run same_database); [apply db_run_prophet_forecast | exact Hrun]. }
  assert (Hdb2 : db w2 = db w1)
    by (eapply (keeps_run same_database); [apply db_run_prophet_forecast | exact Hrun]).
  destruct r as [[] | e].
  - left. split; [done |].
    apply publish_ok in H as (final & Hfinal & Hdb).
    exists series, forecast, final, w1, w2. repeat split; try assumption.
    unfold published. by rewrite Hdb, Hdb2, Hdb1.
  - right. exists e. split; [done |]. split.
    + by eapply exc_ingest_forecast_to_db.
    + apply publish_raise in H. by rewrite H, Hdb2, Hdb1.
Qed.

Lemma forecasting_except_catches (e : exn) :
  is_exception e ->
  run_forecasting.main_except e =
    Some (print_stderr ("An error occurred during forecasting pipeline: " +:+ str_of_exn e) ;;
          sys_exit 1).
Proof. intros H. unfold run_forecasting.main_except. unfold is_exception in H. by rewrite H. Qed.


(** ** The connection profile *)

(** [create_dbt_profiles] can be run again and again.  With the five
    keys in the dictionary it never raises; afterwards
    [~/.dbt/profiles.yml] holds the profile for these settings and every
    other file is as before; a second run leaves files and directories as
    the first run left them.  With [DB_HOST] missing from the dictionary
    it raises [KeyError] after creating the directory and before writing
    anything. *)
Theorem create_dbt_profiles_idempotent (host port name user pass : string) (w : world) :
  (exists w1 w2,
     pipeline.create_dbt_profiles (env_vars_of host port name user pass) w = (Ok tt, w1) /\
     pipeline.create_dbt_profiles (env_vars_of host port name user pass) w1 = (Ok tt, w2) /\
     files w1 !! profiles_yml w = Some (pipeline.profiles_content host port user pass name) /\
     (forall p, p <> profiles_yml w -> files w1 !! p = files w !! p) /\
     home w ++ [".dbt"] ∈ dirs w1 /\
     files w2 = files w1 /\ dirs w2 = dirs w1) /\
  (forall env, env !! "DB_HOST" = None ->
     exists w',
       pipeline.create_dbt_profiles env w = (Raise (Error C_KeyError "'DB_HOST'"), w') /\
       files w' = files w /\
       new_events w w' = [Makedirs (home w ++ [".dbt"])]).
Proof.
  assert (Hrun : forall w0,
    pipeline.create_dbt_profiles (env_vars_of host port name user pass) w0 =
      (Ok tt,
       logged (Print Stdout "profiles.yml created successfully.")
         (set_files (logged (OpenWrite (profiles_yml w0))
                       (set_dirs (logged (Makedirs (home w0 ++ [".dbt"])) w0)
                          (dirs w0 ∪ list_to_set (prefixes (home w0 ++ [".dbt"])))))
            (<[profiles_yml w0 := pipeline.profiles_content host port user pass name]>
               (files w0))))).
  { intros w0. unfold pipeline.create_dbt_profiles, env_vars_of.
    eapply bind_ok; [reflexivity |]. cbv zeta.
    eapply bind_ok; [apply makedirs_eq |].
    do 5 (eapply bind_ok; [apply dict_item_found; by simplify_map_eq |]).
    eapply bind_ok.
    { apply write_file_eq. unfold path_join. rewrite parent_snoc.
      apply dir_exists_intro. simpl. apply made_in_dirs. by destruct (home w0). }
    apply print_eq. }
  split.
  - eexists. eexists. split; [apply Hrun |]. split; [apply Hrun |]. simpl.
    split; [apply lookup_insert_eq |].
    split; [intros p Hp; by apply lookup_insert_ne |].
    split; [apply made_in_dirs; by destruct (home w) |].
    split.
    + unfold profiles_yml. simpl. apply insert_insert_eq.
    + by rewrite <- (assoc_L (∪)), (idemp_L (∪)).
  - intros env Hmissing. eexists. split; [| split].
    + unfold pipeline.create_dbt_profiles.
      eapply bind_ok; [reflexivity |]. cbv zeta.
      eapply bind_ok; [apply makedirs_eq |].
      eapply bind_raise. unfold dict_item. rewrite Hmissing. reflexivity.
    + reflexivity.
    + by apply new_events_app.
Qed.

(** ** Strings: [in] and [replace] *)

Lemma prefix_nil_r (n : string) : String.prefix n "" = true -> n = "".
Proof. by destruct n. Qed.

Lemma prefix_app (n a b : string) :
  String.prefix n a = true -> String.prefix n (a +:+ b) = true.
Proof.
  revert a. induction n as [| c n IH]; intros a; [by destruct (a +:+ b) |].
  destruct a as [| c' a]; simpl; [done |].
  destruct (Ascii.ascii_dec c c'); [apply IH | done].
Qed.

Lemma str_contains_cons (n : string) (c : ascii) (s : string) :
  str_contains n (String c s) = String.prefix n (String c s) || str_contains n s.
Proof. reflexivity. Qed.

Lemma str_contains_nil (n : string) : str_contains n "" = String.prefix n "" || false.
Proof. reflexivity. Qed.

Lemma str_contains_prefix (n s : string) :
  String.prefix n s = true -> str_contains n s = true.
Proof.
  intros H. destruct s; [rewrite str_contains_nil | rewrite str_contains_cons];
    by rewrite H.
Qed.

Lemma str_contains_app_l (n a b : string) :
  str_contains n a = true -> str_contains n (a +:+ b) = true.
Proof.
  induction a as [| c a IH].
  - rewrite str_contains_nil, orb_false_r. intros H. apply prefix_nil_r in H as ->.
    apply str_contains_prefix. by destruct b.
  - rewrite str_contains_cons. intros H.
    change (String c a +:+ b) with (String c (a +:+ b)). rewrite str_contains_cons.
    apply orb_true_iff in H as [H | H]; apply orb_true_iff.
    + left. by apply (prefix_app n (String c a) b).
    + right. by apply IH.
Qed.

Lemma replace_absent (old new s : string) :
  str_contains old s = false -> replace_from old new O s = s.
Proof.
  induction s as [| c s IH]; [done |].
  rewrite str_contains_cons. intros H. apply orb_false_iff in H as [Hp Hc].
  cbn [replace_from]. rewrite Hp. by rewrite IH.
Qed.

Lemma replace_contains (needle old new s : string) :
  old <> "" -> str_contains needle new = true ->
  str_contains old s = true ->
  str_contains needle (replace_from old new O s) = true.
Proof.
  intros Hold Hnew. induction s as [| c s IH].
  - rewrite str_contains_nil, orb_false_r. intros H. by apply prefix_nil_r in H.
  - rewrite str_contains_cons. intros H. cbn [replace_from].
    destruct (String.prefix old (String c s)) eqn:Hp.
    + by apply str_contains_app_l.
    + simpl in H. rewrite str_contains_cons. rewrite (IH H). apply orb_true_r.
Qed.


(** ** [run_dbt_pipeline] with a project file *)

Lemma prefixes_app (p q : path) : p <> [] -> p ∈ prefixes (p ++ q).
Proof.
  induction p as [| d p IH]; [done |]. intros _. simpl.
  destruct p as [| d' p'].
  - destruct q; simpl; left.
  - right. apply list_elem_of_fmap. exists (d' :: p'). split; [done |]. by apply IH.
Qed.

Lemma subprocess_then_print (L : libs) (argv : list string) (msg : string) (w : world) :
  (subprocess_run_dbt L argv ;; print msg) w =
    match dbt_run L (files w) (db w) with
    | DbtNotInstalled =>
        (Raise (Error C_FileNotFoundError "[Errno 2] No such file or directory: 'dbt'"),
         logged (Spawn argv) w)
    | DbtExit status after =>
        if bool_decide (status = 0)
        then (Ok tt, logged (Print Stdout msg) (set_db (logged (Spawn argv) w) after))
        else (Raise (Error C_CalledProcessError
                       ("Command 'dbt' returned non-zero exit status " +:+ pretty status)),
              set_db (logged (Spawn argv) w) after)
    end.
Proof.
  unfold subprocess_run_dbt, emit, modify, get_world, raise, print, mbind, py_bind,
    mret, py_ret. simpl.
  destruct (dbt_run L (files w) (db w)) as [| status after]; [reflexivity |].
  by destruct (bool_decide (status = 0)).
Qed.

(** With [dbt_project.yml] in place, [run_dbt_pipeline] writes the four
    model files, rewrites the project file with its updated content, and
    only then starts [dbt], once, on the project and profile directories.
    The outcome is [dbt]'s: it returns if [dbt] exits with 0, raises
    [CalledProcessError] if [dbt] exits with anything else, and raises
    [FileNotFoundError] if there is no [dbt] to start; the database is
    what [dbt] left. *)
Theorem run_dbt_pipeline_with_project (L : libs) (w : world) (content : string) :
  files w !! dbt_project_yml w = Some content ->
  exists r w',
    pipeline.run_dbt_pipeline L w = (r, w') /\
    files w' = project_files w content /\
    match dbt_run L (project_files w content) (db w) with
    | DbtNotInstalled =>
        raises r C_FileNotFoundError /\ db w' = db w /\
        new_events w w' = project_events w
    | DbtExit status after =>
        db w' = after /\
        if bool_decide (status = 0)
        then r = Ok tt /\
             new_events w w' = project_events w ++ [Print Stdout "Pipeline execution complete."]
        else raises r C_CalledProcessError /\ new_events w w' = project_events w
    end.
Proof.
  intros Hfile.
  assert (Hs : forall d d' : gset path,
             staging_dir w ∈ d ∪ list_to_set (prefixes (staging_dir w)) ∪ d').
  { intros d d'. apply elem_of_union_l, made_in_dirs.
    unfold staging_dir. by destruct (project_dir w). }
  assert (Hm : forall d : gset path, marts_dir w ∈ d ∪ list_to_set (prefixes (marts_dir w))).
  { intros d. apply made_in_dirs. unfold marts_dir. by destruct (project_dir w). }
  assert (Hp : forall d d' : gset path,
             project_dir w ∈ d ∪ list_to_set (prefixes (staging_dir w)) ∪ d').
  { intros d d'. apply elem_of_union_l, elem_of_union_r, elem_of_list_to_set.
    unfold staging_dir. apply prefixes_app. unfold project_dir. by destruct (cwd w). }
  assert (Hneq : forall (p q : path) (x y : string), x <> y -> p ++ [x] <> q ++ [y])
    by exact path_neq_last.
  assert (Hpre : exists w0,
    pipeline.run_dbt_pipeline L w =
      (subprocess_run_dbt L (dbt_command w) ;; print "Pipeline execution complete.") w0 /\
    files w0 = project_files w content /\ db w0 = db w /\
    log w0 = log w ++
      [ Makedirs (staging_dir w); Makedirs (marts_dir w);
        Print Stdout "Creating core dbt project files...";
        OpenWrite (sources_yml w); OpenWrite (staging_sql w);
        OpenWrite (schema_yml w); OpenWrite (marts_sql w);
        OpenRead (dbt_project_yml w); OpenWrite (dbt_project_yml w);
        Print Stdout "Running the dbt pipeline..." ]).
  { eexists. split.
    - unfold pipeline.run_dbt_pipeline.
      eapply bind_ok; [reflexivity |]. cbv zeta.
      eapply bind_ok; [apply makedirs_eq |].
      eapply bind_ok; [apply makedirs_eq |].
      eapply bind_ok; [apply print_eq |].
      do 3 (eapply bind_ok;
            [apply write_file_eq; unfold path_join; rewrite parent_snoc;
             apply dir_exists_intro; simpl; apply Hs |]).
      eapply bind_ok.
      { apply write_file_eq. unfold path_join. rewrite parent_snoc.
        apply dir_exists_intro. simpl. apply Hm. }
      eapply bind_ok.
      { apply read_file_found. simpl. unfold path_join.
        do 4 (rewrite lookup_insert_ne
                by (unfold staging_dir, marts_dir, dbt_project_yml; apply Hneq; done)).
        exact Hfile. }
      cbv zeta.
      eapply bind_ok.
      { apply write_file_eq. unfold path_join. rewrite parent_snoc.
        apply dir_exists_intro. simpl. apply Hp. }
      eapply bind_ok; [apply print_eq |].
      eapply bind_ok; [reflexivity |].
      reflexivity.
    - simpl. split; [reflexivity |]. split; [reflexivity |]. by rewrite <- !app_assoc. }
  destruct Hpre as (w0 & Hrun & Hfiles & Hdb & Hlog).
  rewrite Hrun, subprocess_then_print, Hfiles, Hdb.
  destruct (dbt_run L (project_files w content) (db w)) as [| status after].
  - eexists. eexists. split; [reflexivity |]. split; [exact Hfiles |].
    split; [by eexists |]. split; [exact Hdb |].
    apply new_events_app. simpl. rewrite Hlog. by rewrite <- app_assoc.
  - destruct (bool_decide (status = 0)).
    + eexists. eexists. split; [reflexivity |]. split; [exact Hfiles |].
      split; [reflexivity |]. split; [reflexivity |].
      apply new_events_app. simpl. rewrite Hlog. by rewrite <- !app_assoc.
    + eexists. eexists. split; [reflexivity |]. split; [exact Hfiles |].
      split; [reflexivity |]. split; [by eexists |].
      apply new_events_app. simpl. rewrite Hlog. by rewrite <- app_assoc.
Qed.

Lemma run_dbt_pipeline_with_project_witness :
  files Sample.with_project !! dbt_project_yml Sample.with_project = Some Sample.project_text /\
  exists r w',
    pipeline.run_dbt_pipeline Sample.library Sample.with_project = (r, w') /\
    files w' = project_files Sample.with_project Sample.project_text.
Proof.
  assert (H : files Sample.with_project !! dbt_project_yml Sample.with_project
              = Some Sample.project_text) by (vm_compute; reflexivity).
  split; [exact H |].
  destruct (run_dbt_pipeline_with_project Sample.library Sample.with_project _ H)
    as (r & w' & Hrun & Hfiles & _).
  exists r, w'. auto.
Defined.

Lemma create_dbt_profiles_idempotent_witness :
  (∅ : gmap string string) !! "DB_HOST" = None /\
  exists w',
    pipeline.create_dbt_profiles ∅ Sample.fresh = (Raise (Error C_KeyError "'DB_HOST'"), w') /\
    files w' = files Sample.fresh.
Proof.
  assert (H : (∅ : gmap string string) !! "DB_HOST" = None) by reflexivity.
  split; [exact H |].
  destruct (create_dbt_profiles_idempotent "h" "p" "n" "u" "s" Sample.fresh) as [_ Hmissing].
  destruct (Hmissing ∅ H) as (w' & Hrun & Hfiles & _).
  exists w'. auto.
Defined.

(** ** One record *)

Lemma execute_ok_inv (L : libs) (h : nat) (stmt : statement) (s : session) (w w' : world) :
  sessions w !! h = Some s -> usable s ->
  execute L h stmt w = (Ok tt, w') ->
  exists d, exec_sql L stmt (visible w s) = Ok d /\ w' = executed h stmt d w.
Proof.
  intros Hs Hu Hrun.
  destruct (exec_sql L stmt (visible w s)) as [d | e] eqn:He.
  - rewrite (execute_ok L h stmt s d w Hs Hu He) in Hrun. exists d. by inversion Hrun.
  - rewrite (execute_fail L h stmt s e w Hs Hu He) in Hrun. discriminate Hrun.
Qed.

Lemma find_absent (key : string) (items : list (string * pyval)) :
  key ∉ fst <$> items ->
  List.find (fun kv => bool_decide (fst kv = key)) items = None.
Proof.
  induction items as [| [k v] items IH]; simpl; [done |]. intros Hnot.
  apply not_elem_of_cons in Hnot as [Hne Hnot].
  rewrite bool_decide_eq_false_2 by done. by apply IH.
Qed.

Lemma py_get_dict (items : list (string * pyval)) (key : string) :
  py_get (PDict items) key =
    Ok (default PNone (snd <$> List.find (fun kv => bool_decide (fst kv = key)) items)).
Proof. reflexivity. Qed.

Lemma py_get_absent (items : list (string * pyval)) (key : string) :
  key ∉ fst <$> items -> py_get (PDict items) key = Ok PNone.
Proof. intros H. by rewrite py_get_dict, find_absent. Qed.

(** What the server does with the [INSERT] of five parameters into the
    table as [create_table] makes it. *)
Lemma insert_standard (L : libs) (v1 v2 v3 v4 v5 : pyval) (rows : list (list cell))
    (d d' : database) :
  d !! "raw_saas_metrics" = Some (Table database_setup.raw_saas_metrics_schema rows) ->
  exec_sql L (database_setup.insert_query [v1; v2; v3; v4; v5]) d = Ok d' ->
  exists c1 c2 c3 c4 c5,
    bind_param L T_INT v1 = Some c1 /\ bind_param L T_DATE v2 = Some c2 /\
    bind_param L T_DECIMAL v3 = Some c3 /\ bind_param L T_DATE v4 = Some c4 /\
    bind_param L (T_VARCHAR 50) v5 = Some c5 /\
    is_null c1 = false /\
    existsb (fun r => cells_eqb (key_of database_setup.raw_saas_metrics_schema r) [c1]) rows
      = false /\
    d' = with_row rows [c1; c2; c3; c4; c5] d.
Proof.
  intros Ht. unfold database_setup.insert_query, exec_sql, insert_into. rewrite Ht.
  cbn [t_schema t_rows]. 
  change (List.find _ ["customer_id"; "subscription_start_date"; "monthly_recurring_revenue";
                       "churn_date"; "plan_type"]) with (@None string).
  cbn [build_row database_setup.raw_saas_metrics_schema zip zip_with col_name col_type].
  change (default PNone (snd <$> List.find (fun kv => bool_decide (fst kv = "customer_id")) _))
    with v1.
  change (default PNone (snd <$> List.find
            (fun kv => bool_decide (fst kv = "subscription_start_date")) _)) with v2.
  change (default PNone (snd <$> List.find
            (fun kv => bool_decide (fst kv = "monthly_recurring_revenue")) _)) with v3.
  change (default PNone (snd <$> List.find
            (fun kv => bool_decide (fst kv = "churn_date")) _)) with v4.
  change (default PNone (snd <$> List.find
            (fun kv => bool_decide (fst kv = "plan_type")) _)) with v5.
  destruct (bind_param L T_INT v1) as [c1 |]; [| intros [=]].
  destruct (bind_param L T_DATE v2) as [c2 |]; [| intros [=]].
  destruct (bind_param L T_DECIMAL v3) as [c3 |]; [| intros [=]].
  destruct (bind_param L T_DATE v4) as [c4 |]; [| intros [=]].
  destruct (bind_param L (T_VARCHAR 50) v5) as [c5 |]; [| intros [=]].
  change (key_of database_setup.raw_saas_metrics_schema [c1; c2; c3; c4; c5]) with [c1].
  cbn [existsb orb]. rewrite orb_false_r.
  destruct (is_null c1) eqn:Hnull; [intros [=] |].
  rewrite bool_decide_eq_false_2 by discriminate. cbn [negb andb].
  destruct (existsb _ rows) eqn:Hdup; [intros [=] |].
  intros [= <-]. by exists c1, c2, c3, c4, c5.
Qed.

(** A field the record lacks is stored as [NULL], and a record is only
    ever stored with its [customer_id].  On a connection that can run a
    statement and sees the table as [create_table] makes it, a successful
    [insert_record] of a JSON object adds exactly one row of five cells to
    the working copy; the cell of every column whose name is not a key of
    the object is [NULL]; [customer_id] is a key of the object and its
    cell is not [NULL]. *)
Theorem absent_fields_are_stored_as_null (L : libs) (conn : nat) (s : session)
    (items : list (string * pyval)) (rows : list (list cell)) (w w' : world) :
  sessions w !! conn = Some s -> usable s ->
  visible w s !! "raw_saas_metrics"
    = Some (Table database_setup.raw_saas_metrics_schema rows) ->
  database_setup.insert_record L conn (PDict items) w = (Ok tt, w') ->
  exists row,
    sessions w' !! conn = Some (Session false (TxOpen (with_row rows row (visible w s)))) /\
    length row = 5%nat /\
    (forall i key, raw_columns !! i = Some key -> key ∉ fst <$> items ->
                   row !! i = Some CNull) /\
    "customer_id" ∈ fst <$> items /\
    row !! 0%nat <> Some CNull.
Proof.
  intros Hs Hu Ht Hrun.
  unfold database_setup.insert_record in Hrun.
  rewrite !py_get_dict in Hrun.
  unfold lift_result, mbind, py_bind in Hrun.
  apply (execute_ok_inv L conn _ s w w' Hs Hu) in Hrun as (d' & Hexec & ->).
  apply (insert_standard L _ _ _ _ _ rows _ _ Ht) in Hexec
    as (c1 & c2 & c3 & c4 & c5 & H1 & H2 & H3 & H4 & H5 & Hnull & _ & ->).
  exists [c1; c2; c3; c4; c5].
  split; [simpl; by eapply lookup_session_insert |].
  split; [reflexivity |].
  assert (Habsent : forall key ty c,
            bind_param L ty
              (default PNone (snd <$> List.find (fun kv => bool_decide (fst kv = key)) items))
              = Some c ->
            key ∉ fst <$> items -> c = CNull).
  { intros key ty c Hc Hnot. rewrite (find_absent key items Hnot) in Hc.
    simpl in Hc. by inversion Hc. }
  split; [| split].
  - intros i key Hi Hnot.
    destruct i as [| [| [| [| [| i]]]]]; simpl in Hi; inversion Hi; subst key; simpl;
      f_equal; eapply Habsent; eassumption.
  - destruct (decide ("customer_id" ∈ fst <$> items)) as [Hin | Hnot]; [exact Hin |].
    rewrite (Habsent _ _ _ H1 Hnot) in Hnull. discriminate Hnull.
  - simpl. intros [= ->]. discriminate Hnull.
Qed.


Lemma absent_fields_are_stored_as_null_witness :
  let items :=
    [ ("customer_id", PInt 1); ("subscription_start_date", PStr "2023-01-15");
      ("monthly_recurring_revenue", PInt 100); ("plan_type", PStr "pro") ] in
  let w' := snd (database_setup.insert_record Sample.library 0 (PDict items) Sample.clash) in
  sessions Sample.clash !! 0%nat = Some idle /\ usable idle /\
  visible Sample.clash idle !! "raw_saas_metrics"
    = Some (Table database_setup.raw_saas_metrics_schema []) /\
  database_setup.insert_record Sample.library 0 (PDict items) Sample.clash = (Ok tt, w') /\
  exists row,
    sessions w' !! 0%nat = Some (Session false (TxOpen (with_row [] row (db Sample.clash)))) /\
    row !! 3%nat = Some CNull.
Proof.
  intros items w'.
  assert (H1 : sessions Sample.clash !! 0%nat = Some idle) by reflexivity.
  assert (H2 : usable idle) by (split; [reflexivity | discriminate]).
  assert (H3 : visible Sample.clash idle !! "raw_saas_metrics"
               = Some (Table database_setup.raw_saas_metrics_schema [])) by reflexivity.
  assert (H4 : database_setup.insert_record Sample.library 0 (PDict items) Sample.clash
               = (Ok tt, w')).
  { unfold w'. rewrite (surjective_pairing (database_setup.insert_record _ _ _ _)) at 1.
    f_equal; vm_compute; reflexivity. }
  split; [exact H1 |]. split; [exact H2 |]. split; [exact H3 |]. split; [exact H4 |].
  destruct (absent_fields_are_stored_as_null Sample.library 0 idle items [] Sample.clash w'
              H1 H2 H3 H4) as (row & Hs & _ & Hnull & _).
  exists row. split; [exact Hs |].
  apply (Hnull 3%nat "churn_date"); [reflexivity |].
  unfold items. simpl. intros Hin.
  repeat (apply elem_of_cons in Hin as [Hin | Hin]; [discriminate Hin |]).
  by apply elem_of_nil in Hin.
Defined.
